(** * Sahamyab scraper: a shallow embedding of [getFromSahamyab.py]

    The development follows the source file top to bottom:
    [to_datetime], [refresh_token], [update_config_refresh_token],
    [load_data], [scrape_sahamyab] and [main].

    Everything outside the process is explicit:
    - the file system is two finite maps from paths to files, one for JSON
      configuration files and one for CSV record files (the two kinds of
      file are assumed to live at different paths);
    - the two HTTP endpoints are oracles indexed by the number of calls made
      so far, so that any sequence of replies can be described;
    - a [KeyboardInterrupt] can be delivered at each blocking operation of
      the ingestion loop (both network calls and every row write);
    - [logging] output at level INFO and above is a list of structured
      events ([logging.debug] lines are below the configured level and
      leave no trace).

    A Python [str] is a string of characters with code points 0 to 255,
    one character of the model per code point. Text with higher code
    points has no model where the program inspects it (timestamps,
    numbers); where the program only passes it on (the symbol, user names,
    contents) it is carried as its UTF-8 bytes.

    Some inputs have no model: a configuration value of a kind the callee
    does not expect, and a record file whose [id] column [pd.read_csv]
    would not read as 64-bit integers. On these [seed_cursor],
    [scrape_sahamyab], [scrape_arguments] and [main] return [None], which
    says nothing about the program. *)

From stdpp Require Import base gmap strings list.
From Stdlib Require Import ZArith Lia Ascii.

Local Open Scope Z_scope.

(** ** Exceptions and control flow *)

(** The three messages carried by the [RuntimeError]s of the source. *)
Inductive rt_msg : Type :=
| UnableToAcquireToken
| DataCorrupted
| BadResponse (status : Z).

Inductive exn : Type :=
| KeyboardInterrupt
| RuntimeError (m : rt_msg)
| IndexError
| KeyError (key : string)
| ValueError
| TypeError
| FileNotFoundError
| PermissionError
| JSONDecodeError
| RequestException
| EmptyDataError
| ParserError.

(** [except Exception] catches everything but [KeyboardInterrupt], which
    derives from [BaseException] only. *)
Definition is_Exception (e : exn) : bool :=
  match e with
  | KeyboardInterrupt => false
  | _ => true
  end.

(** Result of a call: a value or a raised exception. *)
Inductive result (A : Type) : Type :=
| Ok (a : A)
| Raise (e : exn).
Arguments Ok {A} a.
Arguments Raise {A} e.

(** Completion of a statement. *)
Inductive signal : Type :=
| SNormal
| SContinue
| SBreak
| SReturn
| SRaise (e : exn).

(** ** Python string helpers used by the source *)

Definition is_digit (c : ascii) : bool :=
  let n := nat_of_ascii c in (48 <=? n)%nat && (n <=? 57)%nat.

Definition digit_val (c : ascii) : Z := Z.of_nat (nat_of_ascii c) - 48.

(** Whitespace stripped by [int()]: TAB..CR and SPACE, and the two
    spaces above 127, NEL (133) and NBSP (160). *)
Definition is_space (c : ascii) : bool :=
  let n := nat_of_ascii c in
  ((9 <=? n)%nat && (n <=? 13)%nat) || (n =? 32)%nat || (n =? 133)%nat || (n =? 160)%nat.

Fixpoint lstrip (s : string) : string :=
  match s with
  | String c s' => if is_space c then lstrip s' else s
  | EmptyString => EmptyString
  end.

Fixpoint rstrip (s : string) : string :=
  match s with
  | String c s' =>
      match rstrip s' with
      | EmptyString => if is_space c then EmptyString else String c EmptyString
      | r => String c r
      end
  | EmptyString => EmptyString
  end.

(** Decimal digits, with single underscores allowed between digits. *)
Fixpoint parse_digits (s : string) (after_digit : bool) (acc : Z) : option Z :=
  match s with
  | EmptyString => if after_digit then Some acc else None
  | String c s' =>
      if is_digit c then parse_digits s' true (10 * acc + digit_val c)
      else if Ascii.eqb c "_"%char && after_digit then parse_digits s' false acc
      else None
  end.

(** [int(s)]: [None] stands for [ValueError]. Below 256 the decimal
    digits are [0] to [9]. *)
Definition py_int (s : string) : option Z :=
  match rstrip (lstrip s) with
  | String "-"%char r => Z.opp <$> parse_digits r false 0
  | String "+"%char r => parse_digits r false 0
  | r => parse_digits r false 0
  end.

Fixpoint all_digits (s : string) : bool :=
  match s with
  | EmptyString => true
  | String c s' => is_digit c && all_digits s'
  end.

Definition digits_value (s : string) : Z := default 0 (parse_digits s false 0).

(** [s.split(sep)] for a one-character separator. *)
Fixpoint split_on (sep : ascii) (s : string) : list string :=
  match s with
  | EmptyString => [EmptyString]
  | String c s' =>
      if Ascii.eqb c sep then EmptyString :: split_on sep s'
      else match split_on sep s' with
           | p :: ps => String c p :: ps
           | [] => [String c EmptyString]
           end
  end.

(** [xs[i]]: [IndexError] when out of range. *)
Definition py_index {A : Type} (xs : list A) (i : nat) : result A :=
  match xs !! i with
  | Some x => Ok x
  | None => Raise IndexError
  end.

(** [xs[-1]]. *)
Definition py_last {A : Type} (xs : list A) : result A :=
  match last xs with
  | Some x => Ok x
  | None => Raise IndexError
  end.

Definition int_or_raise (s : string) : result Z :=
  match py_int s with
  | Some z => Ok z
  | None => Raise ValueError
  end.

Definition bind_result {A B : Type} (r : result A) (k : A → result B) : result B :=
  match r with
  | Ok a => k a
  | Raise e => Raise e
  end.

Notation "x <~ r ;;; k" := (bind_result r (fun x => k))
  (at level 100, r at next level, right associativity).

(** ** [datetime.datetime] *)

Record datetime : Type := mkdt {
  dt_year : Z; dt_month : Z; dt_day : Z;
  dt_hour : Z; dt_minute : Z; dt_second : Z; dt_micro : Z
}.

Definition is_leap (y : Z) : bool :=
  (y mod 4 =? 0) && (negb (y mod 100 =? 0) || (y mod 400 =? 0)).

Definition days_in_month (y m : Z) : Z :=
  if m =? 2 then (if is_leap y then 29 else 28)
  else if (m =? 4) || (m =? 6) || (m =? 9) || (m =? 11) then 30
  else 31.

Definition in_range (lo x hi : Z) : bool := (lo <=? x) && (x <=? hi).

(** The range checks of the [datetime] constructor. *)
Definition valid_fields (y m d hh mm ss us : Z) : bool :=
  in_range 1 y 9999 && in_range 1 m 12 && in_range 1 d (days_in_month y m)
  && in_range 0 hh 23 && in_range 0 mm 59 && in_range 0 ss 59
  && in_range 0 us 999999.

Definition valid_datetime (t : datetime) : bool :=
  valid_fields (dt_year t) (dt_month t) (dt_day t)
               (dt_hour t) (dt_minute t) (dt_second t) (dt_micro t).

(** [dt.datetime(y, m, d, hour=hh, minute=mm, second=ss)]. *)
Definition make_datetime (y m d hh mm ss : Z) : result datetime :=
  if valid_fields y m d hh mm ss 0 then Ok (mkdt y m d hh mm ss 0)
  else Raise ValueError.

(** Naive datetimes compare as the tuples of their fields. *)
Fixpoint lex_ltb (xs ys : list Z) : bool :=
  match xs, ys with
  | x :: xs', y :: ys' => (x <? y) || ((x =? y) && lex_ltb xs' ys')
  | _, _ => false
  end.

Definition dt_fields (t : datetime) : list Z :=
  [dt_year t; dt_month t; dt_day t; dt_hour t; dt_minute t; dt_second t; dt_micro t].

Definition dt_ltb (a b : datetime) : bool := lex_ltb (dt_fields a) (dt_fields b).

(** [a > b]. *)
Definition dt_gtb (a b : datetime) : bool := dt_ltb b a.

(** Zero-padded decimal rendering of the [width] low digits of [n]. *)
Fixpoint pad_digits (width : nat) (n : nat) : string :=
  match width with
  | O => EmptyString
  | S w => pad_digits w (n / 10)%nat
           +:+ String (ascii_of_nat (48 + n mod 10)%nat) EmptyString
  end.

Definition pad (width : nat) (z : Z) : string := pad_digits width (Z.to_nat z).

(** [str(t)], as [csv.DictWriter] renders the [time] cell. *)
Definition str_datetime (t : datetime) : string :=
  pad 4 (dt_year t) +:+ "-" +:+ pad 2 (dt_month t) +:+ "-" +:+ pad 2 (dt_day t)
  +:+ " " +:+ pad 2 (dt_hour t) +:+ ":" +:+ pad 2 (dt_minute t)
  +:+ ":" +:+ pad 2 (dt_second t)
  +:+ (if dt_micro t =? 0 then "" else "." +:+ pad 6 (dt_micro t)).

(** ** [to_datetime] (source lines 57-78) *)

Definition to_datetime (_date : string) : result datetime :=
  let parts := split_on "T"%char _date in
  d0 <~ py_index parts 0 ;;;
  let date := split_on "-"%char d0 in
  d1 <~ py_index parts 1 ;;;
  let time_part := split_on ":"%char d1 in
  ys <~ py_index date 0 ;;; y <~ int_or_raise ys ;;;
  ms <~ py_index date 1 ;;; m <~ int_or_raise ms ;;;
  ds <~ py_index date 2 ;;; d <~ int_or_raise ds ;;;
  hs <~ py_index time_part 0 ;;; hh <~ int_or_raise hs ;;;
  ns <~ py_index time_part 1 ;;; mm <~ int_or_raise ns ;;;
  ss0 <~ py_index time_part 2 ;;;
  ss1 <~ py_index (split_on "Z"%char ss0) 0 ;;;
  ss <~ int_or_raise ss1 ;;;
  make_datetime y m d hh mm ss.

(** ** The outside world *)

(** JSON values found in [config.json]: strings, integers, anything else
    (floats, booleans, null, arrays, objects). *)
Inductive json_val : Type :=
| JStr (s : string)
| JInt (z : Z)
| JOther.

(** A configuration file: its parsed JSON object ([None] when the text is
    not JSON) and whether it may be rewritten. *)
Record cfg_file : Type := mkcfg {
  cf_json : option (gmap string json_val);
  cf_writable : bool
}.

(** A CSV file, one list of cells per line. Lines written through an open
    handle stay in [f_buf] until [close()] moves them to [f_disk]; this is
    the least the buffered writer guarantees. *)
Record csv_file : Type := mkcsv {
  f_disk : list (list string);
  f_buf : list (list string);
  f_open : bool;
  f_writable : bool
}.

Inductive req_body : Type :=
| BodyTag (tag : string)
| BodyIdTag (id tag : string).

Inductive request : Type :=
| AuthRequest (refresh : string)
| ListRequest (authorization : string) (data : req_body).

(** What [requests.post] does: a reply with a status code and a decoded
    body ([None] when the body is not JSON of the expected shape), a
    transport failure, or a [KeyboardInterrupt] while waiting. *)
Inductive net_result (B : Type) : Type :=
| Replied (status : Z) (body : option B)
| NetFailed
| NetInterrupted.
Arguments Replied {B} status body.
Arguments NetFailed {B}.
Arguments NetInterrupted {B}.

Record env : Type := mkenv {
  env_now : datetime;
  env_auth : nat → net_result (gmap string string);
  env_list : nat → net_result (list (gmap string string));
  env_write_interrupt : nat → bool
}.

Inductive log_event : Type :=
| InfoNewToken
| InfoConfigUpdated
| ErrorConfigUpdate (e : exn)
| ErrorRefreshing (e : exn)
| InfoStatus (code : Z)
| InfoPageInProgress (page : Z)
| ErrorOnPage (page : Z) (e : exn)
| WarnUnableToAcquire (e : exn)
| InfoPageSuccess (page : Z) (last_date : datetime)
| InfoRule
| WarnInterrupted
| InfoFileClosed (file_name : string)
| ErrorThresholdReached
| InfoDone
| InfoDefaultConfig.

Record world : Type := mkworld {
  w_configs : gmap string cfg_file;
  w_files : gmap string csv_file;
  w_can_create : bool;
  w_log : list log_event;
  w_net : list request;
  w_nauth : nat;
  w_nlist : nat;
  w_nwrite : nat
}.

Definition set_configs (c : gmap string cfg_file) (w : world) : world :=
  mkworld c (w_files w) (w_can_create w) (w_log w) (w_net w)
          (w_nauth w) (w_nlist w) (w_nwrite w).

Definition set_files (f : gmap string csv_file) (w : world) : world :=
  mkworld (w_configs w) f (w_can_create w) (w_log w) (w_net w)
          (w_nauth w) (w_nlist w) (w_nwrite w).

Definition add_log (ev : log_event) (w : world) : world :=
  mkworld (w_configs w) (w_files w) (w_can_create w) (w_log w ++ [ev]) (w_net w)
          (w_nauth w) (w_nlist w) (w_nwrite w).

Definition sent_auth (r : request) (w : world) : world :=
  mkworld (w_configs w) (w_files w) (w_can_create w) (w_log w) (w_net w ++ [r])
          (S (w_nauth w)) (w_nlist w) (w_nwrite w).

Definition sent_list (r : request) (w : world) : world :=
  mkworld (w_configs w) (w_files w) (w_can_create w) (w_log w) (w_net w ++ [r])
          (w_nauth w) (S (w_nlist w)) (w_nwrite w).

Definition count_write (w : world) : world :=
  mkworld (w_configs w) (w_files w) (w_can_create w) (w_log w) (w_net w)
          (w_nauth w) (w_nlist w) (S (w_nwrite w)).

(** ** Calls: a state and exception monad over the world *)

Definition M (A : Type) : Type := world → result A * world.

Definition ret {A : Type} (a : A) : M A := fun w => (Ok a, w).

Definition raise {A : Type} (e : exn) : M A := fun w => (Raise e, w).

Definition bind {A B : Type} (c : M A) (k : A → M B) : M B :=
  fun w => match c w with
           | (Ok a, w') => k a w'
           | (Raise e, w') => (Raise e, w')
           end.

Notation "x <- c ;; k" := (bind c (fun x => k))
  (at level 100, c at next level, right associativity).
Notation "c ;; k" := (bind c (fun _ => k))
  (at level 100, right associativity).

(** [try: body / except Exception as e: handler e]. *)
Definition try_except {A : Type} (body : M A) (handler : exn → M A) : M A :=
  fun w => match body w with
           | (Raise e, w') => if is_Exception e then handler e w' else (Raise e, w')
           | r => r
           end.

Definition lift {A : Type} (r : result A) : M A := fun w => (r, w).

Definition logging (ev : log_event) : M unit := fun w => (Ok tt, add_log ev w).

(** [d[k]] on a dict. *)
Definition dict_get {V : Type} (d : gmap string V) (k : string) : result V :=
  match d !! k with
  | Some v => Ok v
  | None => Raise (KeyError k)
  end.

Definition net_outcome {B : Type} (r : net_result B) : result (Z * option B) :=
  match r with
  | Replied st b => Ok (st, b)
  | NetFailed => Raise RequestException
  | NetInterrupted => Raise KeyboardInterrupt
  end.

(** [req.post] to the authentication endpoint. *)
Definition post_auth (ev : env) (token : string) : M (Z * option (gmap string string)) :=
  fun w => (net_outcome (env_auth ev (w_nauth w)), sent_auth (AuthRequest token) w).

(** [req.post] to the content endpoint. *)
Definition post_list (ev : env) (authorization : string) (data : req_body)
  : M (Z * option (list (gmap string string))) :=
  fun w => (net_outcome (env_list ev (w_nlist w)),
            sent_list (ListRequest authorization data) w).

(** [json.load] of the file at [path]. *)
Definition read_json (path : string) : M (gmap string json_val) :=
  fun w => match w_configs w !! path with
           | None => (Raise FileNotFoundError, w)
           | Some f => match cf_json f with
                       | None => (Raise JSONDecodeError, w)
                       | Some c => (Ok c, w)
                       end
           end.

(** [json.dump] into the file at [path], opened with mode ['w']. *)
Definition write_json (path : string) (c : gmap string json_val) : M unit :=
  fun w => match w_configs w !! path with
           | Some f =>
               if cf_writable f
               then (Ok tt, set_configs (<[path := mkcfg (Some c) true]> (w_configs w)) w)
               else (Raise PermissionError, w)
           | None =>
               if w_can_create w
               then (Ok tt, set_configs (<[path := mkcfg (Some c) true]> (w_configs w)) w)
               else (Raise PermissionError, w)
           end.

(** ** [refresh_token] (source lines 81-111) *)

Definition refresh_token (ev : env) (token : string) : M (string * string * string) :=
  res <- post_auth ev token ;;
  if fst res =? 200 then
    match snd res with
    | None => raise JSONDecodeError
    | Some res_json =>
        logging InfoNewToken ;;
        tk <- lift (dict_get res_json "token_type") ;;
        ac <- lift (dict_get res_json "access_token") ;;
        rf <- lift (dict_get res_json "refresh_token") ;;
        ret (tk, ac, rf)
    end
  else raise (RuntimeError UnableToAcquireToken).

(** ** [update_config_refresh_token] (source lines 114-130) *)

Definition update_config_refresh_token (config_path new_ref_token : string) : M unit :=
  try_except
    (config <- read_json config_path ;;
     write_json config_path (<["ref_token" := JStr new_ref_token]> config) ;;
     logging InfoConfigUpdated)
    (fun e => logging (ErrorConfigUpdate e)).

(** ** [load_data] (source lines 133-172) *)

(** The body of the request; [l_id] is [str(l_id)] already, which is all
    [load_data] makes of its argument. *)
Definition request_data (n_page : Z) (l_id symbol : string) : req_body :=
  if n_page <? 1 then BodyTag symbol else BodyIdTag l_id symbol.

Definition load_data (ev : env) (token_type access_token : string) (n_page : Z)
    (l_id symbol : string) : M (list (gmap string string)) :=
  let data := request_data n_page l_id symbol in
  res <- post_list ev (token_type +:+ " " +:+ access_token) data ;;
  if fst res =? 200 then
    logging (InfoStatus (fst res)) ;;
    match snd res with
    | Some items => ret items
    | None => raise (RuntimeError DataCorrupted)
    end
  else raise (RuntimeError (BadResponse (fst res))).

(** ** The record file *)

(** [pd.read_csv] with its default options, on a file given as its lines
    of fields (a blank line is the empty list). Blank lines are skipped
    and the first line left names the columns: without one the file is
    empty. Lines are as wide as the header or the first data line,
    whichever is wider: a shorter line is padded with missing values, a
    later line with more fields is a [ParserError]. The result is the
    header and the data lines as read, before padding and before the
    types of the columns are inferred. *)
Definition nonblank (r : list string) : bool :=
  match r with
  | [] => false
  | _ => true
  end.

Definition table_width (header : list string) (rows : list (list string)) : nat :=
  match rows with
  | [] => List.length header
  | r :: _ => Nat.max (List.length header) (List.length r)
  end.

Definition read_csv (path : string) : M (list string * list (list string)) :=
  fun w => match w_files w !! path with
           | None => (Raise FileNotFoundError, w)
           | Some f =>
               match List.filter nonblank (f_disk f) with
               | [] => (Raise EmptyDataError, w)
               | header :: rows =>
                   if forallb (fun r => (List.length r <=? table_width header rows)%nat) rows
                   then (Ok (header, rows), w)
                   else (Raise ParserError, w)
               end
           end.

Fixpoint index_of (name : string) (header : list string) : option nat :=
  match header with
  | [] => None
  | h :: t => if String.eqb h name then Some O else S <$> index_of name t
  end.

(** A field that pandas reads as a 64-bit integer: decimal digits after an
    optional minus sign, in range. Leading zeros are allowed and do not
    survive: [007] is read as 7. The other spellings pandas takes for an
    integer (a plus sign, blanks around the digits) are left without a
    model. *)
Definition int64_field (s : string) : option Z :=
  let signed := match s with
                | String "-"%char r => (true, r)
                | _ => (false, s)
                end in
  if all_digits (snd signed) && (1 <=? String.length (snd signed))%nat then
    let z := if fst signed then - digits_value (snd signed)
             else digits_value (snd signed) in
    if (- 2 ^ 63 <=? z) && (z <? 2 ^ 63) then Some z else None
  else None.

(** Column [i] of a table as a column of type [int64]: every line has the
    field and every field is an integer. *)
Fixpoint int64_column (i : nat) (rows : list (list string)) : option (list Z) :=
  match rows with
  | [] => Some []
  | r :: rest =>
      match r !! i ≫= int64_field, int64_column i rest with
      | Some z, Some zs => Some (z :: zs)
      | _, _ => None
      end
  end.

(** [df[name].iloc[-1]]: [KeyError] without such a column, [IndexError]
    without data lines. With data the value is the last integer of the
    column, a [numpy.int64]; there is no model ([None]) for a column that
    is not of type [int64], nor for a first data line wider than the
    header, whose extra fields pandas takes for an index. *)
Definition column_last (df : list string * list (list string)) (name : string)
  : option (result Z) :=
  match index_of name (fst df) with
  | None => Some (Raise (KeyError name))
  | Some i =>
      match snd df with
      | [] => Some (Raise IndexError)
      | r :: _ =>
          if (List.length (fst df) <? List.length r)%nat then None
          else zs ← int64_column i (snd df); Ok <$> last zs
      end
  end.

Definition digit_char (d : Z) : ascii := ascii_of_nat (Z.to_nat (48 + d)).

(** The decimal digits of [n] before [acc], most significant first. *)
Fixpoint z_digits (fuel : nat) (n : Z) (acc : string) : string :=
  let acc' := String (digit_char (n mod 10)) acc in
  match fuel with
  | O => acc'
  | S fuel' => if n <? 10 then acc' else z_digits fuel' (n / 10) acc'
  end.

(** [str(z)] for a [numpy.int64], which has at most 19 digits. *)
Definition str_int (z : Z) : string :=
  if z <? 0 then String "-"%char (z_digits 18 (- z) EmptyString)
  else z_digits 18 z EmptyString.

(** [open(path, mode=mode)] for the two modes the source uses. *)
Definition open_file (path mode : string) : M unit :=
  fun w =>
    if negb (String.eqb mode "a" || String.eqb mode "w") then (Raise ValueError, w)
    else match w_files w !! path with
         | Some f =>
             if f_writable f
             then (Ok tt, set_files
                     (<[path := mkcsv (if String.eqb mode "w" then [] else f_disk f)
                                      [] true true]> (w_files w)) w)
             else (Raise PermissionError, w)
         | None =>
             if w_can_create w
             then (Ok tt, set_files (<[path := mkcsv [] [] true true]> (w_files w)) w)
             else (Raise PermissionError, w)
         end.

(** One [writer.writerow] on the handle of [path]. *)
Definition writerow (ev : env) (path : string) (cells : list string) : M unit :=
  fun w =>
    if env_write_interrupt ev (w_nwrite w) then (Raise KeyboardInterrupt, count_write w)
    else match w_files w !! path with
         | Some f =>
             if f_open f
             then (Ok tt, count_write (set_files
                     (<[path := mkcsv (f_disk f) (f_buf f ++ [cells]) true (f_writable f)]>
                        (w_files w)) w))
             else (Raise ValueError, count_write w)
         | None => (Raise ValueError, count_write w)
         end.

Definition flush_close (f : csv_file) : csv_file :=
  mkcsv (f_disk f ++ f_buf f) [] false (f_writable f).

(** [_file.close()]. *)
Definition close_file (path : string) (w : world) : world :=
  match w_files w !! path with
  | Some f => set_files (<[path := flush_close f]> (w_files w)) w
  | None => w
  end.

(** ** [scrape_sahamyab] (source lines 175-290) *)

(** The parameters of [scrape_sahamyab] that are never reassigned. *)
Record params : Type := mkparams {
  file_name : string;
  symbol : string;
  error_thold : Z;
  start_date : datetime;
  config_path : string
}.

(** Its local variables ([ref_token] is the reassigned parameter;
    [repeat_flag] is the source's [repeat]). The variable [last_id] holds
    a [str] (initially, and after line 259) or the [numpy.int64] read from
    the record file (after line 216): [last_id] is the text [str(last_id)]
    of the value and [last_id_int] tells that the value is the integer. *)
Record locals : Type := mklocals {
  last_id : string;
  date : datetime;
  page : Z;
  token_type : string;
  access_token : string;
  ref_token : string;
  error_count : Z;
  o_mode : string;
  repeat_flag : bool;
  last_id_int : bool
}.

(** [last_id = v] for a [str]. *)
Definition set_last_id (v : string) (l : locals) : locals :=
  mklocals v (date l) (page l) (token_type l) (access_token l) (ref_token l)
           (error_count l) (o_mode l) (repeat_flag l) false.

(** [last_id = z] for a [numpy.int64]. *)
Definition set_last_int (z : Z) (l : locals) : locals :=
  mklocals (str_int z) (date l) (page l) (token_type l) (access_token l) (ref_token l)
           (error_count l) (o_mode l) (repeat_flag l) true.

Definition set_date (v : datetime) (l : locals) : locals :=
  mklocals (last_id l) v (page l) (token_type l) (access_token l) (ref_token l)
           (error_count l) (o_mode l) (repeat_flag l) (last_id_int l).

Definition set_page (v : Z) (l : locals) : locals :=
  mklocals (last_id l) (date l) v (token_type l) (access_token l) (ref_token l)
           (error_count l) (o_mode l) (repeat_flag l) (last_id_int l).

Definition set_tokens (t : string * string * string) (l : locals) : locals :=
  mklocals (last_id l) (date l) (page l) (fst (fst t)) (snd (fst t)) (snd t)
           (error_count l) (o_mode l) (repeat_flag l) (last_id_int l).

Definition set_error_count (v : Z) (l : locals) : locals :=
  mklocals (last_id l) (date l) (page l) (token_type l) (access_token l) (ref_token l)
           v (o_mode l) (repeat_flag l) (last_id_int l).

Definition set_o_mode (v : string) (l : locals) : locals :=
  mklocals (last_id l) (date l) (page l) (token_type l) (access_token l) (ref_token l)
           (error_count l) v (repeat_flag l) (last_id_int l).

Definition set_repeat (v : bool) (l : locals) : locals :=
  mklocals (last_id l) (date l) (page l) (token_type l) (access_token l) (ref_token l)
           (error_count l) (o_mode l) v (last_id_int l).

Definition field_names : list string := ["id"; "time"; "user"; "content"].

(** The [row] dict built for one item. *)
Record row : Type := mkrow {
  row_id : string; row_time : datetime; row_user : string; row_content : string
}.

Definition make_row (item : gmap string string) : result row :=
  i <~ dict_get item "id" ;;;
  st <~ dict_get item "sendTime" ;;;
  t <~ to_datetime st ;;;
  u <~ dict_get item "senderUsername" ;;;
  c <~ dict_get item "content" ;;;
  Ok (mkrow i t u c).

(** The cells [csv.DictWriter] writes for a row, in [field_names] order. *)
Definition row_cells (r : row) : list string :=
  [row_id r; str_datetime (row_time r); row_user r; row_content r].

Section Scraper.

Variable ev : env.
Variable a : params.

(** The two statements of both [try] bodies that renew the credential
    (lines 204-205 and 246-247). *)
Definition renew_credentials (l : locals) (w : world) : result unit * locals * world :=
  match refresh_token ev (ref_token l) w with
  | (Ok t, w1) =>
      let l1 := set_tokens t l in
      match update_config_refresh_token (config_path a) (ref_token l1) w1 with
      | (Ok _, w2) => (Ok tt, l1, w2)
      | (Raise e, w2) => (Raise e, l1, w2)
      end
  | (Raise e, w1) => (Raise e, l, w1)
  end.

(** [for item in items: ...] (lines 262-271). *)
Fixpoint write_items (items : list (gmap string string)) (l : locals) (w : world)
  : signal * locals * world :=
  match items with
  | [] => (SNormal, l, w)
  | item :: rest =>
      match make_row item with
      | Raise e => (SRaise e, l, w)
      | Ok r =>
          let l1 := set_date (row_time r) l in
          match writerow ev (file_name a) (row_cells r) w with
          | (Ok _, w1) => write_items rest l1 w1
          | (Raise e, w1) => (SRaise e, l1, w1)
          end
      end
  end.

(** [last_id == lid] for a [str] [lid]: an integer equals no [str]. *)
Definition last_id_is (l : locals) (lid : string) : bool :=
  negb (last_id_int l) && String.eqb (last_id l) lid.

(** Lines 255-277: what follows a successful [load_data]. *)
Definition process_page (items : list (gmap string string)) (l : locals) (w : world)
  : signal * locals * world :=
  match py_last items with
  | Raise e => (SRaise e, l, w)
  | Ok last_item =>
      match dict_get last_item "id" with
      | Raise e => (SRaise e, l, w)
      | Ok lid =>
          if last_id_is l lid then (SContinue, set_repeat true l, w)
          else
            let l1 := set_last_id lid l in
            match write_items items l1 w with
            | (SNormal, l2, w2) =>
                match (st <~ dict_get last_item "sendTime" ;;; to_datetime st) with
                | Raise e => (SRaise e, l2, w2)
                | Ok t =>
                    let w3 := add_log InfoRule (add_log (InfoPageSuccess (page l2) t) w2) in
                    (SNormal,
                     set_error_count 0 (set_page (page l2 + 1) (set_repeat false l2)),
                     w3)
                end
            | other => other
            end
      end
  end.

(** Lines 241-253: the handler of a failed [load_data]. *)
Definition on_fetch_error (e : exn) (l : locals) (w : world) : signal * locals * world :=
  let w1 := add_log (ErrorOnPage (page l) e) w in
  let l1 := set_error_count (error_count l + 1) l in
  if error_count l1 =? error_thold a then
    match renew_credentials l1 w1 with
    | (Ok _, l2, w2) => (SContinue, l2, w2)
    | (Raise e', l2, w2) =>
        if is_Exception e' then (SBreak, l2, add_log (WarnUnableToAcquire e') w2)
        else (SRaise e', l2, w2)
    end
  else if error_thold a + 5 <=? error_count l1 then (SBreak, l1, w1)
  else (SContinue, l1, w1).

(** One iteration of the [while] loop (lines 235-277). *)
Definition loop_body (l : locals) (w : world) : signal * locals * world :=
  let w0 := if repeat_flag l then w else add_log (InfoPageInProgress (page l)) w in
  match load_data ev (token_type l) (access_token l) (page l) (last_id l) (symbol a) w0 with
  | (Ok items, w1) => process_page items l w1
  | (Raise e, w1) =>
      if is_Exception e then on_fetch_error e l w1 else (SRaise e, l, w1)
  end.

(** [while date > start_date: ...]; [None] when the fuel runs out. *)
Fixpoint while_loop (fuel : nat) (l : locals) (w : world)
  : option (signal * locals * world) :=
  match fuel with
  | O => None
  | S fuel' =>
      if dt_gtb (date l) (start_date a) then
        match loop_body l w with
        | (SNormal, l', w') | (SContinue, l', w') => while_loop fuel' l' w'
        | (SBreak, l', w') => Some (SNormal, l', w')
        | other => Some other
        end
      else Some (SNormal, l, w)
  end.

(** [except KeyboardInterrupt:] (lines 278-280). *)
Definition except_interrupt (r : signal * locals * world) : signal * locals * world :=
  match r with
  | (SRaise KeyboardInterrupt, l, w) => (SNormal, l, add_log WarnInterrupted w)
  | other => other
  end.

(** The [finally:] block (lines 281-284); it ends in [return]. *)
Definition finally_block (l : locals) (w : world) : signal * locals * world :=
  (SReturn, l, add_log (InfoFileClosed (file_name a)) (close_file (file_name a) w)).

(** A [finally] block runs on every exit of the statement it guards; the
    pending completion survives only when the block completes normally. *)
Definition with_finally (fin : locals → world → signal * locals * world)
    (r : signal * locals * world) : signal * locals * world :=
  match r with
  | (pending, l, w) =>
      match fin l w with
      | (SNormal, l', w') => (pending, l', w')
      | other => other
      end
  end.

(** The rest of the [try] statement from the head of the loop. *)
Definition scrape_from (fuel : nat) (l : locals) (w : world)
  : option (signal * locals * world) :=
  (fun r => with_finally finally_block (except_interrupt r)) <$> while_loop fuel l w.

(** The [try] statement (lines 223-284). *)
Definition try_statement (fuel : nat) (l : locals) (w : world)
  : option (signal * locals * world) :=
  let header :=
    if String.eqb (o_mode l) "w" then writerow ev (file_name a) field_names w
    else (Ok tt, w) in
  match header with
  | (Ok _, w1) => scrape_from fuel (set_repeat false l) w1
  | (Raise e, w1) => Some (with_finally finally_block (except_interrupt (SRaise e, l, w1)))
  end.

(** Lines 286-290. *)
Definition report (l : locals) (w : world) : signal * locals * world :=
  if error_thold a <=? error_count l then (SNormal, l, add_log ErrorThresholdReached w)
  else (SNormal, l, add_log InfoDone w).

(** Lines 212-219: choose the mode and seed the cursor. *)
Definition seed_cursor (l : locals) (w : world) : option (signal * locals * world) :=
  match w_files w !! file_name a with
  | Some _ =>
      let l1 := set_o_mode "a" l in
      match read_csv (file_name a) w with
      | (Ok df, w1) =>
          match column_last df "id" with
          | Some (Ok z) => Some (SNormal, set_page (page l1 + 1) (set_last_int z l1), w1)
          | Some (Raise e) => Some (SRaise e, l1, w1)
          | None => None
          end
      | (Raise e, w1) => Some (SRaise e, l1, w1)
      end
  | None => Some (SNormal, set_o_mode "w" l, w)
  end.

Definition initial_locals (token : string) : locals :=
  mklocals "" (env_now ev) 0 "" "" token 0 "" false false.

Definition scrape_sahamyab (fuel : nat) (token : string) (w : world)
  : option (signal * locals * world) :=
  let l := initial_locals token in
  match renew_credentials l w with
  | (Raise e, l1, w1) =>
      if is_Exception e then Some (SReturn, l1, add_log (ErrorRefreshing e) w1)
      else Some (SRaise e, l1, w1)
  | (Ok _, l1, w1) =>
      match seed_cursor l1 w1 with
      | Some (SNormal, l2, w2) =>
          match open_file (file_name a) (o_mode l2) w2 with
          | (Raise e, w3) => Some (SRaise e, l2, w3)
          | (Ok _, w3) =>
              match try_statement fuel l2 w3 with
              | Some (SNormal, l4, w4) => Some (report l4 w4)
              | other => other
              end
          end
      | other => other
      end
  end.

End Scraper.

(** ** [main] (source lines 293-327) *)







(** The symbol of the default configuration, as UTF-8 bytes. *)
Definition default_symbol : string := "شبندر".

Definition default_config : gmap string json_val :=
  <["file_name" := JStr "data.csv"]>
  (<["symbol" := JStr default_symbol]>
  (<["error_thold" := JInt 5]>
  (<["ref_token" := JStr ""]>
  (<["start_date" := JStr "2020-08-01"]> ∅)))).

Definition main_config_path : string := "config.json".




(** * Vocabulary of the statements *)

(** The world in which [load_data] runs in an iteration. *)
Definition announced (l : locals) (w : world) : world :=
  if repeat_flag l then w else add_log (InfoPageInProgress (page l)) w.

(** The request an iteration sends. *)
Definition list_request (a : params) (l : locals) : request :=
  ListRequest (token_type l +:+ " " +:+ access_token l)
              (request_data (page l) (last_id l) (symbol a)).

(** The two lines of the exit report (source lines 287-290). *)
Definition is_report (e : log_event) : bool :=
  match e with
  | ErrorThresholdReached | InfoDone => true
  | _ => false
  end.

Definition reports (w : world) : list log_event := List.filter is_report (w_log w).

(** The rows of a page, when every item yields one. *)
Fixpoint rows_of (items : list (gmap string string)) : option (list row) :=
  match items with
  | [] => Some []
  | item :: rest =>
      match make_row item, rows_of rest with
      | Ok r, Some rs => Some (r :: rs)
      | _, _ => None
      end
  end.

(** The world after [lines] went through the open handle of [path]. *)
Definition store_append (path : string) (lines : list (list string)) (w : world) : world :=
  match w_files w !! path with
  | Some f =>
      mkworld (w_configs w)
              (<[path := mkcsv (f_disk f) (f_buf f ++ lines) true (f_writable f)]> (w_files w))
              (w_can_create w) (w_log w) (w_net w) (w_nauth w) (w_nlist w)
              (w_nwrite w + List.length lines)
  | None => w
  end.

(** The handle of [path] is open in [w]. *)
Definition store_open (path : string) (w : world) : Prop :=
  ∃ f, w_files w !! path = Some f ∧ f_open f = true.

(** Everything that went into a file, flushed or not. *)
Definition appended (f : csv_file) : list (list string) := f_disk f ++ f_buf f.

(** Completed iterations: the guard held and the body ended normally or
    with [continue]. *)
Inductive iterates (ev : env) (a : params) : locals * world → locals * world → Prop :=
| iterates_here s : iterates ev a s s
| iterates_step l w sig l1 w1 s2 :
    dt_gtb (date l) (start_date a) = true →
    loop_body ev a l w = (sig, l1, w1) →
    sig = SNormal ∨ sig = SContinue →
    iterates ev a (l1, w1) s2 →
    iterates ev a (l, w) s2.

(** A position of a datetime on a line: it respects the order of valid
    datetimes. *)
Definition dt_ordinal (t : datetime) : Z :=
  (((((dt_year t * 13 + dt_month t) * 32 + dt_day t) * 24 + dt_hour t) * 60
    + dt_minute t) * 60 + dt_second t) * 1000000 + dt_micro t.

(** A content endpoint that, from its call number [c] on, always answers
    with a well-formed page of records whose last record [newest k] has an
    id other than the one of the page before (and, for the first page,
    other than the cursor [lid]), and whose timestamps decrease from page
    to page as long as they are after the boundary; no row write is
    interrupted. *)
Record decreasing_endpoint (ev : env) (a : params) (c : nat) (lid : string)
    (pg : nat → list (gmap string string)) (newest : nat → row) : Prop := {
  de_reply : ∀ k, env_list ev (c + k) = Replied 200 (Some (pg k));
  de_rows : ∀ k, ∃ rs, rows_of (pg k) = Some rs ∧ last rs = Some (newest k);
  de_first : row_id (newest 0%nat) ≠ lid;
  de_fresh : ∀ k, row_id (newest (S k)) ≠ row_id (newest k);
  de_decreasing : ∀ k, dt_gtb (row_time (newest k)) (start_date a) = true →
                       dt_ltb (row_time (newest (S k))) (row_time (newest k)) = true;
  de_quiet : ∀ n, env_write_interrupt ev n = false
}.

(** The record file only grows between two worlds: what was appended
    stays, flushed lines stay flushed, and new lines come after. *)
Definition store_extends (path : string) (w w' : world) : Prop :=
  ∀ f, w_files w !! path = Some f →
       ∃ f' added, w_files w' !! path = Some f'
                   ∧ f_disk f' = f_disk f ∧ f_buf f' = f_buf f ++ added.

(** The cursor after a resume from a store whose last id is read as the
    integer [z]. *)
Definition resumed (z : Z) (l : locals) : locals :=
  set_page (page l + 1) (set_last_int z (set_o_mode "a" l)).

(** The ids of the lines [rows] are 64-bit integers, as [pd.read_csv]
    reads them. *)
Definition integer_ids (rows : list (list string)) : Prop :=
  Forall (fun r => ∃ z, r !! 0%nat ≫= int64_field = Some z) rows.

(** The line of the record file that holds an item: its id, its timestamp
    as [str] renders a datetime, its user name and its content. *)
Definition line_of (item : gmap string string) (line : list string) : Prop :=
  ∃ i st t u c,
    item !! "id" = Some i ∧ item !! "sendTime" = Some st ∧ to_datetime st = Ok t
    ∧ item !! "senderUsername" = Some u ∧ item !! "content" = Some c
    ∧ line = [i; str_datetime t; u; c].

(** The items of the pages [k], [k + 1], ... ([count] of them), in the
    order received. *)
Definition items_from (pg : nat → list (gmap string string)) (k count : nat)
  : list (gmap string string) :=
  concat (map pg (seq k count)).

(** The world after the record file [f] was reopened in append mode. *)
Definition reopened (path : string) (f : csv_file) (w : world) : world :=
  set_files (<[path := mkcsv (f_disk f) [] true true]> (w_files w)) w.


(** The world after [main] wrote the default configuration. *)
Definition with_default_config (w : world) : world :=
  add_log InfoDefaultConfig
    (set_configs (<[main_config_path := mkcfg (Some default_config) true]> (w_configs w)) w).




(** ** Concrete inputs *)

Definition ex_tokens : gmap string string :=
  <["token_type" := "Bearer"]> (<["access_token" := "A1"]> (<["refresh_token" := "R1"]> ∅)).

Definition ex_item (i t : string) : gmap string string :=
  <["id" := i]> (<["sendTime" := t]> (<["senderUsername" := "u"]> (<["content" := "c"]> ∅))).

Definition ex_params : params :=
  mkparams "data.csv" "X" 5 (mkdt 2020 8 1 0 0 0 0) "config.json".

Definition ex_now : datetime := mkdt 2024 1 1 0 0 0 5.

(** Nothing on disk yet. *)
Definition ex_world : world := mkworld ∅ ∅ true [] [] 0 0 0.

(** A freshly created record file, open, with the header still buffered. *)
Definition ex_world_open : world :=
  mkworld ∅ (<["data.csv" := mkcsv [] [field_names] true true]> ∅) true [] [] 0 0 1.

(** The record file of an earlier run, closed, holding two records. *)
Definition ex_world_resume : world :=
  mkworld ∅
    (<["data.csv" := mkcsv [field_names;
                            ["9"; "2021-01-01 00:00:00"; "u"; "c"];
                            ["8"; "2020-12-01 00:00:00"; "u"; "c"]] [] false true]> ∅)
    true [] [] 0 0 0.

Definition ex_locals : locals := mklocals "" ex_now 0 "Bearer" "A1" "R1" 0 "w" false false.

(** Two pages that reach the boundary, then single records with
    alternating ids. *)
Definition ex_pages (k : nat) : list (gmap string string) :=
  match k with
  | O => [ex_item "9" "2021-01-01T00:00:00Z"; ex_item "8" "2020-12-01T00:00:00Z"]
  | S O => [ex_item "7" "2020-09-01T00:00:00Z"; ex_item "6" "2020-07-01T00:00:00Z"]
  | S (S k') => [ex_item (if Nat.even k' then "a" else "b") "2020-07-01T00:00:00Z"]
  end.

Definition ex_newest (k : nat) : row :=
  match k with
  | O => mkrow "8" (mkdt 2020 12 1 0 0 0 0) "u" "c"
  | S O => mkrow "6" (mkdt 2020 7 1 0 0 0 0) "u" "c"
  | S (S k') => mkrow (if Nat.even k' then "a" else "b") (mkdt 2020 7 1 0 0 0 0) "u" "c"
  end.

(** Both endpoints answer well. *)
Definition ex_env_pages : env :=
  mkenv ex_now (fun _ => Replied 200 (Some ex_tokens))
        (fun k => Replied 200 (Some (ex_pages k))) (fun _ => false).

(** The content endpoint answers with an empty page. *)
Definition ex_env_empty : env :=
  mkenv ex_now (fun _ => Replied 200 (Some ex_tokens))
        (fun _ => Replied 200 (Some [])) (fun _ => false).

(** The authentication endpoint refuses. *)
Definition ex_env_refused : env :=
  mkenv ex_now (fun _ => Replied 401 None)
        (fun k => Replied 200 (Some (ex_pages k))) (fun _ => false).

(** The content endpoint is down; the authentication endpoint answers. *)
Definition ex_env_down : env :=
  mkenv ex_now (fun _ => Replied 200 (Some ex_tokens))
        (fun _ => Replied 500 None) (fun _ => false).

(** Both endpoints are down. *)
Definition ex_env_dead : env :=
  mkenv ex_now (fun _ => Replied 401 None) (fun _ => Replied 500 None) (fun _ => false).

(** The fourth row write is interrupted. *)
Definition ex_env_interrupted : env :=
  mkenv ex_now (fun _ => Replied 200 (Some ex_tokens))
        (fun k => Replied 200 (Some (ex_pages k))) (fun n => (n =? 4)%nat).

(** The state after the first iteration of the interrupted run. *)
Definition ex_after_first : signal * locals * world :=
  Eval vm_compute in loop_body ex_env_interrupted ex_params ex_locals ex_world_open.

(** The state in which the interrupted run is interrupted. *)
Definition ex_interrupted : signal * locals * world :=
  Eval vm_compute in
    loop_body ex_env_interrupted ex_params ex_after_first.1.2 ex_after_first.2.

(** A whole run against the well-behaved endpoints, from an empty disk. *)
Definition ex_run : signal * locals * world :=
  Eval vm_compute in
    default (SNormal, ex_locals, ex_world)
            (scrape_sahamyab ex_env_pages ex_params 5 "R0" ex_world).





(** The rows of the first page. *)
Definition ex_rows : list row :=
  [mkrow "9" (mkdt 2021 1 1 0 0 0 0) "u" "c"; mkrow "8" (mkdt 2020 12 1 0 0 0 0) "u" "c"].

(** Locals one failure short of the fatal cap, and of the threshold. *)
Definition ex_locals_cap : locals := set_error_count 9 ex_locals.
Definition ex_locals_thold : locals := set_error_count 4 ex_locals.

(** The failure of a page request answered with status 500. *)
Definition ex_bad_response : exn := RuntimeError (BadResponse 500).

(** ** Vocabulary of the further properties *)

(** The timestamp format of the content endpoint, as in the docstring of
    [to_datetime]: ['2020-08-01T12:34:56Z']. *)
Definition iso_format (t : datetime) : string :=
  pad 4 (dt_year t) +:+ "-" +:+ pad 2 (dt_month t) +:+ "-" +:+ pad 2 (dt_day t)
  +:+ "T" +:+ pad 2 (dt_hour t) +:+ ":" +:+ pad 2 (dt_minute t)
  +:+ ":" +:+ pad 2 (dt_second t) +:+ "Z".

(** The character [c] occurs in [s]. *)
Fixpoint contains_char (c : ascii) (s : string) : bool :=
  match s with
  | EmptyString => false
  | String c' s' => Ascii.eqb c' c || contains_char c s'
  end.

(** A field of a timestamp: none of the separators occurs in it. *)
Definition plain_field (s : string) : Prop :=
  contains_char "T" s = false ∧ contains_char "-" s = false
  ∧ contains_char ":" s = false ∧ contains_char "Z" s = false.

(** The value of a string of decimal digits read after a prefix worth [acc]. *)
Fixpoint digits_from (s : string) (acc : Z) : Z :=
  match s with
  | EmptyString => acc
  | String c s' => digits_from s' (10 * acc + digit_val c)
  end.

(** A reply to a page request that makes [load_data] raise an exception
    other than the interrupt. *)
Definition fetch_failure {B : Type} (r : net_result B) : bool :=
  match r with
  | Replied st (Some _) => negb (st =? 200)
  | Replied _ None => true
  | NetFailed => true
  | NetInterrupted => false
  end.

(** A reply to a page request that is a page ending in the record id [lid]. *)
Definition repeats_id (lid : string) (r : net_result (list (gmap string string))) : Prop :=
  ∃ items last_item,
    r = Replied 200 (Some items) ∧ last items = Some last_item
    ∧ last_item !! "id" = Some lid.

(** The content endpoint keeps answering with the record the cursor is on. *)
Definition ex_env_stalled : env :=
  mkenv ex_now (fun _ => Replied 200 (Some ex_tokens))
        (fun _ => Replied 200 (Some [ex_item "8" "2020-12-01T00:00:00Z"]))
        (fun _ => false).

Definition ex_locals_at8 : locals := set_last_id "8" ex_locals.

(** The cells written for page [k] of a page stream. *)
Definition page_cells (pg : nat → list (gmap string string)) (k : nat) : list (list string) :=
  map row_cells (default [] (rows_of (pg k))).

(** The cells written for [count] consecutive pages from page [k] on. *)
Fixpoint cells_from (pg : nat → list (gmap string string)) (k count : nat)
  : list (list string) :=
  match count with
  | O => []
  | S c => page_cells pg k ++ cells_from pg (S k) c
  end.

(** A record file that holds the header and nothing else. *)
Definition ex_world_header_only : world :=
  mkworld ∅ (<["data.csv" := mkcsv [field_names] [] false true]> ∅) true [] [] 0 0 0.

(** A boundary in the future of [ex_now]. *)
Definition ex_params_future : params :=
  mkparams "data.csv" "X" 5 (mkdt 2030 1 1 0 0 0 0) "config.json".

(** A page whose second record has no [sendTime]. *)
Definition ex_env_malformed : env :=
  mkenv ex_now (fun _ => Replied 200 (Some ex_tokens))
        (fun _ => Replied 200
                    (Some [ex_item "9" "2021-01-01T00:00:00Z";
                           delete "sendTime" (ex_item "8" "2020-12-01T00:00:00Z");
                           ex_item "7" "2020-09-01T00:00:00Z"]))
        (fun _ => false).

(** Between two worlds the record file at [path] only received lines of
    four cells, after the ones it had, and no other record file changed. *)
Definition appends_rows (path : string) (w w' : world) : Prop :=
  (∀ p, p ≠ path → w_files w' !! p = w_files w !! p)
  ∧ (w_files w !! path = None → w_files w' !! path = None)
  ∧ ∀ f, w_files w !! path = Some f →
         ∃ added, w_files w' !! path
                  = Some (mkcsv (f_disk f) (f_buf f ++ added) (f_open f) (f_writable f))
                  ∧ Forall (fun r => List.length r = 4%nat) added.

(** Between two worlds only the configuration file at [path] may differ. *)
Definition configs_frame (path : string) (w w' : world) : Prop :=
  ∀ p, p ≠ path → w_configs w' !! p = w_configs w !! p.

(** A record file as this program leaves it: the header, then lines of
    four cells. *)
Definition store_wf (f : csv_file) : Prop :=
  ∃ rows, f_disk f ++ f_buf f = field_names :: rows
          ∧ Forall (fun r => List.length r = 4%nat) rows.

(** The loop run against the well-behaved endpoints on the fresh file. *)
Definition ex_loop_run : signal * locals * world :=
  Eval vm_compute in
    default (SNormal, ex_locals, ex_world)
            (while_loop ex_env_pages ex_params 3 ex_locals ex_world_open).

(** The interrupted run as a whole, from the head of the loop. *)
Definition ex_interrupted_run : signal * locals * world :=
  Eval vm_compute in
    default (SNormal, ex_locals, ex_world)
            (scrape_from ex_env_interrupted ex_params 3 ex_locals ex_world_open).

(** The record file of an earlier run whose last record has id [10]. *)
Definition ex_store_old : csv_file :=
  mkcsv [field_names;
         ["11"; "2021-03-01 00:00:00"; "u"; "c"];
         ["10"; "2021-02-01 00:00:00"; "u"; "c"]] [] false true.

Definition ex_world_old : world :=
  mkworld ∅ (<["data.csv" := ex_store_old]> ∅) true [] [] 0 0 0.

(** The startup refresh of a run resumed on [ex_world_old]. *)
Definition ex_renewed_old : result unit * locals * world :=
  Eval vm_compute in
    renew_credentials ex_env_pages ex_params (initial_locals ex_env_pages "R0")
                      ex_world_old.
(** * Properties *)

(** ** What each call does to the world *)

Ltac unfold_calls :=
  unfold refresh_token, update_config_refresh_token, load_data, try_except,
    read_json, write_json, post_auth, post_list, logging, bind, ret, raise, lift,
    net_outcome in *.

Ltac crunch := unfold_calls; simpl in *; repeat case_match; simplify_eq; simpl in *.

(** [refresh_token] sends one request and may log one line; nothing else. *)
Lemma refresh_token_world ev tok w r w' :
  refresh_token ev tok w = (r, w') →
  w' = sent_auth (AuthRequest tok) w
  ∨ w' = add_log InfoNewToken (sent_auth (AuthRequest tok) w).
Proof. intros H. crunch; auto. Qed.

(** [update_config_refresh_token] either rewrites the one field and logs the
    update, or leaves the file alone and logs the failure. *)
Lemma update_config_cases path tok w :
  (∃ f c, w_configs w !! path = Some f ∧ cf_json f = Some c ∧ cf_writable f = true
     ∧ update_config_refresh_token path tok w
       = (Ok tt, add_log InfoConfigUpdated
                   (set_configs (<[path := mkcfg (Some (<["ref_token" := JStr tok]> c)) true]>
                                   (w_configs w)) w)))
  ∨ (∃ e, is_Exception e = true
     ∧ update_config_refresh_token path tok w = (Ok tt, add_log (ErrorConfigUpdate e) w)).
Proof.
  destruct (w_configs w !! path) as [f|] eqn:Hf.
  - destruct (cf_json f) as [c|] eqn:Hc.
    + destruct (cf_writable f) eqn:Hw.
      * left. exists f, c. repeat split; auto. unfold_calls. simpl.
        rewrite Hf, Hc. simpl. rewrite Hf, Hw. reflexivity.
      * right. exists PermissionError. split; auto. unfold_calls. simpl.
        rewrite Hf, Hc. simpl. rewrite Hf, Hw. reflexivity.
    + right. exists JSONDecodeError. split; auto. unfold_calls. simpl.
      rewrite Hf, Hc. reflexivity.
  - right. exists FileNotFoundError. split; auto. unfold_calls. simpl.
    rewrite Hf. reflexivity.
Qed.

Lemma update_config_world path tok w r w' :
  update_config_refresh_token path tok w = (r, w') →
  r = Ok tt ∧ w_files w' = w_files w ∧ w_net w' = w_net w
  ∧ w_nauth w' = w_nauth w ∧ w_nlist w' = w_nlist w ∧ w_nwrite w' = w_nwrite w
  ∧ w_can_create w' = w_can_create w.
Proof.
  intros H.
  destruct (update_config_cases path tok w) as [(f & c & _ & _ & _ & E)|(e & _ & E)];
    rewrite E in H; simplify_eq; simpl; auto 10.
Qed.

Lemma load_data_world ev tk ac n lid sym w r w' :
  load_data ev tk ac n lid sym w = (r, w') →
  let q := ListRequest (tk +:+ " " +:+ ac) (request_data n lid sym) in
  w' = sent_list q w ∨ w' = add_log (InfoStatus 200) (sent_list q w).
Proof.
  intros H. unfold_calls. simpl in *.
  destruct (env_list ev (w_nlist w)) as [st body| |]; simpl in *; simplify_eq; auto.
  destruct (st =? 200) eqn:E; simpl in *; simplify_eq; auto.
  apply Z.eqb_eq in E. subst st. destruct body; simplify_eq; auto.
Qed.

Lemma load_data_ok ev tk ac n lid sym w items :
  env_list ev (w_nlist w) = Replied 200 (Some items) →
  load_data ev tk ac n lid sym w
  = (Ok items,
     add_log (InfoStatus 200)
       (sent_list (ListRequest (tk +:+ " " +:+ ac) (request_data n lid sym)) w)).
Proof. intros H. unfold_calls. simpl. rewrite H. reflexivity. Qed.

Lemma announced_nlist l w : w_nlist (announced l w) = w_nlist w.
Proof. unfold announced. destruct (repeat_flag l); reflexivity. Qed.

Lemma announced_frame l w :
  w_net (announced l w) = w_net w ∧ w_nauth (announced l w) = w_nauth w.
Proof. unfold announced. by destruct (repeat_flag l). Qed.

(** The [finally] block always ends the function. *)
Lemma with_finally_returns a sig l w :
  with_finally (finally_block a) (sig, l, w)
  = (SReturn, l, add_log (InfoFileClosed (file_name a)) (close_file (file_name a) w)).
Proof. reflexivity. Qed.

(** ** C10: a failed startup refresh leaves the record store alone *)

Lemma scrape_refresh_failed ev a fuel token w e w1 :
  refresh_token ev token w = (Raise e, w1) →
  is_Exception e = true →
  scrape_sahamyab ev a fuel token w
  = Some (SReturn, initial_locals ev token, add_log (ErrorRefreshing e) w1).
Proof.
  intros Href Hexc.
  unfold scrape_sahamyab, renew_credentials. simpl. rewrite Href, Hexc. reflexivity.
Qed.

(** C10. If the token refresh at startup fails, [scrape_sahamyab] logs the
    error and returns at once: the record file is neither opened nor
    created nor changed, the configuration is not rewritten, and no page
    is requested. This holds for every amount of fuel, the loop is never
    reached. *)
Theorem startup_auth_failure_leaves_store ev a fuel token w e w1 :
  refresh_token ev token w = (Raise e, w1) →
  is_Exception e = true →
  ∃ wf, scrape_sahamyab ev a fuel token w = Some (SReturn, initial_locals ev token, wf)
        ∧ w_files wf = w_files w
        ∧ w_configs wf = w_configs w
        ∧ w_nlist wf = w_nlist w
        ∧ w_net wf = w_net w ++ [AuthRequest token].
Proof.
  intros Href Hexc. eexists. split; [by apply scrape_refresh_failed|].
  destruct (refresh_token_world _ _ _ _ _ Href) as [-> | ->]; simpl; auto.
Qed.

(** ** C9: a lost configuration update never stops the scrape *)

(** C9. [update_config_refresh_token] returns normally for every path,
    token and state of the file system: either the file held a JSON object
    and was writable, and then exactly the field [ref_token] is replaced,
    or the failure is logged and the file is left as it was. Hence, when
    the error count reaches the threshold and the refresh exchange
    succeeds, the loop continues with the rotated credential in its
    locals, whether or not the new refresh token could be persisted. *)
Theorem update_config_never_raises ev a e l w t w1 :
  error_count l + 1 = error_thold a →
  refresh_token ev (ref_token l) (add_log (ErrorOnPage (page l) e) w) = (Ok t, w1) →
  (∀ path tok w0, ∃ w0',
      update_config_refresh_token path tok w0 = (Ok tt, w0')
      ∧ w_files w0' = w_files w0 ∧ w_net w0' = w_net w0
      ∧ ((∃ f c, w_configs w0 !! path = Some f ∧ cf_json f = Some c
                 ∧ cf_writable f = true
                 ∧ w_configs w0'
                   = <[path := mkcfg (Some (<["ref_token" := JStr tok]> c)) true]>
                       (w_configs w0)
                 ∧ w_log w0' = w_log w0 ++ [InfoConfigUpdated])
         ∨ (∃ e0, w_configs w0' = w_configs w0
                  ∧ w_log w0' = w_log w0 ++ [ErrorConfigUpdate e0])))
  ∧ ∃ w2, on_fetch_error ev a e l w
          = (SContinue, set_tokens t (set_error_count (error_count l + 1) l), w2)
          ∧ w_files w2 = w_files w.
Proof.
  intros Hec Href. split.
  - intros path tok w0.
    destruct (update_config_cases path tok w0) as [(f & c & Hf & Hc & Hw & E)|(e0 & _ & E)];
      rewrite E; eexists; (split; [reflexivity|]); simpl; repeat split; auto.
    + left. exists f, c. auto.
    + right. exists e0. auto.
  - unfold on_fetch_error. simpl. rewrite Hec, Z.eqb_refl.
    unfold renew_credentials. simpl. rewrite Href.
    destruct (update_config_refresh_token (config_path a) t.2 w1) as [r w2] eqn:Hup.
    destruct (update_config_world _ _ _ _ _ Hup) as (-> & Hfiles & _).
    exists w2. split; [reflexivity|].
    rewrite Hfiles.
    destruct (refresh_token_world _ _ _ _ _ Href) as [-> | ->]; reflexivity.
Qed.

(** ** C1: an empty page *)

(** C1 (the code departs from the claim). A successful fetch that returns
    an empty page makes [items[-1]] raise [IndexError]: the iteration does
    not set the repeat flag, the [finally] block closes the file and
    returns, and the run ends after this one request instead of retrying. *)
Theorem empty_page_ends_run ev a fuel l w :
  dt_gtb (date l) (start_date a) = true →
  env_list ev (w_nlist w) = Replied 200 (Some []) →
  let w1 := add_log (InfoStatus 200) (sent_list (list_request a l) (announced l w)) in
  loop_body ev a l w = (SRaise IndexError, l, w1)
  ∧ scrape_from ev a (S fuel) l w
    = Some (SReturn, l,
            add_log (InfoFileClosed (file_name a)) (close_file (file_name a) w1)).
Proof.
  intros Hdate Hpage w1.
  assert (Hbody : loop_body ev a l w = (SRaise IndexError, l, w1)).
  { unfold loop_body. fold (announced l w).
    rewrite (load_data_ok _ _ _ _ _ _ _ []) by (rewrite announced_nlist; exact Hpage).
    reflexivity. }
  split; [exact Hbody|].
  unfold scrape_from. simpl. rewrite Hdate, Hbody. reflexivity.
Qed.

(** ** C2: the exit report *)

Lemma reports_add_log ev w : is_report ev = false → reports (add_log ev w) = reports w.
Proof.
  intros H. unfold reports. simpl. rewrite List.filter_app. simpl. rewrite H.
  apply app_nil_r.
Qed.

Lemma reports_eq w w' : w_log w' = w_log w → reports w' = reports w.
Proof. unfold reports. intros ->. reflexivity. Qed.

Ltac same_reports :=
  repeat first
    [ reflexivity
    | rewrite reports_add_log by reflexivity
    | apply reports_eq; reflexivity ].

Lemma announced_reports l w : reports (announced l w) = reports w.
Proof. unfold announced. destruct (repeat_flag l); same_reports. Qed.

Lemma refresh_token_reports ev tok w r w' :
  refresh_token ev tok w = (r, w') → reports w' = reports w.
Proof. intros H. destruct (refresh_token_world _ _ _ _ _ H) as [-> | ->]; same_reports. Qed.

Lemma update_config_reports path tok w r w' :
  update_config_refresh_token path tok w = (r, w') → reports w' = reports w.
Proof.
  intros H.
  destruct (update_config_cases path tok w) as [(f & c & _ & _ & _ & E)|(e & _ & E)];
    rewrite E in H; simplify_eq; same_reports.
Qed.

Lemma load_data_reports ev tk ac n lid sym w r w' :
  load_data ev tk ac n lid sym w = (r, w') → reports w' = reports w.
Proof. intros H. destruct (load_data_world _ _ _ _ _ _ _ _ _ H) as [-> | ->]; same_reports. Qed.

Lemma renew_credentials_reports ev a l w r l' w' :
  renew_credentials ev a l w = (r, l', w') → reports w' = reports w.
Proof.
  unfold renew_credentials. intros H.
  destruct (refresh_token ev (ref_token l) w) as [[t|e] w1] eqn:Href; simplify_eq.
  - destruct (update_config_refresh_token _ _ w1) as [[u|e] w2] eqn:Hup; simplify_eq;
      rewrite (update_config_reports _ _ _ _ _ Hup); eauto using refresh_token_reports.
  - eauto using refresh_token_reports.
Qed.

Lemma writerow_log ev path cells w r w' :
  writerow ev path cells w = (r, w') → w_log w' = w_log w.
Proof. unfold writerow. intros H. repeat case_match; simplify_eq; reflexivity. Qed.

Lemma write_items_log ev a items : ∀ l w sig l' w',
  write_items ev a items l w = (sig, l', w') → w_log w' = w_log w.
Proof.
  induction items as [|item rest IH]; simpl; intros l w sig l' w' H.
  - by simplify_eq.
  - destruct (make_row item) as [r|e]; [|by simplify_eq].
    destruct (writerow ev (file_name a) (row_cells r) w) as [[u|e] w1] eqn:Hw.
    + rewrite (IH _ _ _ _ _ H). eauto using writerow_log.
    + simplify_eq. eauto using writerow_log.
Qed.

Lemma process_page_reports ev a items l w sig l' w' :
  process_page ev a items l w = (sig, l', w') → reports w' = reports w.
Proof.
  unfold process_page. intros H.
  destruct (py_last items) as [last_item|e]; [|by simplify_eq].
  destruct (dict_get last_item "id") as [lid|e]; [|by simplify_eq].
  destruct (last_id_is l lid); [by simplify_eq|].
  destruct (write_items ev a items (set_last_id lid l) w) as [[s2 l2] w2] eqn:Hw.
  pose proof (write_items_log _ _ _ _ _ _ _ _ Hw) as Hlog.
  destruct s2; simplify_eq; try (by apply reports_eq).
  destruct (bind_result _ _); simplify_eq.
  - same_reports. by apply reports_eq.
  - by apply reports_eq.
Qed.

Lemma on_fetch_error_reports ev a e l w sig l' w' :
  on_fetch_error ev a e l w = (sig, l', w') → reports w' = reports w.
Proof.
  unfold on_fetch_error. intros H.
  destruct (_ =? _).
  - destruct (renew_credentials _ _ _ _) as [[r l2] w2] eqn:Hr.
    apply renew_credentials_reports in Hr.
    destruct r as [u|e']; [|destruct (is_Exception e')]; simplify_eq;
      same_reports; rewrite Hr; same_reports.
  - destruct (_ <=? _); simplify_eq; same_reports.
Qed.

Lemma loop_body_reports ev a l w sig l' w' :
  loop_body ev a l w = (sig, l', w') → reports w' = reports w.
Proof.
  unfold loop_body. fold (announced l w). intros H.
  destruct (load_data _ _ _ _ _ _ _) as [[items|e] w1] eqn:Hl;
    apply load_data_reports in Hl; rewrite announced_reports in Hl.
  - rewrite <- Hl. eauto using process_page_reports.
  - destruct (is_Exception e); simplify_eq; auto.
    rewrite <- Hl. eauto using on_fetch_error_reports.
Qed.

Lemma while_loop_reports ev a fuel : ∀ l w sig l' w',
  while_loop ev a fuel l w = Some (sig, l', w') → reports w' = reports w.
Proof.
  induction fuel as [|fuel IH]; simpl; intros l w sig l' w' H; [discriminate|].
  destruct (dt_gtb _ _); [|by simplify_eq].
  destruct (loop_body ev a l w) as [[s1 l1] w1] eqn:Hb.
  apply loop_body_reports in Hb.
  destruct s1; simplify_eq; auto; rewrite <- Hb; eauto.
Qed.

Lemma close_file_log path w : w_log (close_file path w) = w_log w.
Proof. unfold close_file. by destruct (_ !! _). Qed.

(** The [try] statement never completes normally: its [finally] block
    returns. *)
Lemma scrape_from_returns ev a fuel l w sig l' w' :
  scrape_from ev a fuel l w = Some (sig, l', w') →
  sig = SReturn ∧ reports w' = reports w.
Proof.
  unfold scrape_from. intros H.
  destruct (while_loop ev a fuel l w) as [[[s1 l1] w1]|] eqn:Hw; [|discriminate].
  apply while_loop_reports in Hw.
  change (Some (with_finally (finally_block a) (except_interrupt (s1, l1, w1)))
          = Some (sig, l', w')) in H.
  assert (∃ w2, except_interrupt (s1, l1, w1) = (match s1 with
            | SRaise KeyboardInterrupt => SNormal | _ => s1 end, l1, w2)
          ∧ reports w2 = reports w1) as (w2 & E & Hr).
  { destruct s1 as [| | | |[]]; simpl; eexists; split; try reflexivity; same_reports. }
  rewrite E, with_finally_returns in H. simplify_eq. split; [reflexivity|].
  same_reports. rewrite <- Hw, <- Hr. apply reports_eq, close_file_log.
Qed.

Lemma try_statement_returns ev a fuel l w sig l' w' :
  try_statement ev a fuel l w = Some (sig, l', w') →
  sig = SReturn ∧ reports w' = reports w.
Proof.
  unfold try_statement. intros H.
  destruct (String.eqb (o_mode l) "w").
  - destruct (writerow ev (file_name a) field_names w) as [[u|e] w1] eqn:Hw;
      apply writerow_log in Hw.
    + apply scrape_from_returns in H as [-> Hr]. split; [done|].
      rewrite Hr. by apply reports_eq.
    + assert (∃ w2, except_interrupt (SRaise e, l, w1) = (match e with
            | KeyboardInterrupt => SNormal | _ => SRaise e end, l, w2)
          ∧ reports w2 = reports w1) as (w2 & E & Hr).
      { destruct e; simpl; eexists; split; try reflexivity; same_reports. }
      rewrite E, with_finally_returns in H. simplify_eq. split; [done|].
      same_reports. rewrite <- (reports_eq _ _ Hw), <- Hr.
      apply reports_eq, close_file_log.
  - by apply scrape_from_returns in H.
Qed.

Lemma seed_cursor_log a l w sig l' w' :
  seed_cursor a l w = Some (sig, l', w') → w' = w.
Proof.
  unfold seed_cursor, read_csv. intros H. repeat case_match; by simplify_eq.
Qed.

Lemma open_file_log path mode w r w' :
  open_file path mode w = (r, w') → w_log w' = w_log w.
Proof. unfold open_file. intros H. repeat case_match; by simplify_eq. Qed.

(** C2 (the code departs from the claim). No run of [scrape_sahamyab]
    emits either line of the exit report: the [finally] block ends in
    [return], so control never reaches the lines after the [try]
    statement, whatever made the loop stop. *)
Theorem exit_report_never_emitted ev a fuel token w sig l' w' :
  scrape_sahamyab ev a fuel token w = Some (sig, l', w') →
  reports w' = reports w ∧ sig ≠ SNormal.
Proof.
  unfold scrape_sahamyab. intros H.
  destruct (renew_credentials _ _ _ _) as [[r l1] w1] eqn:Hr.
  apply renew_credentials_reports in Hr.
  destruct r as [u|e].
  - destruct (seed_cursor a l1 w1) as [[[s2 l2] w2]|] eqn:Hs; [|discriminate].
    apply seed_cursor_log in Hs. subst w2.
    destruct s2; simplify_eq; try (split; [exact Hr|discriminate]).
    destruct (open_file _ _ _) as [[u3|e3] w3] eqn:Ho; apply open_file_log in Ho.
    + destruct (try_statement ev a fuel l2 w3) as [[[s4 l4] w4]|] eqn:Ht; [|discriminate].
      apply try_statement_returns in Ht as [-> Hr4]. simplify_eq.
      split; [|discriminate]. rewrite Hr4, <- Hr. by apply reports_eq.
    + simplify_eq. split; [|discriminate]. rewrite <- Hr. by apply reports_eq.
  - destruct (is_Exception e); simplify_eq; (split; [|discriminate]); same_reports; auto.
Qed.

(** ** C4: an iteration that brings new content *)

Lemma announced_files l w : w_files (announced l w) = w_files w.
Proof. unfold announced. by destruct (repeat_flag l). Qed.

Lemma announced_nwrite l w : w_nwrite (announced l w) = w_nwrite w.
Proof. unfold announced. by destruct (repeat_flag l). Qed.

Lemma store_open_files path w w' :
  w_files w' = w_files w → store_open path w → store_open path w'.
Proof. unfold store_open. by intros ->. Qed.

Lemma writerow_ok ev path cells w :
  env_write_interrupt ev (w_nwrite w) = false →
  store_open path w →
  writerow ev path cells w = (Ok tt, store_append path [cells] w).
Proof.
  intros Hq (f & Hf & Ho). unfold writerow, store_append.
  rewrite Hq, Hf, Ho. unfold count_write, set_files. simpl.
  by rewrite Nat.add_1_r.
Qed.

Lemma store_append_open path lines w :
  store_open path w → store_open path (store_append path lines w).
Proof.
  intros (f & Hf & Ho). unfold store_open, store_append. rewrite Hf. simpl.
  rewrite lookup_insert_eq. eauto.
Qed.

Lemma store_append_app path l1 l2 w :
  store_append path l2 (store_append path l1 w) = store_append path (l1 ++ l2) w.
Proof.
  unfold store_append. destruct (w_files w !! path) as [f|] eqn:Hf; simpl.
  - rewrite lookup_insert_eq. simpl.
    rewrite insert_insert_eq, <- app_assoc, length_app, Nat.add_assoc. reflexivity.
  - by rewrite Hf.
Qed.

Lemma store_append_nwrite path lines w :
  store_open path w →
  w_nwrite (store_append path lines w) = (w_nwrite w + List.length lines)%nat.
Proof. intros (f & Hf & _). unfold store_append. by rewrite Hf. Qed.

Lemma rows_of_cons item rest rows :
  rows_of (item :: rest) = Some rows →
  ∃ r rs, make_row item = Ok r ∧ rows_of rest = Some rs ∧ rows = r :: rs.
Proof.
  simpl. destruct (make_row item) as [r|e]; [|discriminate].
  destruct (rows_of rest) as [rs|]; [|discriminate].
  intros [= <-]. eauto.
Qed.

Lemma write_items_ok ev a items : ∀ rows l w,
  rows_of items = Some rows →
  store_open (file_name a) w →
  (∀ k, (k < List.length items)%nat → env_write_interrupt ev (w_nwrite w + k) = false) →
  write_items ev a items l w
  = (SNormal,
     match last rows with Some r => set_date (row_time r) l | None => l end,
     store_append (file_name a) (map row_cells rows) w).
Proof.
  induction items as [|item rest IH]; intros rows l w Hrows Hopen Hq.
  - simpl in Hrows. simplify_eq. simpl.
    destruct Hopen as (f & Hf & Ho). unfold store_append. rewrite Hf.
    destruct w as [cs fs cc lg nt na nl nw]. simpl in *.
    rewrite app_nil_r, Nat.add_0_r. f_equal. f_equal.
    symmetry. apply insert_id. rewrite Hf. destruct f; simpl in *; by subst.
  - apply rows_of_cons in Hrows as (r & rs & Hr & Hrs & ->).
    simpl. rewrite Hr.
    rewrite writerow_ok; [|by rewrite <- (Nat.add_0_r (w_nwrite w)); apply Hq; simpl; lia|done].
    rewrite (IH rs); [|done|by apply store_append_open|].
    + rewrite store_append_app. simpl. f_equal. f_equal.
      destruct rs as [|r' rs']; [reflexivity|].
      replace (last (r :: r' :: rs')) with (last (r' :: rs')) by reflexivity.
      destruct (last (r' :: rs')) eqn:E; [reflexivity|].
      by apply last_None in E.
    + intros k Hk. rewrite store_append_nwrite by done. simpl.
      replace (w_nwrite w + 1 + k)%nat with (w_nwrite w + S k)%nat by lia.
      apply Hq. simpl. lia.
Qed.

Lemma make_row_ok item r :
  make_row item = Ok r →
  dict_get item "id" = Ok (row_id r)
  ∧ (st <~ dict_get item "sendTime" ;;; to_datetime st) = Ok (row_time r).
Proof.
  unfold make_row. intros H.
  destruct (dict_get item "id") as [i|]; [|discriminate]. simpl in H.
  destruct (dict_get item "sendTime") as [st|]; [|discriminate]. simpl in *.
  destruct (to_datetime st) as [t|]; [|discriminate]. simpl in H.
  destruct (dict_get item "senderUsername") as [u|]; [|discriminate]. simpl in H.
  destruct (dict_get item "content") as [c|]; [|discriminate]. simpl in H.
  by simplify_eq.
Qed.

Lemma rows_of_last items : ∀ rows r,
  rows_of items = Some rows → last rows = Some r →
  ∃ item, last items = Some item ∧ make_row item = Ok r.
Proof.
  induction items as [|item rest IH]; intros rows r Hrows Hlast.
  - simpl in Hrows. by simplify_eq.
  - apply rows_of_cons in Hrows as (r0 & rs & Hr & Hrs & ->).
    destruct rest as [|item' rest'].
    + simpl in Hrs. simplify_eq. simpl in Hlast. simplify_eq. eauto.
    + destruct rs as [|r1 rs1].
      { apply rows_of_cons in Hrs as (? & ? & _ & _ & ?). discriminate. }
      replace (last (r0 :: r1 :: rs1)) with (last (r1 :: rs1)) in Hlast by reflexivity.
      destruct (IH _ _ Hrs Hlast) as (it & Hit & Hmk). eauto.
Qed.

Lemma last_id_is_other l lid : lid ≠ last_id l → last_id_is l lid = false.
Proof.
  intros H. unfold last_id_is. apply andb_false_iff. right.
  apply String.eqb_neq. congruence.
Qed.


Lemma loop_body_fresh_page ev a l w items rows newest :
  env_list ev (w_nlist w) = Replied 200 (Some items) →
  rows_of items = Some rows →
  last rows = Some newest →
  last_id_is l (row_id newest) = false →
  store_open (file_name a) w →
  (∀ k, (k < List.length items)%nat → env_write_interrupt ev (w_nwrite w + k) = false) →
  loop_body ev a l w
  = (SNormal,
     mklocals (row_id newest) (row_time newest) (page l + 1)
              (token_type l) (access_token l) (ref_token l) 0 (o_mode l) false false,
     add_log InfoRule
       (add_log (InfoPageSuccess (page l) (row_time newest))
          (store_append (file_name a) (map row_cells rows)
             (add_log (InfoStatus 200)
                (sent_list (list_request a l) (announced l w)))))).
Proof.
  intros Hreply Hrows Hlast Hnew Hopen Hq.
  destruct (rows_of_last _ _ _ Hrows Hlast) as (item & Hitem & Hmk).
  apply make_row_ok in Hmk as [Hid Htime].
  unfold loop_body. fold (announced l w).
  rewrite (load_data_ok _ _ _ _ _ _ _ items) by (by rewrite announced_nlist).
  fold (list_request a l).
  set (w1 := add_log _ (sent_list _ _)).
  unfold process_page, py_last. rewrite Hitem, Hid, Hnew.
  rewrite (write_items_ok _ _ _ rows); [| done | |].
  - rewrite Hlast, Htime. reflexivity.
  - apply (store_open_files _ w); [|done]. subst w1. simpl. apply announced_files.
  - intros k Hk. subst w1. simpl. rewrite announced_nwrite. by apply Hq.
Qed.

Lemma loop_body_new_content ev a l w items rows newest :
  env_list ev (w_nlist w) = Replied 200 (Some items) →
  rows_of items = Some rows →
  last rows = Some newest →
  row_id newest ≠ last_id l →
  store_open (file_name a) w →
  (∀ k, (k < List.length items)%nat → env_write_interrupt ev (w_nwrite w + k) = false) →
  loop_body ev a l w
  = (SNormal,
     mklocals (row_id newest) (row_time newest) (page l + 1)
              (token_type l) (access_token l) (ref_token l) 0 (o_mode l) false false,
     add_log InfoRule
       (add_log (InfoPageSuccess (page l) (row_time newest))
          (store_append (file_name a) (map row_cells rows)
             (add_log (InfoStatus 200)
                (sent_list (list_request a l) (announced l w)))))).
Proof.
  intros Hreply Hrows Hlast Hnew. apply loop_body_fresh_page; auto.
  by apply last_id_is_other.
Qed.

(** The cells of a row are the line of its item: nothing but the four
    fields of the item, the timestamp converted and rendered. *)
Lemma make_row_line item r : make_row item = Ok r → line_of item (row_cells r).
Proof.
  unfold make_row, dict_get. intros H.
  destruct (item !! "id") as [i|] eqn:Hi; [|discriminate]. simpl in H.
  destruct (item !! "sendTime") as [st|] eqn:Hst; [|discriminate]. simpl in H.
  destruct (to_datetime st) as [t|] eqn:Ht; [|discriminate]. simpl in H.
  destruct (item !! "senderUsername") as [u|] eqn:Hu; [|discriminate]. simpl in H.
  destruct (item !! "content") as [c|] eqn:Hc; [|discriminate]. simpl in H.
  simplify_eq. exists i, st, t, u, c. auto 10.
Qed.

Lemma line_of_row item line : line_of item line → ∃ r, make_row item = Ok r ∧ line = row_cells r.
Proof.
  intros (i & st & t & u & c & Hi & Hst & Ht & Hu & Hc & ->).
  exists (mkrow i t u c). unfold make_row, dict_get.
  rewrite Hi. simpl. rewrite Hst. simpl. rewrite Ht. simpl. rewrite Hu. simpl.
  by rewrite Hc.
Qed.

Lemma rows_of_lines items : ∀ rows,
  rows_of items = Some rows → Forall2 line_of items (map row_cells rows).
Proof.
  induction items as [|item rest IH]; intros rows H.
  - simpl in H. simplify_eq. constructor.
  - apply rows_of_cons in H as (r & rs & Hr & Hrs & ->). simpl.
    constructor; [by apply make_row_line | by apply IH].
Qed.

Lemma lines_of_rows items : ∀ lines,
  Forall2 line_of items lines →
  ∃ rows, rows_of items = Some rows ∧ lines = map row_cells rows.
Proof.
  induction items as [|item rest IH]; intros lines H; inversion H; subst.
  - by exists [].
  - destruct (line_of_row _ _ H2) as (r & Hr & ->).
    destruct (IH _ H4) as (rs & Hrs & ->).
    exists (r :: rs). simpl. by rewrite Hr, Hrs.
Qed.


(** ** C6: the two tiers of the error threshold *)

Lemma close_file_frame path w :
  w_net (close_file path w) = w_net w
  ∧ w_nauth (close_file path w) = w_nauth w
  ∧ w_nlist (close_file path w) = w_nlist w
  ∧ w_configs (close_file path w) = w_configs w.
Proof. unfold close_file. by destruct (_ !! _). Qed.

Lemma renew_credentials_world ev a l w r l' w' :
  renew_credentials ev a l w = (r, l', w') →
  w_net w' = w_net w ++ [AuthRequest (ref_token l)]
  ∧ w_nauth w' = S (w_nauth w) ∧ w_nlist w' = w_nlist w
  ∧ w_nwrite w' = w_nwrite w ∧ w_files w' = w_files w.
Proof.
  unfold renew_credentials. intros H.
  destruct (refresh_token ev (ref_token l) w) as [[t|e] w1] eqn:Href.
  - destruct (update_config_refresh_token _ _ w1) as [r2 w2] eqn:Hup.
    destruct (update_config_world _ _ _ _ _ Hup) as (-> & Hf & Hn & Ha & Hl & Hw & _).
    simplify_eq. rewrite Hf, Hn, Ha, Hl, Hw.
    destruct (refresh_token_world _ _ _ _ _ Href) as [-> | ->]; simpl; auto.
  - simplify_eq.
    destruct (refresh_token_world _ _ _ _ _ Href) as [-> | ->]; simpl; auto.
Qed.

Lemma failed_fetch_world ev a l w e w1 :
  load_data ev (token_type l) (access_token l) (page l) (last_id l) (symbol a)
            (announced l w) = (Raise e, w1) →
  w_net w1 = w_net w ++ [list_request a l]
  ∧ w_nauth w1 = w_nauth w ∧ w_nlist w1 = S (w_nlist w).
Proof.
  intros H. destruct (announced_frame l w) as [Hn Ha].
  pose proof (announced_nlist l w) as Hl.
  destruct (load_data_world _ _ _ _ _ _ _ _ _ H) as [-> | ->]; simpl;
    rewrite Hn, Ha, Hl; auto.
Qed.

(** What the run does once an iteration ends the loop: close and return. *)
Lemma scrape_from_break ev a fuel l w l1 w1 :
  dt_gtb (date l) (start_date a) = true →
  loop_body ev a l w = (SBreak, l1, w1) →
  scrape_from ev a (S fuel) l w
  = Some (SReturn, l1,
          add_log (InfoFileClosed (file_name a)) (close_file (file_name a) w1)).
Proof. intros Hd Hb. unfold scrape_from. simpl. by rewrite Hd, Hb. Qed.

Lemma scrape_from_raise ev a fuel l w e l1 w1 :
  dt_gtb (date l) (start_date a) = true →
  loop_body ev a l w = (SRaise e, l1, w1) →
  scrape_from ev a (S fuel) l w
  = Some (SReturn, l1,
          add_log (InfoFileClosed (file_name a))
            (close_file (file_name a)
               (if is_Exception e then w1 else add_log WarnInterrupted w1))).
Proof.
  intros Hd Hb. unfold scrape_from. simpl. rewrite Hd, Hb. by destruct e.
Qed.

(** C6. Take an iteration whose fetch fails and let [ec] be the error
    count after the increment. If [ec] has reached the threshold plus 5,
    the run ends: the file is closed, the function returns, and the failed
    request is the last one sent. If [ec] equals the threshold, exactly
    one refresh request is sent; when the renewal succeeds the loop
    continues, and when it fails the run ends without another request. *)
Theorem error_cap_ends_run ev a fuel l w e w1 :
  dt_gtb (date l) (start_date a) = true →
  load_data ev (token_type l) (access_token l) (page l) (last_id l) (symbol a)
            (announced l w) = (Raise e, w1) →
  is_Exception e = true →
  let ec := error_count l + 1 in
  (error_thold a + 5 ≤ ec →
     ∃ wf, scrape_from ev a (S fuel) l w = Some (SReturn, set_error_count ec l, wf)
           ∧ w_net wf = w_net w ++ [list_request a l]
           ∧ w_nauth wf = w_nauth w ∧ w_nlist wf = S (w_nlist w))
  ∧ (ec = error_thold a →
     ∃ r l3 w3,
       renew_credentials ev a (set_error_count ec l)
         (add_log (ErrorOnPage (page l) e) w1) = (r, l3, w3)
       ∧ w_net w3 = w_net w ++ [list_request a l; AuthRequest (ref_token l)]
       ∧ w_nauth w3 = S (w_nauth w)
       ∧ match r with
         | Ok _ => loop_body ev a l w = (SContinue, l3, w3)
         | Raise _ =>
             ∃ wf, scrape_from ev a (S fuel) l w = Some (SReturn, l3, wf)
                   ∧ w_net wf = w_net w3 ∧ w_nauth wf = w_nauth w3
                   ∧ w_nlist wf = w_nlist w3
         end).
Proof.
  intros Hd Hload Hexc ec.
  destruct (failed_fetch_world _ _ _ _ _ _ Hload) as (Hn & Ha & Hl).
  assert (Hbody : loop_body ev a l w = on_fetch_error ev a e l w1).
  { unfold loop_body. fold (announced l w). by rewrite Hload, Hexc. }
  split.
  - intros Hcap.
    assert (on_fetch_error ev a e l w1
            = (SBreak, set_error_count ec l, add_log (ErrorOnPage (page l) e) w1)) as Hb.
    { unfold on_fetch_error. simpl. fold ec.
      destruct (ec =? error_thold a) eqn:E1; [apply Z.eqb_eq in E1; lia|].
      destruct (error_thold a + 5 <=? ec) eqn:E2; [done|apply Z.leb_gt in E2; lia]. }
    rewrite <- Hbody in Hb.
    eexists. split; [by apply scrape_from_break|].
    destruct (close_file_frame (file_name a) (add_log (ErrorOnPage (page l) e) w1))
      as (Hcn & Hca & Hcl & _).
    simpl. rewrite Hcn, Hca, Hcl. simpl. auto.
  - intros Heq.
    destruct (renew_credentials ev a (set_error_count ec l)
                (add_log (ErrorOnPage (page l) e) w1)) as [[r l3] w3] eqn:Hr.
    exists r, l3, w3. split; [done|].
    destruct (renew_credentials_world _ _ _ _ _ _ _ Hr) as (Hrn & Hra & Hrl & _).
    simpl in Hrn, Hra, Hrl.
    split; [by rewrite Hrn, Hn, <- app_assoc|]. split; [by rewrite Hra, Ha|].
    assert (on_fetch_error ev a e l w1
            = match r with
              | Ok _ => (SContinue, l3, w3)
              | Raise e' => if is_Exception e'
                            then (SBreak, l3, add_log (WarnUnableToAcquire e') w3)
                            else (SRaise e', l3, w3)
              end) as Hb.
    { unfold on_fetch_error. simpl. fold ec. rewrite Heq, Z.eqb_refl.
      fold ec in Hr. rewrite Heq in Hr. rewrite Hr. by destruct r. }
    rewrite <- Hbody in Hb. destruct r as [u|e']; [done|].
    destruct (is_Exception e') eqn:He'.
    + eexists. split; [by apply scrape_from_break|].
      destruct (close_file_frame (file_name a) (add_log (WarnUnableToAcquire e') w3))
        as (Hcn & Hca & Hcl & _).
      simpl. by rewrite Hcn, Hca, Hcl.
    + eexists. split; [by apply scrape_from_raise|]. rewrite He'.
      destruct (close_file_frame (file_name a) (add_log WarnInterrupted w3))
        as (Hcn & Hca & Hcl & _).
      simpl. by rewrite Hcn, Hca, Hcl.
Qed.

(** ** C7: resuming from a non-empty store *)

Lemma writerow_frame ev path cells w r w' :
  writerow ev path cells w = (r, w') →
  w_net w' = w_net w ∧ w_nauth w' = w_nauth w ∧ w_nlist w' = w_nlist w
  ∧ w_configs w' = w_configs w.
Proof. unfold writerow. intros H. repeat case_match; by simplify_eq. Qed.

Lemma write_items_frame ev a items : ∀ l w sig l' w',
  write_items ev a items l w = (sig, l', w') →
  w_net w' = w_net w ∧ w_nauth w' = w_nauth w ∧ w_nlist w' = w_nlist w
  ∧ w_configs w' = w_configs w.
Proof.
  induction items as [|item rest IH]; simpl; intros l w sig l' w' H.
  - by simplify_eq.
  - destruct (make_row item) as [r|e]; [|by simplify_eq].
    destruct (writerow ev (file_name a) (row_cells r) w) as [[u|e] w1] eqn:Hw;
      apply writerow_frame in Hw as (Hn & Ha & Hl & Hc).
    + apply IH in H as (-> & -> & -> & ->). auto.
    + by simplify_eq.
Qed.



(** *** Integers as [pd.read_csv] reads them and [str] writes them *)

Lemma digit_char_spec d :
  (d < 10)%nat →
  is_digit (ascii_of_nat (48 + d)) = true
  ∧ digit_val (ascii_of_nat (48 + d)) = Z.of_nat d.
Proof.
  intros H. unfold is_digit, digit_val.
  rewrite nat_ascii_embedding by lia.
  split; [|lia].
  apply andb_true_iff. split; apply Nat.leb_le; lia.
Qed.


Lemma all_digits_app s t : all_digits (s +:+ t) = all_digits s && all_digits t.
Proof. induction s as [|c s IH]; simpl; [done|]. by rewrite IH, andb_assoc. Qed.

Lemma all_digits_one c : all_digits (String c EmptyString) = is_digit c.
Proof. simpl. apply andb_true_r. Qed.

Lemma digits_from_app s t acc :
  digits_from (s +:+ t) acc = digits_from t (digits_from s acc).
Proof. revert acc. induction s as [|c s IH]; intros acc; simpl; [done|]. apply IH. Qed.

Lemma digits_from_one c acc :
  digits_from (String c EmptyString) acc = 10 * acc + digit_val c.
Proof. reflexivity. Qed.

Lemma parse_all_digits s : ∀ b acc,
  all_digits s = true → s ≠ EmptyString ∨ b = true →
  parse_digits s b acc = Some (digits_from s acc).
Proof.
  induction s as [|c s IH]; intros b acc Hd Hne; simpl in *.
  - destruct Hne as [Hne | ->]; done.
  - apply andb_true_iff in Hd as [Hc Hs]. rewrite Hc. apply IH; auto.
Qed.

Lemma append_assoc_str (s t u : string) : (s +:+ t) +:+ u = s +:+ (t +:+ u).
Proof.
  induction s as [|c s IH]; [reflexivity|].
  change (String c ((s +:+ t) +:+ u) = String c (s +:+ (t +:+ u))). by rewrite IH.
Qed.








(** *** Reading the record file back *)

Lemma filter_nonblank rows :
  Forall (fun r => List.length r = 4%nat) rows → List.filter nonblank rows = rows.
Proof.
  induction 1 as [|r rows Hr _ IH]; simpl; [done|].
  rewrite IH. by destruct r.
Qed.

Lemma int64_column_app i xs ys :
  int64_column i (xs ++ ys)
  = match int64_column i xs, int64_column i ys with
    | Some a, Some b => Some (a ++ b)
    | _, _ => None
    end.
Proof.
  induction xs as [|x xs IH]; simpl.
  - by destruct (int64_column i ys).
  - rewrite IH. destruct (x !! i ≫= int64_field) as [z|]; [|done].
    destruct (int64_column i xs) as [zs|]; [|done].
    by destruct (int64_column i ys).
Qed.

Lemma integer_ids_column rows :
  integer_ids rows → ∃ zs, int64_column 0 rows = Some zs.
Proof.
  induction 1 as [|r rows (z & Hz) _ (zs & IH)]; simpl; [eauto|].
  rewrite Hz, IH. eauto.
Qed.

Lemma column_last_int64 rows zs z :
  rows ≠ [] →
  Forall (fun r => List.length r = 4%nat) rows →
  int64_column 0 rows = Some (zs ++ [z]) →
  column_last (field_names, rows) "id" = Some (Ok z).
Proof.
  intros Hne Hall Hcol. unfold column_last. cbn [fst snd].
  replace (index_of "id" field_names) with (Some 0%nat) by reflexivity.
  destruct rows as [|r rest] eqn:E; [done|].
  inversion Hall as [|? ? Hr _]; subst.
  rewrite Hr, Hcol. replace (List.length field_names <? 4)%nat with false by reflexivity.
  cbn [mbind option_bind]. by rewrite last_snoc.
Qed.

(** A record file as this program writes it, with integer ids, is read
    back and the cursor takes the integer of the last line. *)
Lemma seed_cursor_resume a l w f rows i t u c z :
  w_files w !! file_name a = Some f →
  f_disk f = field_names :: rows ++ [[i; t; u; c]] →
  Forall (fun r => List.length r = 4%nat) rows →
  integer_ids rows →
  int64_field i = Some z →
  seed_cursor a l w = Some (SNormal, resumed z l, w).
Proof.
  intros Hf Hdisk Hrows Hids Hi. unfold seed_cursor, read_csv. rewrite Hf, Hdisk.
  assert (Hall : Forall (fun r => List.length r = 4%nat) (rows ++ [[i; t; u; c]])).
  { apply Forall_app. split; [done|]. by repeat constructor. }
  assert (Hfirst : ∃ r rest, rows ++ [[i; t; u; c]] = r :: rest ∧ List.length r = 4%nat).
  { destruct rows as [|r rest]; simpl; [eauto|].
    inversion Hrows; subst. eauto. }
  rewrite (filter_nonblank (field_names :: rows ++ [[i; t; u; c]]))
    by (constructor; [reflexivity|exact Hall]).
  assert (table_width field_names (rows ++ [[i; t; u; c]]) = 4%nat) as ->.
  { destruct Hfirst as (r & rest & -> & Hr). simpl. by rewrite Hr. }
  assert (forallb (fun r => (List.length r <=? 4)%nat) (rows ++ [[i; t; u; c]]) = true) as ->.
  { apply forallb_forall. intros r Hr. apply Nat.leb_le.
    rewrite Forall_forall in Hall. rewrite (Hall r); [lia|]. by apply list_elem_of_In. }
  destruct (integer_ids_column rows Hids) as (zs & Hzs).
  rewrite (column_last_int64 (rows ++ [[i; t; u; c]]) zs z); [reflexivity| |done|].
  - by destruct rows.
  - rewrite int64_column_app, Hzs. simpl. by rewrite Hi.
Qed.


(** ** C8: interruption and the durability of the record file *)

Lemma store_extends_refl path w : store_extends path w w.
Proof. intros f Hf. exists f, []. by rewrite app_nil_r. Qed.

Lemma store_extends_trans path w1 w2 w3 :
  store_extends path w1 w2 → store_extends path w2 w3 → store_extends path w1 w3.
Proof.
  intros H12 H23 f Hf.
  destruct (H12 f Hf) as (f2 & add2 & Hf2 & Hd2 & Hb2).
  destruct (H23 f2 Hf2) as (f3 & add3 & Hf3 & Hd3 & Hb3).
  exists f3, (add2 ++ add3). rewrite Hd3, Hb3, Hb2, Hd2, <- app_assoc. auto.
Qed.

Lemma store_extends_files path w w' :
  w_files w' = w_files w → store_extends path w w'.
Proof. intros E f Hf. exists f, []. by rewrite E, app_nil_r. Qed.

Lemma writerow_extends ev path cells w r w' :
  writerow ev path cells w = (r, w') → store_extends path w w'.
Proof.
  unfold writerow. intros H.
  destruct (env_write_interrupt ev (w_nwrite w));
    [simplify_eq; by apply store_extends_files|].
  destruct (w_files w !! path) as [f|] eqn:Hf;
    [|simplify_eq; by apply store_extends_files].
  destruct (f_open f); [|simplify_eq; by apply store_extends_files].
  simplify_eq. intros f0 Hf0. simplify_eq.
  eexists _, [cells]. simpl. rewrite lookup_insert_eq. eauto.
Qed.

Lemma write_items_extends ev a items : ∀ l w sig l' w',
  write_items ev a items l w = (sig, l', w') → store_extends (file_name a) w w'.
Proof.
  induction items as [|item rest IH]; simpl; intros l w sig l' w' H.
  - simplify_eq. apply store_extends_refl.
  - destruct (make_row item) as [r|e]; [|simplify_eq; apply store_extends_refl].
    destruct (writerow ev (file_name a) (row_cells r) w) as [[u|e] w1] eqn:Hw;
      apply writerow_extends in Hw.
    + eapply store_extends_trans; eauto.
    + by simplify_eq.
Qed.

Lemma loop_body_extends ev a l w sig l' w' :
  loop_body ev a l w = (sig, l', w') → store_extends (file_name a) w w'.
Proof.
  unfold loop_body. fold (announced l w). intros H.
  destruct (load_data _ _ _ _ _ _ _) as [[items|e] w1] eqn:Hl.
  - assert (w_files w1 = w_files w) as Hw1.
    { destruct (load_data_world _ _ _ _ _ _ _ _ _ Hl) as [-> | ->]; simpl;
        apply announced_files. }
    apply (store_extends_trans _ _ w1); [by apply store_extends_files|].
    unfold process_page in H.
    destruct (py_last items) as [last_item|e]; [|simplify_eq; apply store_extends_refl].
    destruct (dict_get last_item "id") as [lid|e]; [|simplify_eq; apply store_extends_refl].
    destruct (last_id_is l lid); [simplify_eq; apply store_extends_refl|].
    destruct (write_items ev a items (set_last_id lid l) w1) as [[s2 l2] w2] eqn:Hw.
    apply write_items_extends in Hw.
    destruct s2; simplify_eq; auto.
    destruct (bind_result _ _); simplify_eq; auto.
  - assert (w_files w1 = w_files w) as Hw1.
    { destruct (load_data_world _ _ _ _ _ _ _ _ _ Hl) as [-> | ->]; simpl;
        apply announced_files. }
    destruct (is_Exception e); [|simplify_eq; by apply store_extends_files].
    unfold on_fetch_error in H. apply store_extends_files.
    destruct (_ =? _).
    + destruct (renew_credentials _ _ _ _) as [[r l2] w2] eqn:Hr.
      apply renew_credentials_world in Hr as (_ & _ & _ & _ & Hrf). simpl in Hrf.
      destruct r as [u|e']; [|destruct (is_Exception e')]; simplify_eq; simpl; congruence.
    + destruct (_ <=? _); by simplify_eq.
Qed.

Lemma iterates_extends ev a s s' :
  iterates ev a s s' → store_extends (file_name a) s.2 s'.2.
Proof.
  induction 1 as [s|l w sig l1 w1 s2 Hd Hb Hsig _ IH]; simpl in *.
  - apply store_extends_refl.
  - eapply store_extends_trans; [|exact IH]. eauto using loop_body_extends.
Qed.

(** Completed iterations are a prefix of every run of the loop. *)
Lemma iterates_while ev a s s' :
  iterates ev a s s' →
  ∀ fuel r, while_loop ev a fuel s'.1 s'.2 = Some r →
            ∃ fuel', while_loop ev a fuel' s.1 s.2 = Some r.
Proof.
  induction 1 as [s|l w sig l1 w1 s2 Hd Hb Hsig _ IH]; intros fuel r Hw.
  - eauto.
  - destruct (IH _ _ Hw) as (fuel' & Hw'). exists (S fuel'). simpl in *.
    rewrite Hd, Hb. by destruct Hsig as [-> | ->].
Qed.

(** C8. Let a run complete any number of iterations and then be
    interrupted somewhere inside the next one. Then the run returns, and
    before it does the record file is closed: every line appended up to the
    interruption, in earlier iterations or in the interrupted one, is on
    disk, the buffer is empty, nothing more is sent to the network. What
    the file held when the loop started is still there, in front. *)
Theorem interrupt_closes_store ev a l0 w0 l w l1 w1 f0 :
  iterates ev a (l0, w0) (l, w) →
  dt_gtb (date l) (start_date a) = true →
  loop_body ev a l w = (SRaise KeyboardInterrupt, l1, w1) →
  w_files w0 !! file_name a = Some f0 →
  ∃ fuel wf f1 added,
    scrape_from ev a fuel l0 w0 = Some (SReturn, l1, wf)
    ∧ w_files w1 !! file_name a = Some f1
    ∧ appended f1 = appended f0 ++ added
    ∧ w_files wf !! file_name a = Some (mkcsv (appended f1) [] false (f_writable f1))
    ∧ w_net wf = w_net w1
    ∧ last (w_log wf) = Some (InfoFileClosed (file_name a)).
Proof.
  intros Hit Hd Hb Hf0.
  assert (store_extends (file_name a) w0 w1) as Hext.
  { eapply store_extends_trans.
    - exact (iterates_extends _ _ _ _ Hit).
    - simpl. eauto using loop_body_extends. }
  destruct (Hext f0 Hf0) as (f1 & added & Hf1 & Hdisk & Hbuf).
  assert (while_loop ev a 1 l w = Some (SRaise KeyboardInterrupt, l1, w1)) as Hw.
  { simpl. by rewrite Hd, Hb. }
  destruct (iterates_while _ _ _ _ Hit 1%nat _ Hw) as (fuel & Hrun). simpl in Hrun.
  exists fuel,
    (add_log (InfoFileClosed (file_name a))
       (close_file (file_name a) (add_log WarnInterrupted w1))),
    f1, added.
  split; [unfold scrape_from; by rewrite Hrun|].
  split; [done|].
  split; [unfold appended; by rewrite Hdisk, Hbuf, app_assoc|].
  unfold close_file. simpl. rewrite Hf1. simpl. rewrite lookup_insert_eq.
  split; [reflexivity|]. split; [reflexivity|]. by rewrite last_snoc.
Qed.

(** ** C5: termination at the date boundary *)

Lemma days_in_month_le y m : days_in_month y m ≤ 31.
Proof. unfold days_in_month. repeat case_match; lia. Qed.

Lemma valid_datetime_bounds t :
  valid_datetime t = true →
  1 ≤ dt_year t ∧ 1 ≤ dt_month t ≤ 12 ∧ 1 ≤ dt_day t ≤ 31
  ∧ 0 ≤ dt_hour t ≤ 23 ∧ 0 ≤ dt_minute t ≤ 59 ∧ 0 ≤ dt_second t ≤ 59
  ∧ 0 ≤ dt_micro t ≤ 999999.
Proof.
  unfold valid_datetime, valid_fields, in_range. intros H.
  pose proof (days_in_month_le (dt_year t) (dt_month t)).
  rewrite !andb_true_iff, !Z.leb_le in H. lia.
Qed.

(** On valid datetimes the tuple order is the order of the ordinals. *)
Lemma dt_ltb_ordinal t1 t2 :
  valid_datetime t1 = true → valid_datetime t2 = true →
  dt_ltb t1 t2 = true → dt_ordinal t1 < dt_ordinal t2.
Proof.
  intros H1 H2 Hlt.
  apply valid_datetime_bounds in H1, H2.
  unfold dt_ltb, dt_fields in Hlt. simpl in Hlt.
  rewrite ?orb_true_iff, ?andb_true_iff, ?Z.ltb_lt, ?Z.eqb_eq in Hlt.
  unfold dt_ordinal. lia.
Qed.

Lemma dt_ordinal_nonneg t : valid_datetime t = true → 0 ≤ dt_ordinal t.
Proof. intros H. apply valid_datetime_bounds in H. unfold dt_ordinal. lia. Qed.

Ltac peel_bind H :=
  repeat match type of H with
         | bind_result ?r _ = Ok _ =>
             let E := fresh "E" in
             destruct r eqn:E; simpl in H; [|discriminate H]
         end.

Lemma make_datetime_valid y m d hh mm ss t :
  make_datetime y m d hh mm ss = Ok t → valid_datetime t = true.
Proof.
  unfold make_datetime. destruct (valid_fields y m d hh mm ss 0) eqn:E; [|discriminate].
  intros [= <-]. exact E.
Qed.

Lemma to_datetime_valid s t : to_datetime s = Ok t → valid_datetime t = true.
Proof.
  unfold to_datetime. intros H. peel_bind H. eauto using make_datetime_valid.
Qed.

Lemma make_row_valid item r : make_row item = Ok r → valid_datetime (row_time r) = true.
Proof.
  intros H. apply make_row_ok in H as [_ H].
  destruct (dict_get item "sendTime") as [st|]; [|discriminate].
  simpl in H. eauto using to_datetime_valid.
Qed.

Lemma store_append_frame path lines w :
  w_nlist (store_append path lines w) = w_nlist w
  ∧ w_net (store_append path lines w) = w_net w.
Proof. unfold store_append. by destruct (_ !! _). Qed.

Section DecreasingEndpoint.

Variables (ev : env) (a : params) (c : nat) (lid : string).
Variables (pg : nat → list (gmap string string)) (newest : nat → row).
Hypothesis endpoint : decreasing_endpoint ev a c lid pg newest.

Lemma newest_valid k : valid_datetime (row_time (newest k)) = true.
Proof.
  destruct (de_rows _ _ _ _ _ _ endpoint k) as (rs & Hrows & Hlast).
  destruct (rows_of_last _ _ _ Hrows Hlast) as (item & _ & Hmk).
  eauto using make_row_valid.
Qed.



End DecreasingEndpoint.


(** ** C3: a missing configuration file *)





(** ** The statements at concrete inputs *)

Lemma empty_page_ends_run_witness :
  dt_gtb (date ex_locals) (start_date ex_params) = true
  ∧ env_list ex_env_empty (w_nlist ex_world_open) = Replied 200 (Some [])
  ∧ loop_body ex_env_empty ex_params ex_locals ex_world_open
    = (SRaise IndexError, ex_locals,
       add_log (InfoStatus 200)
         (sent_list (list_request ex_params ex_locals) (announced ex_locals ex_world_open)))
  ∧ scrape_from ex_env_empty ex_params 3 ex_locals ex_world_open
    = Some (SReturn, ex_locals,
            add_log (InfoFileClosed "data.csv")
              (close_file "data.csv"
                 (add_log (InfoStatus 200)
                    (sent_list (list_request ex_params ex_locals)
                               (announced ex_locals ex_world_open))))).
Proof.
  split; [reflexivity|]. split; [reflexivity|].
  apply (empty_page_ends_run ex_env_empty ex_params 2 ex_locals ex_world_open);
    reflexivity.
Defined.

Lemma exit_report_never_emitted_witness :
  scrape_sahamyab ex_env_pages ex_params 5 "R0" ex_world
  = Some (ex_run.1.1, ex_run.1.2, ex_run.2)
  ∧ reports ex_run.2 = reports ex_world ∧ ex_run.1.1 ≠ SNormal.
Proof.
  split; [vm_compute; reflexivity|].
  apply (exit_report_never_emitted ex_env_pages ex_params 5 "R0" ex_world
           ex_run.1.1 ex_run.1.2 ex_run.2).
  vm_compute; reflexivity.
Defined.





Lemma ex_pages_decreasing :
  decreasing_endpoint ex_env_pages ex_params 0 "" ex_pages ex_newest.
Proof.
  split.
  - intros k. reflexivity.
  - intros [|[|k]].
    + exists ex_rows. split; [vm_compute; reflexivity | reflexivity].
    + exists [mkrow "7" (mkdt 2020 9 1 0 0 0 0) "u" "c"; ex_newest 1].
      split; [vm_compute; reflexivity | reflexivity].
    + exists [ex_newest (S (S k))]. split; [|reflexivity].
      destruct (Nat.even k) eqn:E; simpl; rewrite E; vm_compute; reflexivity.
  - discriminate.
  - intros [|[|k]]; [discriminate | discriminate |].
    change (row_id (ex_newest (S (S (S k))))) with (if Nat.even (S k) then "a" else "b").
    change (row_id (ex_newest (S (S k)))) with (if Nat.even k then "a" else "b").
    rewrite Nat.even_succ, <- Nat.negb_even. destruct (Nat.even k); discriminate.
  - intros [|[|k]] H; [reflexivity | discriminate H | discriminate H].
  - reflexivity.
Qed.


Lemma error_cap_ends_run_witness :
  (dt_gtb (date ex_locals_cap) (start_date ex_params) = true
   ∧ is_Exception ex_bad_response = true
   ∧ error_thold ex_params + 5 ≤ error_count ex_locals_cap + 1
   ∧ ∃ wf, scrape_from ex_env_dead ex_params 1 ex_locals_cap ex_world_open
           = Some (SReturn, set_error_count 10 ex_locals, wf)
           ∧ w_net wf = [list_request ex_params ex_locals_cap]
           ∧ w_nauth wf = 0%nat ∧ w_nlist wf = 1%nat)
  ∧ (error_count ex_locals_thold + 1 = error_thold ex_params
     ∧ ∃ wf, scrape_from ex_env_dead ex_params 1 ex_locals_thold ex_world_open
             = Some (SReturn, set_error_count 5 ex_locals, wf)
             ∧ w_net wf = [list_request ex_params ex_locals_thold; AuthRequest "R1"]
             ∧ w_nauth wf = 1%nat ∧ w_nlist wf = 1%nat).
Proof.
  split.
  - split; [reflexivity|]. split; [reflexivity|]. split; [vm_compute; discriminate|].
    destruct (error_cap_ends_run ex_env_dead ex_params 0 ex_locals_cap ex_world_open
                ex_bad_response
                (sent_list (list_request ex_params ex_locals_cap)
                           (announced ex_locals_cap ex_world_open))
                eq_refl eq_refl eq_refl) as [Hcap _].
    apply Hcap. vm_compute. discriminate.
  - split; [reflexivity|].
    destruct (error_cap_ends_run ex_env_dead ex_params 0 ex_locals_thold ex_world_open
                ex_bad_response
                (sent_list (list_request ex_params ex_locals_thold)
                           (announced ex_locals_thold ex_world_open))
                eq_refl eq_refl eq_refl) as [_ Hth].
    destruct (Hth eq_refl) as (r & l3 & w3 & Hr & Hn & Ha & Hm).
    vm_compute in Hr. injection Hr as <- <- <-.
    destruct Hm as (wf & Hrun & Hnf & Haf & Hlf).
    exists wf. split; [exact Hrun|]. rewrite Hnf, Haf, Hlf. repeat split.
Defined.



Lemma interrupt_closes_store_witness :
  iterates ex_env_interrupted ex_params (ex_locals, ex_world_open)
           (ex_after_first.1.2, ex_after_first.2)
  ∧ dt_gtb (date ex_after_first.1.2) (start_date ex_params) = true
  ∧ loop_body ex_env_interrupted ex_params ex_after_first.1.2 ex_after_first.2
    = (SRaise KeyboardInterrupt, ex_interrupted.1.2, ex_interrupted.2)
  ∧ w_files ex_world_open !! file_name ex_params = Some (mkcsv [] [field_names] true true)
  ∧ ∃ fuel wf f1 added,
      scrape_from ex_env_interrupted ex_params fuel ex_locals ex_world_open
      = Some (SReturn, ex_interrupted.1.2, wf)
      ∧ w_files ex_interrupted.2 !! file_name ex_params = Some f1
      ∧ appended f1 = appended (mkcsv [] [field_names] true true) ++ added
      ∧ w_files wf !! file_name ex_params
        = Some (mkcsv (appended f1) [] false (f_writable f1))
      ∧ w_net wf = w_net ex_interrupted.2
      ∧ last (w_log wf) = Some (InfoFileClosed (file_name ex_params)).
Proof.
  assert (iterates ex_env_interrupted ex_params (ex_locals, ex_world_open)
                   (ex_after_first.1.2, ex_after_first.2)) as Hit.
  { apply (iterates_step _ _ ex_locals ex_world_open SNormal
             ex_after_first.1.2 ex_after_first.2);
      [reflexivity | vm_compute; reflexivity | left; reflexivity | apply iterates_here]. }
  split; [exact Hit|]. split; [reflexivity|]. split; [vm_compute; reflexivity|].
  split; [vm_compute; reflexivity|].
  apply (interrupt_closes_store ex_env_interrupted ex_params ex_locals ex_world_open
           ex_after_first.1.2 ex_after_first.2 ex_interrupted.1.2 ex_interrupted.2
           (mkcsv [] [field_names] true true) Hit);
    [reflexivity | vm_compute; reflexivity | vm_compute; reflexivity].
Defined.

Lemma update_config_never_raises_witness :
  error_count ex_locals_thold + 1 = error_thold ex_params
  ∧ refresh_token ex_env_down (ref_token ex_locals_thold)
      (add_log (ErrorOnPage (page ex_locals_thold) ex_bad_response) ex_world_open)
    = (Ok ("Bearer", "A1", "R1"),
       add_log InfoNewToken
         (sent_auth (AuthRequest "R1")
            (add_log (ErrorOnPage 0 ex_bad_response) ex_world_open)))
  ∧ (∃ w', update_config_refresh_token "config.json" "R1" ex_world_open = (Ok tt, w')
           ∧ w_files w' = w_files ex_world_open)
  ∧ ∃ w2, on_fetch_error ex_env_down ex_params ex_bad_response ex_locals_thold ex_world_open
          = (SContinue,
             set_tokens ("Bearer", "A1", "R1")
               (set_error_count (error_count ex_locals_thold + 1) ex_locals_thold), w2)
          ∧ w_files w2 = w_files ex_world_open.
Proof.
  split; [reflexivity|]. split; [reflexivity|].
  destruct (update_config_never_raises ex_env_down ex_params ex_bad_response
              ex_locals_thold ex_world_open ("Bearer", "A1", "R1")
              (add_log InfoNewToken
                 (sent_auth (AuthRequest "R1")
                    (add_log (ErrorOnPage 0 ex_bad_response) ex_world_open)))
              eq_refl eq_refl) as [Hnever Hcont].
  split; [|exact Hcont].
  destruct (Hnever "config.json" "R1" ex_world_open) as (w' & Hup & Hf & _).
  exists w'. split; [exact Hup | exact Hf].
Defined.

Lemma startup_auth_failure_witness :
  refresh_token ex_env_refused "R0" ex_world_resume
  = (Raise (RuntimeError UnableToAcquireToken), sent_auth (AuthRequest "R0") ex_world_resume)
  ∧ is_Exception (RuntimeError UnableToAcquireToken) = true
  ∧ ∃ wf, scrape_sahamyab ex_env_refused ex_params 5 "R0" ex_world_resume
          = Some (SReturn, initial_locals ex_env_refused "R0", wf)
          ∧ w_files wf = w_files ex_world_resume
          ∧ w_configs wf = w_configs ex_world_resume
          ∧ w_nlist wf = w_nlist ex_world_resume
          ∧ w_net wf = w_net ex_world_resume ++ [AuthRequest "R0"].
Proof.
  split; [reflexivity|]. split; [reflexivity|].
  apply (startup_auth_failure_leaves_store ex_env_refused ex_params 5 "R0"
           ex_world_resume (RuntimeError UnableToAcquireToken)
           (sent_auth (AuthRequest "R0") ex_world_resume)); reflexivity.
Defined.

(** * Further properties of the code *)

(** ** [to_datetime] *)

Lemma split_on_absent sep s : contains_char sep s = false → split_on sep s = [s].
Proof.
  induction s as [|c s IH]; simpl; [done|].
  intros H. apply orb_false_iff in H as [Hc Hs].
  rewrite Hc, (IH Hs). reflexivity.
Qed.

Lemma split_on_app sep s rest :
  contains_char sep s = false →
  split_on sep (s +:+ String sep rest) = s :: split_on sep rest.
Proof.
  induction s as [|c s IH]; simpl.
  - intros _. by rewrite Ascii.eqb_refl.
  - intros H. apply orb_false_iff in H as [Hc Hs].
    rewrite Hc, (IH Hs). reflexivity.
Qed.

Lemma contains_char_app sep s t :
  contains_char sep (s +:+ t) = contains_char sep s || contains_char sep t.
Proof.
  induction s as [|c s IH]; simpl; [done|]. by rewrite IH, orb_assoc.
Qed.

Lemma pad_digits_S w n :
  pad_digits (S w) n
  = pad_digits w (n / 10) +:+ String (ascii_of_nat (48 + n mod 10)) EmptyString.
Proof. reflexivity. Qed.

Lemma pad_digits_all_digits w : ∀ n, all_digits (pad_digits w n) = true.
Proof.
  induction w as [|w IH]; intros n; [reflexivity|].
  rewrite pad_digits_S, all_digits_app, IH, all_digits_one.
  destruct (digit_char_spec (n mod 10)) as [-> _]; [|done].
  apply Nat.mod_upper_bound. lia.
Qed.

Lemma pad_digits_nonempty w n : (0 < w)%nat → pad_digits w n ≠ EmptyString.
Proof.
  destruct w as [|w]; [lia|]. intros _. rewrite pad_digits_S.
  by destruct (pad_digits w (n / 10)).
Qed.

Lemma pad_digits_value w : ∀ n,
  digits_from (pad_digits w n) 0 = Z.of_nat (n mod 10 ^ w).
Proof.
  induction w as [|w IH]; intros n.
  - change (pad_digits 0 n) with EmptyString. rewrite Nat.pow_0_r, Nat.mod_1_r.
    reflexivity.
  - rewrite pad_digits_S, digits_from_app, IH, digits_from_one.
    destruct (digit_char_spec (n mod 10)) as [_ ->];
      [apply Nat.mod_upper_bound; lia|].
    rewrite Nat.pow_succ_r', (Nat.Div0.mod_mul_r n 10 (10 ^ w)). lia.
Qed.

Lemma digit_not_space c : is_digit c = true → is_space c = false.
Proof.
  unfold is_digit, is_space. intros H.
  apply andb_true_iff in H as [H1 H2]. apply Nat.leb_le in H1, H2.
  repeat (apply orb_false_iff; split).
  - apply andb_false_iff. right. apply Nat.leb_gt. lia.
  - apply Nat.eqb_neq. lia.
  - apply Nat.eqb_neq. lia.
  - apply Nat.eqb_neq. lia.
Qed.

Lemma rstrip_digits s : all_digits s = true → rstrip s = s.
Proof.
  induction s as [|c s IH]; simpl; [done|].
  intros H. apply andb_true_iff in H as [Hc Hs]. rewrite (IH Hs).
  destruct s; [by rewrite (digit_not_space _ Hc)|done].
Qed.

Lemma lstrip_digits s : all_digits s = true → lstrip s = s.
Proof.
  destruct s as [|c s]; simpl; [done|].
  intros H. apply andb_true_iff in H as [Hc _]. by rewrite (digit_not_space _ Hc).
Qed.

Lemma py_int_digits s :
  all_digits s = true → s ≠ EmptyString → py_int s = Some (digits_from s 0).
Proof.
  intros Hd Hne. unfold py_int. rewrite (lstrip_digits _ Hd), (rstrip_digits _ Hd).
  rewrite <- (parse_all_digits s false 0 Hd (or_introl Hne)).
  destruct s as [|c s]; [done|].
  simpl in Hd. apply andb_true_iff in Hd as [Hc _].
  destruct c as [[] [] [] [] [] [] [] []]; try discriminate Hc; reflexivity.
Qed.

Lemma py_int_pad w n :
  (0 < w)%nat → py_int (pad_digits w n) = Some (Z.of_nat (n mod 10 ^ w)).
Proof.
  intros Hw. rewrite py_int_digits.
  - by rewrite pad_digits_value.
  - apply pad_digits_all_digits.
  - by apply pad_digits_nonempty.
Qed.

Lemma int_or_raise_pad w z :
  (0 < w)%nat → 0 ≤ z < 10 ^ Z.of_nat w → int_or_raise (pad w z) = Ok z.
Proof.
  intros Hw Hz. unfold int_or_raise, pad. rewrite (py_int_pad w _ Hw).
  rewrite Nat.mod_small; [by rewrite Z2Nat.id by lia|].
  apply Nat2Z.inj_lt. rewrite Z2Nat.id by lia.
  rewrite Nat2Z.inj_pow. simpl. lia.
Qed.

Lemma pad_no_char c w z : is_digit c = false → contains_char c (pad w z) = false.
Proof.
  intros Hc. unfold pad. generalize (pad_digits_all_digits w (Z.to_nat z)).
  generalize (pad_digits w (Z.to_nat z)). intros s.
  induction s as [|c' s IH]; simpl; [done|].
  intros H. apply andb_true_iff in H as [Hc' Hs]. rewrite (IH Hs), orb_false_r.
  apply Ascii.eqb_neq. intros ->. congruence.
Qed.

Lemma pad_plain_field w z : plain_field (pad w z).
Proof. repeat split; by apply pad_no_char. Qed.

(** [to_datetime] on six fields joined by the separators of the format. *)
Lemma to_datetime_fields Y M D H N S y m d hh mm ss :
  plain_field Y → plain_field M → plain_field D →
  plain_field H → plain_field N → plain_field S →
  int_or_raise Y = Ok y → int_or_raise M = Ok m → int_or_raise D = Ok d →
  int_or_raise H = Ok hh → int_or_raise N = Ok mm → int_or_raise S = Ok ss →
  to_datetime (Y +:+ "-" +:+ M +:+ "-" +:+ D +:+ "T" +:+ H +:+ ":" +:+ N +:+ ":"
                 +:+ S +:+ "Z")
  = make_datetime y m d hh mm ss.
Proof.
  intros (YT & YD & _) (MT & MD & _) (DT & DD & _) (HT & _ & HC & _) (NT & _ & NC & _)
         (ST & _ & SC & SZ) Hy Hm Hd Hh Hn Hs.
  set (date_part := Y +:+ String "-" (M +:+ String "-" D)).
  set (time_part := H +:+ String ":" (N +:+ String ":" (S +:+ String "Z" EmptyString))).
  assert (Hiso : Y +:+ "-" +:+ M +:+ "-" +:+ D +:+ "T" +:+ H +:+ ":" +:+ N +:+ ":"
                   +:+ S +:+ "Z"
                 = date_part +:+ String "T" time_part).
  { subst date_part. rewrite append_assoc_str.
    change (String "-" (M +:+ String "-" D) +:+ String "T" time_part)
      with (String "-" ((M +:+ String "-" D) +:+ String "T" time_part)).
    rewrite append_assoc_str. reflexivity. }
  assert (Hsplit : split_on "T" (date_part +:+ String "T" time_part)
                   = [date_part; time_part]).
  { rewrite split_on_app.
    - rewrite split_on_absent; [done|]. subst time_part.
      rewrite contains_char_app. simpl. rewrite contains_char_app. simpl.
      rewrite contains_char_app. simpl. by rewrite HT, NT, ST.
    - subst date_part. rewrite contains_char_app. simpl.
      rewrite contains_char_app. simpl. by rewrite YT, MT, DT. }
  assert (Hdate : split_on "-" date_part = [Y; M; D]).
  { subst date_part. rewrite split_on_app by done. rewrite split_on_app by done.
    by rewrite split_on_absent. }
  assert (Htime : split_on ":" time_part = [H; N; S +:+ String "Z" EmptyString]).
  { subst time_part. rewrite split_on_app by done. rewrite split_on_app by done.
    rewrite split_on_absent; [done|]. rewrite contains_char_app. simpl. by rewrite SC. }
  assert (Hsec : split_on "Z" (S +:+ String "Z" EmptyString) = [S; EmptyString]).
  { by rewrite split_on_app. }
  unfold to_datetime. rewrite Hiso, Hsplit. simpl. rewrite Hdate, Htime. simpl.
  rewrite Hy, Hm, Hd, Hh, Hn. simpl. rewrite Hsec. simpl. rewrite Hs. reflexivity.
Qed.

Lemma valid_datetime_year t : valid_datetime t = true → dt_year t ≤ 9999.
Proof.
  unfold valid_datetime, valid_fields, in_range. intros H.
  rewrite !andb_true_iff, !Z.leb_le in H. lia.
Qed.

(** X1. [to_datetime] reads back every valid datetime (whole seconds) from
    its rendering in the endpoint's format [YYYY-MM-DDTHH:MM:SSZ]. *)
Theorem to_datetime_iso_format t :
  valid_datetime t = true → dt_micro t = 0 →
  to_datetime (iso_format t) = Ok t.
Proof.
  intros Hv Hus. pose proof (valid_datetime_bounds t Hv) as Hb.
  pose proof (valid_datetime_year t Hv) as Hyear.
  assert (P4 : 10 ^ Z.of_nat 4 = 10000) by reflexivity.
  assert (P2 : 10 ^ Z.of_nat 2 = 100) by reflexivity.
  unfold iso_format.
  rewrite (to_datetime_fields _ _ _ _ _ _ (dt_year t) (dt_month t) (dt_day t)
             (dt_hour t) (dt_minute t) (dt_second t)).
  - unfold make_datetime. unfold valid_datetime in Hv. rewrite <- Hus, Hv.
    by destruct t.
  - apply pad_plain_field.
  - apply pad_plain_field.
  - apply pad_plain_field.
  - apply pad_plain_field.
  - apply pad_plain_field.
  - apply pad_plain_field.
  - apply int_or_raise_pad; [lia | rewrite ?P4, ?P2; lia].
  - apply int_or_raise_pad; [lia | rewrite ?P4, ?P2; lia].
  - apply int_or_raise_pad; [lia | rewrite ?P4, ?P2; lia].
  - apply int_or_raise_pad; [lia | rewrite ?P4, ?P2; lia].
  - apply int_or_raise_pad; [lia | rewrite ?P4, ?P2; lia].
  - apply int_or_raise_pad; [lia | rewrite ?P4, ?P2; lia].
Qed.

Lemma to_datetime_iso_format_witness :
  valid_datetime (mkdt 2020 8 1 12 34 56 0) = true
  ∧ dt_micro (mkdt 2020 8 1 12 34 56 0) = 0
  ∧ iso_format (mkdt 2020 8 1 12 34 56 0) = "2020-08-01T12:34:56Z"
  ∧ to_datetime (iso_format (mkdt 2020 8 1 12 34 56 0)) = Ok (mkdt 2020 8 1 12 34 56 0).
Proof.
  split; [reflexivity|]. split; [reflexivity|]. split; [vm_compute; reflexivity|].
  apply (to_datetime_iso_format (mkdt 2020 8 1 12 34 56 0)); reflexivity.
Defined.

(** X2. A timestamp without the letter [T] makes [to_datetime] raise
    [IndexError]: the time half [_date[1]] does not exist. *)
Theorem to_datetime_without_T s :
  contains_char "T" s = false → to_datetime s = Raise IndexError.
Proof. intros H. unfold to_datetime. rewrite (split_on_absent _ _ H). reflexivity. Qed.

Lemma to_datetime_without_T_witness :
  contains_char "T" "2020-08-01 12:34:56" = false
  ∧ to_datetime "2020-08-01 12:34:56" = Raise IndexError.
Proof.
  split; [reflexivity|]. apply (to_datetime_without_T "2020-08-01 12:34:56"). reflexivity.
Defined.

(** ** [load_data] and [refresh_token] *)

(** X3. [load_data] returns items exactly when the endpoint answers with
    status 200 and a body that holds them, and then they are the items of
    the body. Every other outcome is an exception: [RuntimeError] for a
    status other than 200 or a body without items, the transport failure,
    or the interrupt. In every case exactly one request is sent. *)
Theorem load_data_succeeds_iff ev tk ac n lid sym w :
  let q := ListRequest (tk +:+ " " +:+ ac) (request_data n lid sym) in
  (∀ items w',
     load_data ev tk ac n lid sym w = (Ok items, w')
     ↔ env_list ev (w_nlist w) = Replied 200 (Some items)
       ∧ w' = add_log (InfoStatus 200) (sent_list q w))
  ∧ (∀ e w',
       load_data ev tk ac n lid sym w = (Raise e, w') →
       (e = RuntimeError DataCorrupted ∧ env_list ev (w_nlist w) = Replied 200 None)
       ∨ (∃ st b, st ≠ 200 ∧ e = RuntimeError (BadResponse st)
                  ∧ env_list ev (w_nlist w) = Replied st b)
       ∨ (e = RequestException ∧ env_list ev (w_nlist w) = NetFailed)
       ∨ (e = KeyboardInterrupt ∧ env_list ev (w_nlist w) = NetInterrupted))
  ∧ (∀ r w', load_data ev tk ac n lid sym w = (r, w') →
             w_net w' = w_net w ++ [q] ∧ w_nlist w' = S (w_nlist w)).
Proof.
  intros q. split; [|split].
  - intros items w'. split.
    + intros H. unfold_calls. simpl in H.
      destruct (env_list ev (w_nlist w)) as [st body| |]; simpl in H; try discriminate.
      destruct (st =? 200) eqn:E; simpl in H; [|discriminate].
      apply Z.eqb_eq in E. subst st. destruct body; simplify_eq. auto.
    + intros [H ->]. by apply load_data_ok.
  - intros e w' H. unfold_calls. simpl in H.
    destruct (env_list ev (w_nlist w)) as [st body| |]; simpl in H; simplify_eq; auto.
    destruct (st =? 200) eqn:E; simpl in H.
    + apply Z.eqb_eq in E. subst st. destruct body; simplify_eq. auto.
    + apply Z.eqb_neq in E. simplify_eq. right; left. eauto.
  - intros r w' H.
    destruct (load_data_world _ _ _ _ _ _ _ _ _ H) as [-> | ->]; simpl; auto.
Qed.

(** X4. [refresh_token] returns a credential exactly when the endpoint
    answers with status 200 and a JSON object holding the three fields,
    and then the credential is made of those fields. *)
Theorem refresh_token_succeeds_iff ev tok w tk ac rf w' :
  refresh_token ev tok w = (Ok (tk, ac, rf), w')
  ↔ ∃ j, env_auth ev (w_nauth w) = Replied 200 (Some j)
         ∧ j !! "token_type" = Some tk ∧ j !! "access_token" = Some ac
         ∧ j !! "refresh_token" = Some rf
         ∧ w' = add_log InfoNewToken (sent_auth (AuthRequest tok) w).
Proof.
  split.
  - intros H. unfold_calls. simpl in H.
    destruct (env_auth ev (w_nauth w)) as [st body| |]; simpl in H; try discriminate.
    destruct (st =? 200) eqn:E; simpl in H; [|discriminate].
    apply Z.eqb_eq in E. subst st. destruct body as [j|]; [|discriminate].
    unfold dict_get in H. simpl in H.
    destruct (j !! "token_type") as [x|] eqn:E1; [|discriminate]. simpl in H.
    destruct (j !! "access_token") as [y|] eqn:E2; [|discriminate]. simpl in H.
    destruct (j !! "refresh_token") as [z|] eqn:E3; [|discriminate]. simpl in H.
    simplify_eq. exists j. auto.
  - intros (j & Hr & H1 & H2 & H3 & ->). unfold_calls. simpl. rewrite Hr. simpl.
    unfold dict_get. by rewrite H1, H2, H3.
Qed.

(** X5. A 200 answer of the authentication endpoint whose JSON object
    lacks one of the three fields makes [refresh_token] raise [KeyError]
    for the first missing field, after the line "New token acquired." has
    already been logged. *)
Theorem refresh_token_missing_field ev tok w j :
  env_auth ev (w_nauth w) = Replied 200 (Some j) →
  j !! "token_type" = None ∨ j !! "access_token" = None ∨ j !! "refresh_token" = None →
  ∃ k, refresh_token ev tok w
       = (Raise (KeyError k), add_log InfoNewToken (sent_auth (AuthRequest tok) w))
       ∧ j !! k = None
       ∧ (k = "token_type"
          ∨ (k = "access_token" ∧ is_Some (j !! "token_type"))
          ∨ (k = "refresh_token" ∧ is_Some (j !! "token_type")
             ∧ is_Some (j !! "access_token"))).
Proof.
  intros Hr Hmiss. unfold_calls. simpl. rewrite Hr. simpl. unfold dict_get.
  destruct (j !! "token_type") as [x|] eqn:E1; simpl.
  - destruct (j !! "access_token") as [y|] eqn:E2; simpl.
    + destruct (j !! "refresh_token") as [z|] eqn:E3; simpl.
      * destruct Hmiss as [|[|]]; discriminate.
      * exists "refresh_token". split; [reflexivity|]. split; [done|].
        right; right. repeat split; eauto.
    + exists "access_token". split; [reflexivity|]. split; [done|].
      right; left. split; eauto.
  - exists "token_type". eauto.
Qed.

Lemma refresh_token_missing_field_witness :
  env_auth (mkenv ex_now (fun _ => Replied 200 (Some (delete "access_token" ex_tokens)))
                  (fun _ => NetFailed) (fun _ => false)) (w_nauth ex_world)
  = Replied 200 (Some (delete "access_token" ex_tokens))
  ∧ delete "access_token" ex_tokens !! "access_token" = None
  ∧ ∃ k, refresh_token
           (mkenv ex_now (fun _ => Replied 200 (Some (delete "access_token" ex_tokens)))
                  (fun _ => NetFailed) (fun _ => false)) "R0" ex_world
         = (Raise (KeyError k), add_log InfoNewToken (sent_auth (AuthRequest "R0") ex_world))
         ∧ delete "access_token" ex_tokens !! k = None.
Proof.
  split; [reflexivity|]. split; [vm_compute; reflexivity|].
  destruct (refresh_token_missing_field
              (mkenv ex_now (fun _ => Replied 200 (Some (delete "access_token" ex_tokens)))
                     (fun _ => NetFailed) (fun _ => false))
              "R0" ex_world (delete "access_token" ex_tokens) eq_refl)
    as (k & Hk & Hnone & _).
  - right; left. vm_compute. reflexivity.
  - exists k. split; [exact Hk | exact Hnone].
Defined.

(** ** [update_config_refresh_token] *)

Lemma update_config_success path tok w f c :
  w_configs w !! path = Some f → cf_json f = Some c → cf_writable f = true →
  update_config_refresh_token path tok w
  = (Ok tt, add_log InfoConfigUpdated
              (set_configs (<[path := mkcfg (Some (<["ref_token" := JStr tok]> c)) true]>
                              (w_configs w)) w)).
Proof.
  intros Hf Hc Hw. unfold_calls. simpl. rewrite Hf, Hc. simpl. rewrite Hf, Hw. reflexivity.
Qed.

Lemma update_config_failure path tok w :
  (∀ f c, w_configs w !! path = Some f → cf_json f = Some c → cf_writable f = false) →
  ∃ e, update_config_refresh_token path tok w = (Ok tt, add_log (ErrorConfigUpdate e) w).
Proof.
  intros H. unfold_calls. simpl.
  destruct (w_configs w !! path) as [f|] eqn:Hf; [|eauto].
  destruct (cf_json f) as [c|] eqn:Hc; [|eauto]. simpl.
  rewrite Hf, (H f c eq_refl Hc). eauto.
Qed.

(** X6. When the configuration file holds a JSON object and is writable,
    the update succeeds, and reading the file back gives the same object
    with [ref_token] set to the new value and every other field as it
    was; no other configuration file changes. *)
Theorem update_config_read_back path tok w f c :
  w_configs w !! path = Some f → cf_json f = Some c → cf_writable f = true →
  ∃ w' c',
    update_config_refresh_token path tok w = (Ok tt, w')
    ∧ read_json path w' = (Ok c', w')
    ∧ c' !! "ref_token" = Some (JStr tok)
    ∧ (∀ k, k ≠ "ref_token" → c' !! k = c !! k)
    ∧ (∀ p, p ≠ path → w_configs w' !! p = w_configs w !! p).
Proof.
  intros Hf Hc Hw. eexists _, _.
  split; [by apply (update_config_success path tok w f c)|].
  split; [|split; [|split]].
  + unfold read_json. simpl. rewrite lookup_insert_eq. reflexivity.
  + apply lookup_insert_eq.
  + intros k Hk. by apply lookup_insert_ne.
  + intros p Hp. simpl. by apply lookup_insert_ne.
Qed.

Lemma update_config_read_back_witness :
  w_configs (with_default_config ex_world) !! "config.json"
  = Some (mkcfg (Some default_config) true)
  ∧ ∃ w' c',
      update_config_refresh_token "config.json" "R1" (with_default_config ex_world)
      = (Ok tt, w')
      ∧ read_json "config.json" w' = (Ok c', w')
      ∧ c' !! "ref_token" = Some (JStr "R1")
      ∧ (∀ k, k ≠ "ref_token" → c' !! k = default_config !! k).
Proof.
  split; [vm_compute; reflexivity|].
  destruct (update_config_read_back "config.json" "R1" (with_default_config ex_world)
              (mkcfg (Some default_config) true) default_config)
    as (w' & c' & Hup & Hrd & Hrt & Hk & _);
    [vm_compute; reflexivity | reflexivity | reflexivity |].
  exists w', c'. auto.
Defined.

Lemma update_config_failure_twice path t1 t2 w :
  (∀ f c, w_configs w !! path = Some f → cf_json f = Some c → cf_writable f = false) →
  w_configs (update_config_refresh_token path t2
               (update_config_refresh_token path t1 w).2).2
  = w_configs (update_config_refresh_token path t2 w).2.
Proof.
  intros H.
  destruct (update_config_failure path t1 w H) as (e1 & E1).
  destruct (update_config_failure path t2 w H) as (e2 & E2).
  destruct (update_config_failure path t2 (add_log (ErrorConfigUpdate e1) w) H)
    as (e3 & E3).
  rewrite E1, E2. simpl. rewrite E3. reflexivity.
Qed.

(** X7. Two updates in a row leave the configuration files as the second
    one alone would: the last token written wins, whatever the state of
    the file. *)
Theorem update_config_last_wins path t1 t2 w :
  w_configs (update_config_refresh_token path t2
               (update_config_refresh_token path t1 w).2).2
  = w_configs (update_config_refresh_token path t2 w).2.
Proof.
  destruct (w_configs w !! path) as [f|] eqn:Hf.
  - destruct (cf_json f) as [c|] eqn:Hc.
    + destruct (cf_writable f) eqn:Hw.
      * rewrite (update_config_success path t1 w f c Hf Hc Hw),
                (update_config_success path t2 w f c Hf Hc Hw).
        simpl.
        erewrite update_config_success;
          [| simpl; apply lookup_insert_eq | reflexivity | reflexivity].
        simpl. by rewrite insert_insert_eq, insert_insert_eq.
      * apply update_config_failure_twice. intros; congruence.
    + apply update_config_failure_twice. intros; congruence.
  - apply update_config_failure_twice. intros; congruence.
Qed.
(** ** Iterations of the loop *)

Lemma loop_body_same_id ev a l w items last_item :
  env_list ev (w_nlist w) = Replied 200 (Some items) →
  last items = Some last_item →
  last_id_int l = false →
  last_item !! "id" = Some (last_id l) →
  loop_body ev a l w
  = (SContinue, set_repeat true l,
     add_log (InfoStatus 200) (sent_list (list_request a l) (announced l w))).
Proof.
  intros Hr Hlast Hstr Hid. unfold loop_body. fold (announced l w).
  rewrite (load_data_ok _ _ _ _ _ _ _ items) by (by rewrite announced_nlist).
  unfold process_page, py_last, dict_get, last_id_is.
  rewrite Hlast, Hid, Hstr, String.eqb_refl.
  reflexivity.
Qed.

(** X8. A page whose last record has the id the cursor is on (the cursor
    holding a [str], as it does once a page has been written) is a stall:
    the iteration sets the repeat flag and continues; the cursor, the date,
    the error count and the credentials keep their values, nothing is
    written to any file, and the page request is the only one sent. *)
Theorem same_id_page_stalls ev a l w items last_item :
  env_list ev (w_nlist w) = Replied 200 (Some items) →
  last items = Some last_item →
  last_id_int l = false →
  last_item !! "id" = Some (last_id l) →
  ∃ w', loop_body ev a l w = (SContinue, set_repeat true l, w')
        ∧ w_files w' = w_files w ∧ w_configs w' = w_configs w
        ∧ w_nwrite w' = w_nwrite w
        ∧ w_net w' = w_net w ++ [list_request a l].
Proof.
  intros Hr Hlast Hstr Hid. eexists. split; [by eapply loop_body_same_id|].
  simpl. rewrite announced_files, announced_nwrite.
  destruct (announced_frame l w) as [-> _].
  unfold announced. destruct (repeat_flag l); auto.
Qed.

Lemma same_id_page_stalls_witness :
  env_list ex_env_stalled (w_nlist ex_world_open)
  = Replied 200 (Some [ex_item "8" "2020-12-01T00:00:00Z"])
  ∧ last_id_int ex_locals_at8 = false
  ∧ ex_item "8" "2020-12-01T00:00:00Z" !! "id" = Some (last_id ex_locals_at8)
  ∧ ∃ w', loop_body ex_env_stalled ex_params ex_locals_at8 ex_world_open
          = (SContinue, set_repeat true ex_locals_at8, w')
          ∧ w_files w' = w_files ex_world_open
          ∧ w_configs w' = w_configs ex_world_open
          ∧ w_nwrite w' = w_nwrite ex_world_open
          ∧ w_net w' = w_net ex_world_open ++ [list_request ex_params ex_locals_at8].
Proof.
  split; [reflexivity|]. split; [reflexivity|]. split; [vm_compute; reflexivity|].
  apply (same_id_page_stalls ex_env_stalled ex_params ex_locals_at8 ex_world_open
           [ex_item "8" "2020-12-01T00:00:00Z"] (ex_item "8" "2020-12-01T00:00:00Z"));
    [reflexivity | reflexivity | reflexivity | vm_compute; reflexivity].
Defined.

(** X9. Against an endpoint that keeps answering with the record the
    cursor is on (the cursor holding a [str]), the loop never ends: there
    is no pause and no bound on stalls, and no amount of fuel lets
    [while_loop] return. *)
Theorem stalled_endpoint_never_ends ev a fuel : ∀ l w,
  dt_gtb (date l) (start_date a) = true →
  last_id_int l = false →
  (∀ k, repeats_id (last_id l) (env_list ev (w_nlist w + k))) →
  while_loop ev a fuel l w = None.
Proof.
  induction fuel as [|fuel IH]; intros l w Hd Hstr Hstall; [reflexivity|].
  destruct (Hstall 0%nat) as (items & last_item & Hr & Hlast & Hid).
  rewrite Nat.add_0_r in Hr.
  simpl. rewrite Hd, (loop_body_same_id ev a l w items last_item Hr Hlast Hstr Hid).
  apply IH; [exact Hd|exact Hstr|].
  intros k. simpl. rewrite announced_nlist.
  replace (S (w_nlist w + k)) with (w_nlist w + S k)%nat by lia.
  apply Hstall.
Qed.

Lemma stalled_endpoint_never_ends_witness :
  dt_gtb (date ex_locals_at8) (start_date ex_params) = true
  ∧ last_id_int ex_locals_at8 = false
  ∧ (∀ k, repeats_id (last_id ex_locals_at8)
                     (env_list ex_env_stalled (w_nlist ex_world_open + k)))
  ∧ while_loop ex_env_stalled ex_params 1000 ex_locals_at8 ex_world_open = None.
Proof.
  assert (∀ k, repeats_id (last_id ex_locals_at8)
                          (env_list ex_env_stalled (w_nlist ex_world_open + k))) as Hst.
  { intros k. exists [ex_item "8" "2020-12-01T00:00:00Z"], (ex_item "8" "2020-12-01T00:00:00Z").
    split; [reflexivity|]. split; [reflexivity|]. vm_compute. reflexivity. }
  split; [reflexivity|]. split; [reflexivity|]. split; [exact Hst|].
  apply (stalled_endpoint_never_ends ex_env_stalled ex_params 1000 ex_locals_at8
           ex_world_open eq_refl eq_refl Hst).
Defined.

Lemma load_data_failure ev tk ac n lid sym w :
  fetch_failure (env_list ev (w_nlist w)) = true →
  ∃ e w1, load_data ev tk ac n lid sym w = (Raise e, w1) ∧ is_Exception e = true
          ∧ w_files w1 = w_files w ∧ w_nlist w1 = S (w_nlist w)
          ∧ w_nauth w1 = w_nauth w.
Proof.
  intros H. unfold_calls. simpl.
  destruct (env_list ev (w_nlist w)) as [st [items|]| |]; simpl in *; try discriminate.
  - destruct (st =? 200); [discriminate|]. simpl. eauto 10.
  - destruct (st =? 200); simpl; eauto 10.
  - eauto 10.
Qed.

Lemma renew_credentials_locals ev a l w r l' w' :
  renew_credentials ev a l w = (r, l', w') →
  date l' = date l ∧ error_count l' = error_count l ∧ last_id l' = last_id l
  ∧ page l' = page l.
Proof.
  unfold renew_credentials. intros H.
  destruct (refresh_token ev (ref_token l) w) as [[t|e] w1]; [|by simplify_eq].
  destruct (update_config_refresh_token _ _ w1) as [[u|e] w2]; by simplify_eq.
Qed.

(** What an iteration with a failing fetch leaves behind. *)
Lemma failed_iteration ev a l w :
  fetch_failure (env_list ev (w_nlist w)) = true →
  ∃ sig l' w',
    loop_body ev a l w = (sig, l', w')
    ∧ w_files w' = w_files w ∧ w_nlist w' = S (w_nlist w)
    ∧ date l' = date l ∧ error_count l' = error_count l + 1
    ∧ (sig = SContinue ∨ sig = SBreak ∨ ∃ e, sig = SRaise e)
    ∧ (error_thold a + 5 ≤ error_count l + 1 → sig ≠ SContinue)
    ∧ (error_count l + 1 ≠ error_thold a → w_nauth w' = w_nauth w)
    ∧ (error_count l + 1 = error_thold a → w_nauth w' = S (w_nauth w)).
Proof.
  intros Hf. rewrite <- (announced_nlist l w) in Hf.
  destruct (load_data_failure ev (token_type l) (access_token l) (page l) (last_id l)
              (symbol a) (announced l w) Hf) as (e & w1 & Hl & He & Hfiles & Hn & Ha).
  rewrite announced_files in Hfiles. rewrite announced_nlist in Hn.
  destruct (announced_frame l w) as [_ Haa]. rewrite Haa in Ha.
  unfold loop_body. fold (announced l w). rewrite Hl, He.
  unfold on_fetch_error. simpl.
  destruct (error_count l + 1 =? error_thold a) eqn:E1.
  - apply Z.eqb_eq in E1.
    destruct (renew_credentials _ _ _ _) as [[r l2] w2] eqn:Hr.
    destruct (renew_credentials_locals _ _ _ _ _ _ _ Hr) as (Hd2 & He2 & _).
    destruct (renew_credentials_world _ _ _ _ _ _ _ Hr) as (_ & Hra & Hrl & _ & Hrf).
    simpl in *.
    destruct r as [u|e']; [|destruct (is_Exception e')];
      eexists _, _, _; (split; [reflexivity|]); simpl;
      rewrite ?Hrf, ?Hrl, ?Hra, ?Hd2, ?He2, ?Hfiles, ?Hn, ?Ha;
      repeat split; eauto; try lia; try discriminate.
  - apply Z.eqb_neq in E1.
    destruct (error_thold a + 5 <=? error_count l + 1) eqn:E2;
      [apply Z.leb_le in E2 | apply Z.leb_gt in E2];
      eexists _, _, _; (split; [reflexivity|]); simpl;
      rewrite ?Hfiles, ?Hn, ?Ha; repeat split; eauto; try lia; try discriminate.
Qed.

Lemma failing_run ev a (n : nat) : ∀ l w,
  (Z.to_nat (error_thold a + 5 - (error_count l + 1)) ≤ n)%nat →
  dt_gtb (date l) (start_date a) = true →
  (∀ k, fetch_failure (env_list ev (w_nlist w + k)) = true) →
  ∃ fuel sig l' w',
    while_loop ev a fuel l w = Some (sig, l', w')
    ∧ (w_nlist w < w_nlist w' ≤ w_nlist w + S n)%nat
    ∧ w_files w' = w_files w.
Proof.
  induction n as [|n IH]; intros l w Hn Hd Hfail;
    (destruct (failed_iteration ev a l w) as
        (sig & l1 & w1 & Hb & Hfiles & Hnl & Hd1 & He1 & Hsig & Hcap & _);
      [by rewrite <- (Nat.add_0_r (w_nlist w))|]).
  - assert (sig ≠ SContinue) as Hne by (apply Hcap; lia).
    exists 1%nat. simpl. rewrite Hd, Hb.
    destruct Hsig as [->|[->|[e ->]]]; [done| |];
      eexists _, _, _; (split; [reflexivity|]); split; auto; lia.
  - destruct Hsig as [->|[->|[e ->]]].
    + destruct (IH l1 w1) as (fuel & sig & l' & w' & Hrun & Hbound & Hf');
        [lia | by rewrite Hd1 | |].
      { intros k. rewrite Hnl.
        replace (S (w_nlist w) + k)%nat with (w_nlist w + S k)%nat by lia. apply Hfail. }
      exists (S fuel), sig, l', w'. simpl. rewrite Hd, Hb.
      split; [exact Hrun|]. split; [lia | congruence].
    + exists 1%nat. simpl. rewrite Hd, Hb.
      eexists _, _, _. split; [reflexivity|]. split; auto; lia.
    + exists 1%nat. simpl. rewrite Hd, Hb.
      eexists _, _, _. split; [reflexivity|]. split; auto; lia.
Qed.

(** X10. Against a content endpoint that only fails (bad status, missing
    items or transport error), the loop always ends, whatever the
    authentication endpoint does: it sends at least one page request and
    at most as many as it takes the error count to reach the threshold
    plus 5, and it writes nothing to the record files. *)
Theorem failing_endpoint_bounded ev a l w :
  dt_gtb (date l) (start_date a) = true →
  (∀ k, fetch_failure (env_list ev (w_nlist w + k)) = true) →
  ∃ fuel sig l' w',
    while_loop ev a fuel l w = Some (sig, l', w')
    ∧ (w_nlist w < w_nlist w')%nat
    ∧ Z.of_nat (w_nlist w') - Z.of_nat (w_nlist w)
      ≤ Z.max 1 (error_thold a + 5 - error_count l)
    ∧ w_files w' = w_files w.
Proof.
  intros Hd Hfail.
  destruct (failing_run ev a (Z.to_nat (error_thold a + 5 - (error_count l + 1))) l w)
    as (fuel & sig & l' & w' & Hrun & Hbound & Hfiles); auto.
  exists fuel, sig, l', w'. split; [exact Hrun|]. split; [lia|]. split; [lia | exact Hfiles].
Qed.

Lemma failing_endpoint_bounded_witness :
  dt_gtb (date ex_locals) (start_date ex_params) = true
  ∧ (∀ k, fetch_failure (env_list ex_env_down (w_nlist ex_world_open + k)) = true)
  ∧ ∃ fuel sig l' w',
      while_loop ex_env_down ex_params fuel ex_locals ex_world_open = Some (sig, l', w')
      ∧ (w_nlist ex_world_open < w_nlist w')%nat
      ∧ Z.of_nat (w_nlist w') - Z.of_nat (w_nlist ex_world_open) ≤ 10
      ∧ w_files w' = w_files ex_world_open.
Proof.
  split; [reflexivity|]. split; [intros k; reflexivity|].
  apply (failing_endpoint_bounded ex_env_down ex_params ex_locals ex_world_open eq_refl).
  intros k. reflexivity.
Defined.

(** X11. An iteration whose fetch fails sends a refresh request exactly
    when the incremented error count equals the threshold; in particular
    with a threshold of 0 or less no refresh is ever attempted from a
    non-negative count. *)
Theorem refresh_only_at_threshold ev a l w :
  fetch_failure (env_list ev (w_nlist w)) = true →
  ∃ sig l' w',
    loop_body ev a l w = (sig, l', w')
    ∧ error_count l' = error_count l + 1
    ∧ (w_nauth w' = S (w_nauth w) ↔ error_count l + 1 = error_thold a)
    ∧ (w_nauth w' = w_nauth w ↔ error_count l + 1 ≠ error_thold a).
Proof.
  intros Hf.
  destruct (failed_iteration ev a l w Hf)
    as (sig & l' & w' & Hb & _ & _ & _ & He & _ & _ & Hne & Heq).
  exists sig, l', w'. split; [exact Hb|]. split; [exact He|].
  destruct (decide (error_count l + 1 = error_thold a)) as [E|E].
  - specialize (Heq E). split; split; intros; auto; lia.
  - specialize (Hne E). split; split; intros; auto; lia.
Qed.

Lemma refresh_only_at_threshold_witness :
  fetch_failure (env_list ex_env_down (w_nlist ex_world_open)) = true
  ∧ ∃ sig l' w',
      loop_body ex_env_down ex_params ex_locals_thold ex_world_open = (sig, l', w')
      ∧ error_count l' = 5
      ∧ (w_nauth w' = S (w_nauth ex_world_open)
         ↔ error_count ex_locals_thold + 1 = error_thold ex_params).
Proof.
  split; [reflexivity|].
  destruct (refresh_only_at_threshold ex_env_down ex_params ex_locals_thold ex_world_open
              eq_refl) as (sig & l' & w' & Hb & He & Hiff & _).
  exists sig, l', w'. auto.
Defined.

Lemma refresh_token_ok ev tok w j tk ac rf :
  env_auth ev (w_nauth w) = Replied 200 (Some j) →
  j !! "token_type" = Some tk → j !! "access_token" = Some ac →
  j !! "refresh_token" = Some rf →
  refresh_token ev tok w
  = (Ok (tk, ac, rf), add_log InfoNewToken (sent_auth (AuthRequest tok) w)).
Proof.
  intros Hr H1 H2 H3. unfold_calls. simpl. rewrite Hr. simpl.
  unfold dict_get. by rewrite H1, H2, H3.
Qed.

(** X12. When a failed fetch brings the error count to the threshold and
    the authentication endpoint grants a new credential, the loop
    continues and the request of the next iteration carries the new
    token type and access token, for the same page and cursor; the new
    refresh token replaces the old one. *)
Theorem refreshed_credential_is_used ev a l w j tk ac rf :
  fetch_failure (env_list ev (w_nlist w)) = true →
  error_count l + 1 = error_thold a →
  env_auth ev (w_nauth w) = Replied 200 (Some j) →
  j !! "token_type" = Some tk → j !! "access_token" = Some ac →
  j !! "refresh_token" = Some rf →
  ∃ l' w',
    loop_body ev a l w = (SContinue, l', w')
    ∧ list_request a l'
      = ListRequest (tk +:+ " " +:+ ac) (request_data (page l) (last_id l) (symbol a))
    ∧ ref_token l' = rf
    ∧ w_net w' = w_net w ++ [list_request a l; AuthRequest (ref_token l)].
Proof.
  intros Hf Hec Hr H1 H2 H3. rewrite <- (announced_nlist l w) in Hf.
  destruct (load_data_failure ev (token_type l) (access_token l) (page l) (last_id l)
              (symbol a) (announced l w) Hf) as (e & w1 & Hl & He & _ & _ & Ha).
  destruct (announced_frame l w) as [Hnn Haa]. rewrite Haa in Ha.
  assert (w_net w1 = w_net w ++ [list_request a l]) as Hn1.
  { destruct (load_data_world _ _ _ _ _ _ _ _ _ Hl) as [-> | ->]; simpl; by rewrite Hnn. }
  unfold loop_body. fold (announced l w). rewrite Hl, He.
  unfold on_fetch_error. simpl. rewrite Hec, Z.eqb_refl.
  unfold renew_credentials. simpl.
  rewrite (refresh_token_ok ev (ref_token l) (add_log (ErrorOnPage (page l) e) w1)
             j tk ac rf) by (simpl; congruence).
  simpl.
  destruct (update_config_refresh_token (config_path a) rf _) as [r w2] eqn:Hup.
  destruct (update_config_world _ _ _ _ _ Hup) as (-> & _ & Hn2 & _).
  eexists _, _. split; [reflexivity|]. split; [reflexivity|]. split; [reflexivity|].
  rewrite Hn2. simpl. by rewrite Hn1, <- app_assoc.
Qed.

Lemma refreshed_credential_is_used_witness :
  fetch_failure (env_list ex_env_down (w_nlist ex_world_open)) = true
  ∧ error_count ex_locals_thold + 1 = error_thold ex_params
  ∧ env_auth ex_env_down (w_nauth ex_world_open) = Replied 200 (Some ex_tokens)
  ∧ ∃ l' w',
      loop_body ex_env_down ex_params ex_locals_thold ex_world_open = (SContinue, l', w')
      ∧ list_request ex_params l' = ListRequest "Bearer A1" (BodyTag "X")
      ∧ ref_token l' = "R1".
Proof.
  split; [reflexivity|]. split; [reflexivity|]. split; [reflexivity|].
  destruct (refreshed_credential_is_used ex_env_down ex_params ex_locals_thold
              ex_world_open ex_tokens "Bearer" "A1" "R1")
    as (l' & w' & Hb & Hq & Hrf & _);
    [reflexivity | reflexivity | reflexivity | vm_compute; reflexivity
    | vm_compute; reflexivity | vm_compute; reflexivity |].
  exists l', w'. auto.
Defined.

(** X13. After an iteration that brought new content, the next request
    carries the id of the last record just written, together with the
    tag, whatever the page counter was (as long as it was not negative). *)
Theorem cursor_follows_last_record ev a l w items rows newest :
  env_list ev (w_nlist w) = Replied 200 (Some items) →
  rows_of items = Some rows →
  last rows = Some newest →
  row_id newest ≠ last_id l →
  store_open (file_name a) w →
  (∀ k, (k < List.length items)%nat → env_write_interrupt ev (w_nwrite w + k) = false) →
  0 ≤ page l →
  ∃ l' w',
    loop_body ev a l w = (SNormal, l', w')
    ∧ list_request a l'
      = ListRequest (token_type l +:+ " " +:+ access_token l)
                    (BodyIdTag (row_id newest) (symbol a)).
Proof.
  intros Hr Hrows Hlast Hnew Hopen Hq Hpage.
  eexists _, _. split; [by apply (loop_body_new_content ev a l w items rows newest)|].
  unfold list_request, request_data. simpl.
  destruct (page l + 1 <? 1) eqn:E; [apply Z.ltb_lt in E; lia | reflexivity].
Qed.

Lemma cursor_follows_last_record_witness :
  env_list ex_env_pages (w_nlist ex_world_open) = Replied 200 (Some (ex_pages 0))
  ∧ rows_of (ex_pages 0) = Some ex_rows
  ∧ 0 ≤ page ex_locals
  ∧ ∃ l' w',
      loop_body ex_env_pages ex_params ex_locals ex_world_open = (SNormal, l', w')
      ∧ list_request ex_params l' = ListRequest "Bearer A1" (BodyIdTag "8" "X").
Proof.
  split; [reflexivity|]. split; [vm_compute; reflexivity|]. split; [reflexivity|].
  apply (cursor_follows_last_record ex_env_pages ex_params ex_locals ex_world_open
           (ex_pages 0) ex_rows (ex_newest 0));
    [reflexivity | vm_compute; reflexivity | reflexivity | discriminate
    | exists (mkcsv [] [field_names] true true); split; vm_compute; reflexivity
    | intros; reflexivity | reflexivity].
Defined.

(** ** Starting and ending a run *)

(** X14. A record file that exists but holds no record makes the resume
    fail before the file is opened: [EmptyDataError] when the file is
    empty, [IndexError] from [iloc[-1]] when it holds only the header. The
    exception leaves [scrape_sahamyab]; no record file is touched and no
    page is requested. *)
Theorem store_without_records_raises ev a fuel token w l1 w1 f :
  renew_credentials ev a (initial_locals ev token) w = (Ok tt, l1, w1) →
  w_files w !! file_name a = Some f →
  f_disk f = [] ∨ f_disk f = [field_names] →
  scrape_sahamyab ev a fuel token w
  = Some (SRaise (match f_disk f with [] => EmptyDataError | _ => IndexError end),
          set_o_mode "a" l1, w1)
  ∧ w_files w1 = w_files w ∧ w_nlist w1 = w_nlist w.
Proof.
  intros Hrenew Hf Hdisk.
  destruct (renew_credentials_world _ _ _ _ _ _ _ Hrenew) as (_ & _ & Hnl & _ & Hfiles).
  split; [|auto].
  unfold scrape_sahamyab. rewrite Hrenew.
  unfold seed_cursor, read_csv. rewrite Hfiles, Hf.
  destruct Hdisk as [-> | ->]; reflexivity.
Qed.

Lemma store_without_records_raises_witness :
  renew_credentials ex_env_pages ex_params (initial_locals ex_env_pages "R0")
                    ex_world_header_only
  = (Ok tt, set_tokens ("Bearer", "A1", "R1") (initial_locals ex_env_pages "R0"),
     (update_config_refresh_token "config.json" "R1"
        (add_log InfoNewToken (sent_auth (AuthRequest "R0") ex_world_header_only))).2)
  ∧ w_files ex_world_header_only !! file_name ex_params
    = Some (mkcsv [field_names] [] false true)
  ∧ ∃ l' w', scrape_sahamyab ex_env_pages ex_params 5 "R0" ex_world_header_only
             = Some (SRaise IndexError, l', w')
             ∧ w_files w' = w_files ex_world_header_only
             ∧ w_nlist w' = w_nlist ex_world_header_only.
Proof.
  split; [vm_compute; reflexivity|]. split; [vm_compute; reflexivity|].
  destruct (store_without_records_raises ex_env_pages ex_params 5 "R0"
              ex_world_header_only
              (set_tokens ("Bearer", "A1", "R1") (initial_locals ex_env_pages "R0"))
              (update_config_refresh_token "config.json" "R1"
                 (add_log InfoNewToken
                    (sent_auth (AuthRequest "R0") ex_world_header_only))).2
              (mkcsv [field_names] [] false true))
    as (Hrun & Hfiles & Hnl);
    [vm_compute; reflexivity | vm_compute; reflexivity | right; reflexivity |].
  eexists _, _. split; [exact Hrun|]. split; [exact Hfiles | exact Hnl].
Defined.

Lemma renew_credentials_create ev a l w r l' w' :
  renew_credentials ev a l w = (r, l', w') → w_can_create w' = w_can_create w.
Proof.
  unfold renew_credentials. intros H.
  destruct (refresh_token ev (ref_token l) w) as [[t|e] w1] eqn:Href.
  - destruct (update_config_refresh_token _ _ w1) as [r2 w2] eqn:Hup.
    destruct (update_config_world _ _ _ _ _ Hup) as (-> & _ & _ & _ & _ & _ & Hc).
    simplify_eq. rewrite Hc.
    destruct (refresh_token_world _ _ _ _ _ Href) as [-> | ->]; reflexivity.
  - simplify_eq.
    destruct (refresh_token_world _ _ _ _ _ Href) as [-> | ->]; reflexivity.
Qed.

(** X15. On a fresh disk, when the boundary is not before the current
    time, the run requests no page: it creates the record file, writes the
    header, closes the file and returns. The file then holds the header
    and no record. *)
Theorem boundary_not_before_now ev a fuel token w l1 w1 :
  renew_credentials ev a (initial_locals ev token) w = (Ok tt, l1, w1) →
  w_files w !! file_name a = None →
  w_can_create w = true →
  env_write_interrupt ev (w_nwrite w) = false →
  dt_gtb (env_now ev) (start_date a) = false →
  ∃ l' w',
    scrape_sahamyab ev a (S fuel) token w = Some (SReturn, l', w')
    ∧ w_files w' = <[file_name a := mkcsv [field_names] [] false true]> (w_files w)
    ∧ w_nlist w' = w_nlist w.
Proof.
  intros Hrenew Hf Hcreate Hq Hnow.
  destruct (renew_credentials_world _ _ _ _ _ _ _ Hrenew) as (_ & _ & Hnl & Hnw & Hfiles).
  destruct (renew_credentials_locals _ _ _ _ _ _ _ Hrenew) as (Hdate & _).
  pose proof (renew_credentials_create _ _ _ _ _ _ _ Hrenew) as Hc.
  simpl in Hdate.
  unfold scrape_sahamyab. rewrite Hrenew.
  unfold seed_cursor. rewrite Hfiles, Hf.
  unfold open_file. simpl. rewrite Hfiles, Hf, Hc, Hcreate.
  unfold try_statement. simpl.
  unfold writerow. simpl. rewrite Hnw, Hq, lookup_insert_eq. simpl.
  unfold scrape_from. simpl. rewrite Hdate, Hnow. simpl.
  eexists _, _. split; [reflexivity|]. simpl.
  unfold close_file. simpl. rewrite lookup_insert_eq. simpl.
  split; [|exact Hnl].
  by rewrite !insert_insert_eq.
Qed.

Lemma boundary_not_before_now_witness :
  w_files ex_world !! file_name ex_params_future = None
  ∧ w_can_create ex_world = true
  ∧ dt_gtb (env_now ex_env_pages) (start_date ex_params_future) = false
  ∧ ∃ l' w',
      scrape_sahamyab ex_env_pages ex_params_future 1 "R0" ex_world
      = Some (SReturn, l', w')
      ∧ w_files w' = <["data.csv" := mkcsv [field_names] [] false true]> (w_files ex_world)
      ∧ w_nlist w' = w_nlist ex_world.
Proof.
  split; [reflexivity|]. split; [reflexivity|]. split; [reflexivity|].
  apply (boundary_not_before_now ex_env_pages ex_params_future 0 "R0" ex_world
           (set_tokens ("Bearer", "A1", "R1") (initial_locals ex_env_pages "R0"))
           (update_config_refresh_token "config.json" "R1"
              (add_log InfoNewToken (sent_auth (AuthRequest "R0") ex_world))).2);
    [vm_compute; reflexivity | reflexivity | reflexivity | reflexivity | reflexivity].
Defined.

Lemma write_items_app ev a xs : ∀ ys l w,
  write_items ev a (xs ++ ys) l w
  = match write_items ev a xs l w with
    | (SNormal, l1, w1) => write_items ev a ys l1 w1
    | other => other
    end.
Proof.
  induction xs as [|x xs IH]; intros ys l w; simpl; [reflexivity|].
  destruct (make_row x) as [r|e]; [|reflexivity].
  destruct (writerow ev (file_name a) (row_cells r) w) as [[u|e] w1]; [apply IH|reflexivity].
Qed.

(** X16. When a record in the middle of a page is malformed (a key is
    missing or its timestamp does not parse), the records before it have
    been written and stay, the cursor is already on the id of the page's
    last record, the page counter and the error count are unchanged, and
    the run ends there: the [finally] block closes the file and returns. *)
Theorem malformed_record_ends_run ev a fuel l w good bad rest rows e last_item lid :
  dt_gtb (date l) (start_date a) = true →
  env_list ev (w_nlist w) = Replied 200 (Some (good ++ bad :: rest)) →
  rows_of good = Some rows →
  make_row bad = Raise e →
  last (good ++ bad :: rest) = Some last_item →
  last_item !! "id" = Some lid →
  lid ≠ last_id l →
  store_open (file_name a) w →
  (∀ k, (k < List.length good)%nat → env_write_interrupt ev (w_nwrite w + k) = false) →
  ∃ l' w',
    loop_body ev a l w = (SRaise e, l', w')
    ∧ w' = store_append (file_name a) (map row_cells rows)
             (add_log (InfoStatus 200) (sent_list (list_request a l) (announced l w)))
    ∧ last_id l' = lid ∧ page l' = page l ∧ error_count l' = error_count l
    ∧ ∃ wf, scrape_from ev a (S fuel) l w = Some (SReturn, l', wf)
            ∧ w_nlist wf = S (w_nlist w).
Proof.
  intros Hd Hr Hrows Hbad Hlast Hid Hne Hopen Hq.
  set (w1 := add_log (InfoStatus 200) (sent_list (list_request a l) (announced l w))).
  assert (Hopen1 : store_open (file_name a) w1).
  { apply (store_open_files _ w); [|done]. simpl. apply announced_files. }
  assert (Hbody : ∃ l', loop_body ev a l w
                        = (SRaise e, l', store_append (file_name a) (map row_cells rows) w1)
                        ∧ last_id l' = lid ∧ page l' = page l
                        ∧ error_count l' = error_count l).
  { unfold loop_body. fold (announced l w).
    rewrite (load_data_ok _ _ _ _ _ _ _ (good ++ bad :: rest))
      by (by rewrite announced_nlist).
    fold (list_request a l). fold w1.
    unfold process_page, py_last, dict_get. rewrite Hlast, Hid.
    rewrite (last_id_is_other l lid Hne).
    rewrite write_items_app, (write_items_ok _ _ _ rows); [|done|done|].
    - simpl. rewrite Hbad. eexists. split; [reflexivity|].
      destruct (last rows); simpl; auto.
    - intros k Hk. subst w1. simpl. rewrite announced_nwrite. by apply Hq. }
  destruct Hbody as (l' & Hb & H1 & H2 & H3).
  exists l', (store_append (file_name a) (map row_cells rows) w1).
  split; [exact Hb|]. split; [reflexivity|]. split; [exact H1|].
  split; [exact H2|]. split; [exact H3|].
  eexists. split; [by apply scrape_from_raise|].
  destruct (close_file_frame (file_name a)
              (if is_Exception e
               then store_append (file_name a) (map row_cells rows) w1
               else add_log WarnInterrupted
                      (store_append (file_name a) (map row_cells rows) w1)))
    as (_ & _ & Hcl & _).
  simpl. rewrite Hcl.
  destruct (store_append_frame (file_name a) (map row_cells rows) w1) as [Hsl _].
  destruct (is_Exception e); simpl; rewrite Hsl; subst w1; simpl;
    by rewrite announced_nlist.
Qed.

Lemma malformed_record_ends_run_witness :
  dt_gtb (date ex_locals) (start_date ex_params) = true
  ∧ make_row (delete "sendTime" (ex_item "8" "2020-12-01T00:00:00Z"))
    = Raise (KeyError "sendTime")
  ∧ ∃ l' w',
      loop_body ex_env_malformed ex_params ex_locals ex_world_open
      = (SRaise (KeyError "sendTime"), l', w')
      ∧ w' = store_append "data.csv"
               [["9"; "2021-01-01 00:00:00"; "u"; "c"]]
               (add_log (InfoStatus 200)
                  (sent_list (list_request ex_params ex_locals)
                             (announced ex_locals ex_world_open)))
      ∧ last_id l' = "7" ∧ page l' = 0 ∧ error_count l' = 0.
Proof.
  split; [reflexivity|]. split; [vm_compute; reflexivity|].
  destruct (malformed_record_ends_run ex_env_malformed ex_params 0 ex_locals ex_world_open
              [ex_item "9" "2021-01-01T00:00:00Z"]
              (delete "sendTime" (ex_item "8" "2020-12-01T00:00:00Z"))
              [ex_item "7" "2020-09-01T00:00:00Z"]
              [mkrow "9" (mkdt 2021 1 1 0 0 0 0) "u" "c"]
              (KeyError "sendTime") (ex_item "7" "2020-09-01T00:00:00Z") "7")
    as (l' & w' & Hb & Hw & H1 & H2 & H3 & _);
    [reflexivity | reflexivity | vm_compute; reflexivity | vm_compute; reflexivity
    | reflexivity | vm_compute; reflexivity | discriminate
    | exists (mkcsv [] [field_names] true true); split; vm_compute; reflexivity
    | intros; reflexivity |].
  exists l', w'. split; [exact Hb|]. split; [exact Hw|]. auto.
Defined.

Section OrderedRun.

Variables (ev : env) (a : params) (c : nat) (lid : string).
Variables (pg : nat → list (gmap string string)) (newest : nat → row).
Hypothesis endpoint : decreasing_endpoint ev a c lid pg newest.

(** One iteration on page [k], with what it appends. *)
Lemma endpoint_step_store k l w f :
  w_nlist w = (c + k)%nat →
  row_id (newest k) ≠ last_id l →
  w_files w !! file_name a = Some f → f_open f = true →
  ∃ l1 w1,
    loop_body ev a l w = (SNormal, l1, w1)
    ∧ date l1 = row_time (newest k) ∧ last_id l1 = row_id (newest k)
    ∧ w_nlist w1 = (c + S k)%nat
    ∧ w_files w1 !! file_name a
      = Some (mkcsv (f_disk f) (f_buf f ++ page_cells pg k) true (f_writable f))
    ∧ (∀ p, p ≠ file_name a → w_files w1 !! p = w_files w !! p).
Proof.
  intros Hn Hnew Hf Ho.
  destruct (de_rows _ _ _ _ _ _ endpoint k) as (rs & Hrows & Hlast).
  eexists _, _. split.
  - apply (loop_body_new_content ev a l w (pg k) rs (newest k)); auto.
    + rewrite Hn. apply (de_reply _ _ _ _ _ _ endpoint).
    + exists f. auto.
    + intros j _. apply (de_quiet _ _ _ _ _ _ endpoint).
  - simpl. unfold store_append. simpl. rewrite announced_files, Hf. simpl.
    rewrite announced_nlist, Hn.
    split; [reflexivity|]. split; [reflexivity|]. split; [lia|].
    split.
    + rewrite lookup_insert_eq. unfold page_cells. by rewrite Hrows.
    + intros p Hp. by rewrite lookup_insert_ne.
Qed.

Lemma endpoint_run_store (m : nat) : ∀ k l w f,
  (Z.to_nat (dt_ordinal (row_time (newest k))) ≤ m)%nat →
  w_nlist w = (c + k)%nat →
  row_id (newest k) ≠ last_id l →
  w_files w !! file_name a = Some f → f_open f = true →
  dt_gtb (date l) (start_date a) = true →
  ∃ count fuel l' w',
    while_loop ev a fuel l w = Some (SNormal, l', w')
    ∧ (∀ j, (j < count)%nat → dt_gtb (row_time (newest (k + j))) (start_date a) = true)
    ∧ dt_gtb (row_time (newest (k + count))) (start_date a) = false
    ∧ w_nlist w' = (c + S (k + count))%nat
    ∧ w_files w' !! file_name a
      = Some (mkcsv (f_disk f) (f_buf f ++ cells_from pg k (S count)) true (f_writable f))
    ∧ (∀ p, p ≠ file_name a → w_files w' !! p = w_files w !! p).
Proof.
  induction m as [|m IH]; intros k l w f Hm Hn Hnew Hf Ho Hd;
    destruct (endpoint_step_store k l w f Hn Hnew Hf Ho)
      as (l1 & w1 & Hb & Hdate & Hid & Hn1 & Hf1 & Hother);
    destruct (dt_gtb (row_time (newest k)) (start_date a)) eqn:Hk.
  - pose proof (de_decreasing _ _ _ _ _ _ endpoint k Hk) as Hlt.
    apply dt_ltb_ordinal in Hlt; [|eapply newest_valid; exact endpoint..].
    pose proof (dt_ordinal_nonneg _ (newest_valid _ _ _ _ _ _ endpoint (S k))). lia.
  - exists 0%nat, 2%nat, l1, w1. simpl. rewrite Hd, Hb, Hdate, Hk, Nat.add_0_r.
    split; [reflexivity|]. split; [intros j Hj; lia|].
    split; [exact Hk|]. split; [exact Hn1|].
    split; [by rewrite app_nil_r | exact Hother].
  - pose proof (de_decreasing _ _ _ _ _ _ endpoint k Hk) as Hlt.
    apply dt_ltb_ordinal in Hlt; [|eapply newest_valid; exact endpoint..].
    pose proof (dt_ordinal_nonneg _ (newest_valid _ _ _ _ _ _ endpoint (S k))).
    destruct (IH (S k) l1 w1
                (mkcsv (f_disk f) (f_buf f ++ page_cells pg k) true (f_writable f)))
      as (count & fuel & l' & w' & Hrun & Hbefore & Hstop & Hnl & Hfile & Hoth);
      [lia | done | | exact Hf1 | reflexivity | by rewrite Hdate |].
    { rewrite Hid. apply (de_fresh _ _ _ _ _ _ endpoint). }
    exists (S count), (S fuel), l', w'. simpl. rewrite Hd, Hb.
    split; [exact Hrun|].
    split.
    { intros [|j] Hj; [by rewrite Nat.add_0_r|].
      replace (k + S j)%nat with (S k + j)%nat by lia. apply Hbefore. lia. }
    replace (k + S count)%nat with (S k + count)%nat by lia.
    split; [exact Hstop|]. split; [exact Hnl|]. split.
    + rewrite Hfile. simpl. by rewrite <- app_assoc.
    + intros p Hp. rewrite (Hoth p Hp). by apply Hother.
  - exists 0%nat, 2%nat, l1, w1. simpl. rewrite Hd, Hb, Hdate, Hk, Nat.add_0_r.
    split; [reflexivity|]. split; [intros j Hj; lia|].
    split; [exact Hk|]. split; [exact Hn1|].
    split; [by rewrite app_nil_r | exact Hother].
Qed.

(** The cells written for the pages are the lines of their items, one
    line per item and in the order received. *)
Lemma cells_from_lines count : ∀ k,
  Forall2 line_of (items_from pg k count) (cells_from pg k count).
Proof.
  unfold items_from.
  induction count as [|count IH]; intros k; simpl; [constructor|].
  apply Forall2_app; [|apply IH].
  destruct (de_rows _ _ _ _ _ _ endpoint k) as (rs & Hrows & _).
  unfold page_cells. rewrite Hrows. by apply rows_of_lines.
Qed.

End OrderedRun.

(** The lines of given items are determined by the items. *)
Lemma lines_of_items items rows lines :
  rows_of items = Some rows → Forall2 line_of items lines → lines = map row_cells rows.
Proof.
  intros Hrows H. destruct (lines_of_rows _ _ H) as (rows' & Hrows' & ->).
  congruence.
Qed.

Lemma ex_two_pages n :
  (∀ j, (j < n)%nat → dt_gtb (row_time (ex_newest j)) (start_date ex_params) = true) →
  dt_gtb (row_time (ex_newest n)) (start_date ex_params) = false →
  n = 1%nat.
Proof.
  intros Hbefore Hstop. destruct n as [|[|n]]; [discriminate Hstop | reflexivity |].
  specialize (Hbefore 1%nat ltac:(lia)). discriminate Hbefore.
Qed.

(** X17. Against an endpoint with new, well-formed pages of decreasing
    timestamps, the loop fetches the pages up to the first one that is not
    after the boundary and appends to the record file one line per record
    of these pages, page after page and in the order of each page, after
    what the file already held; each line is made of the id, the
    converted timestamp, the user name and the content of its record. No
    other record file changes. *)
Theorem pages_are_appended_in_order ev a l w f pg newest :
  decreasing_endpoint ev a (w_nlist w) (last_id l) pg newest →
  w_files w !! file_name a = Some f → f_open f = true →
  dt_gtb (date l) (start_date a) = true →
  ∃ n fuel l' w' added,
    while_loop ev a fuel l w = Some (SNormal, l', w')
    ∧ (∀ j, (j < n)%nat → dt_gtb (row_time (newest j)) (start_date a) = true)
    ∧ dt_gtb (row_time (newest n)) (start_date a) = false
    ∧ w_nlist w' = (w_nlist w + S n)%nat
    ∧ w_files w' !! file_name a
      = Some (mkcsv (f_disk f) (f_buf f ++ added) true (f_writable f))
    ∧ Forall2 line_of (items_from pg 0 (S n)) added
    ∧ (∀ p, p ≠ file_name a → w_files w' !! p = w_files w !! p).
Proof.
  intros Hend Hf Ho Hd.
  destruct (endpoint_run_store ev a (w_nlist w) (last_id l) pg newest Hend
              (Z.to_nat (dt_ordinal (row_time (newest 0%nat)))) 0%nat l w f)
    as (count & fuel & l' & w' & Hrun & Hbefore & Hstop & Hnl & Hfile & Hoth); auto.
  - apply (de_first _ _ _ _ _ _ Hend).
  - exists count, fuel, l', w', (cells_from pg 0 (S count)).
    split; [exact Hrun|]. split; [exact Hbefore|]. split; [exact Hstop|].
    split; [exact Hnl|]. split; [exact Hfile|].
    split; [|exact Hoth].
    apply (cells_from_lines ev a (w_nlist w) (last_id l) pg newest Hend).
Qed.

Lemma pages_are_appended_in_order_witness :
  decreasing_endpoint ex_env_pages ex_params (w_nlist ex_world_open) (last_id ex_locals)
                      ex_pages ex_newest
  ∧ w_files ex_world_open !! file_name ex_params = Some (mkcsv [] [field_names] true true)
  ∧ dt_gtb (date ex_locals) (start_date ex_params) = true
  ∧ ∃ fuel l' w',
      while_loop ex_env_pages ex_params fuel ex_locals ex_world_open
      = Some (SNormal, l', w')
      ∧ w_nlist w' = 2%nat
      ∧ w_files w' !! "data.csv"
        = Some (mkcsv [] [["id"; "time"; "user"; "content"];
                          ["9"; "2021-01-01 00:00:00"; "u"; "c"];
                          ["8"; "2020-12-01 00:00:00"; "u"; "c"];
                          ["7"; "2020-09-01 00:00:00"; "u"; "c"];
                          ["6"; "2020-07-01 00:00:00"; "u"; "c"]] true true).
Proof.
  split; [exact ex_pages_decreasing|]. split; [vm_compute; reflexivity|].
  split; [reflexivity|].
  destruct (pages_are_appended_in_order ex_env_pages ex_params ex_locals ex_world_open
              (mkcsv [] [field_names] true true) ex_pages ex_newest ex_pages_decreasing)
    as (n & fuel & l' & w' & added & Hrun & Hbefore & Hstop & Hnl & Hfile & Hlines & _);
    [vm_compute; reflexivity | reflexivity | reflexivity |].
  pose proof (ex_two_pages n Hbefore Hstop) as ->.
  rewrite (lines_of_items (items_from ex_pages 0 2)
             [mkrow "9" (mkdt 2021 1 1 0 0 0 0) "u" "c";
              mkrow "8" (mkdt 2020 12 1 0 0 0 0) "u" "c";
              mkrow "7" (mkdt 2020 9 1 0 0 0 0) "u" "c";
              mkrow "6" (mkdt 2020 7 1 0 0 0 0) "u" "c"] added) in Hfile;
    [|vm_compute; reflexivity|exact Hlines].
  exists fuel, l', w'. split; [exact Hrun|]. split; [exact Hnl|].
  etrans; [exact Hfile|]. vm_compute. reflexivity.
Defined.

(** ** What a run does to the files *)

Lemma appends_rows_refl path w : appends_rows path w w.
Proof.
  split; [done|]. split; [done|]. intros f Hf. exists [].
  split; [|constructor]. rewrite Hf, app_nil_r. by destruct f.
Qed.

Lemma appends_rows_files path w w' : w_files w' = w_files w → appends_rows path w w'.
Proof.
  intros E. destruct (appends_rows_refl path w) as (H1 & H2 & H3).
  unfold appends_rows. rewrite E. auto.
Qed.

Lemma appends_rows_trans path w1 w2 w3 :
  appends_rows path w1 w2 → appends_rows path w2 w3 → appends_rows path w1 w3.
Proof.
  intros (A1 & A2 & A3) (B1 & B2 & B3). split; [|split].
  - intros p Hp. by rewrite B1, A1.
  - intros Hn. auto.
  - intros f Hf. destruct (A3 f Hf) as (add1 & Hf2 & Hw1).
    destruct (B3 _ Hf2) as (add2 & Hf3 & Hw2). simpl in Hf3.
    exists (add1 ++ add2). split; [by rewrite Hf3, <- app_assoc|].
    by apply Forall_app.
Qed.

Lemma writerow_appends ev path cells w r w' :
  List.length cells = 4%nat →
  writerow ev path cells w = (r, w') → appends_rows path w w'.
Proof.
  intros Hlen. unfold writerow. intros H.
  destruct (env_write_interrupt ev (w_nwrite w));
    [simplify_eq; by apply appends_rows_files|].
  destruct (w_files w !! path) as [f|] eqn:Hf;
    [|simplify_eq; by apply appends_rows_files].
  destruct (f_open f) eqn:Ho; [|simplify_eq; by apply appends_rows_files].
  simplify_eq. split; [|split].
  - intros p Hp. simpl. by apply lookup_insert_ne.
  - intros Hn. congruence.
  - intros f0 Hf0. simplify_eq. exists [cells]. simpl.
    rewrite lookup_insert_eq, Ho. split; [reflexivity|]. by repeat constructor.
Qed.

Lemma write_items_appends ev a items : ∀ l w sig l' w',
  write_items ev a items l w = (sig, l', w') → appends_rows (file_name a) w w'.
Proof.
  induction items as [|item rest IH]; simpl; intros l w sig l' w' H.
  - simplify_eq. apply appends_rows_refl.
  - destruct (make_row item) as [r|e]; [|simplify_eq; apply appends_rows_refl].
    destruct (writerow ev (file_name a) (row_cells r) w) as [[u|e] w1] eqn:Hw;
      apply writerow_appends in Hw; try reflexivity.
    + eapply appends_rows_trans; eauto.
    + by simplify_eq.
Qed.

Lemma loop_body_appends ev a l w sig l' w' :
  loop_body ev a l w = (sig, l', w') → appends_rows (file_name a) w w'.
Proof.
  unfold loop_body. fold (announced l w). intros H.
  destruct (load_data _ _ _ _ _ _ _) as [[items|e] w1] eqn:Hl;
    (assert (w_files w1 = w_files w) as Hw1;
     [destruct (load_data_world _ _ _ _ _ _ _ _ _ Hl) as [-> | ->]; simpl;
      apply announced_files|]).
  - apply (appends_rows_trans _ _ w1); [by apply appends_rows_files|].
    unfold process_page in H.
    destruct (py_last items) as [last_item|e]; [|simplify_eq; apply appends_rows_refl].
    destruct (dict_get last_item "id") as [lid|e]; [|simplify_eq; apply appends_rows_refl].
    destruct (last_id_is l lid); [simplify_eq; apply appends_rows_refl|].
    destruct (write_items ev a items (set_last_id lid l) w1) as [[s2 l2] w2] eqn:Hw.
    apply write_items_appends in Hw.
    destruct s2; simplify_eq; auto.
    destruct (bind_result _ _); simplify_eq; auto.
  - destruct (is_Exception e); [|simplify_eq; by apply appends_rows_files].
    unfold on_fetch_error in H. apply appends_rows_files.
    destruct (_ =? _).
    + destruct (renew_credentials _ _ _ _) as [[r l2] w2] eqn:Hr.
      apply renew_credentials_world in Hr as (_ & _ & _ & _ & Hrf). simpl in Hrf.
      destruct r as [u|e']; [|destruct (is_Exception e')]; simplify_eq; simpl; congruence.
    + destruct (_ <=? _); by simplify_eq.
Qed.

Lemma while_loop_appends ev a fuel : ∀ l w sig l' w',
  while_loop ev a fuel l w = Some (sig, l', w') → appends_rows (file_name a) w w'.
Proof.
  induction fuel as [|fuel IH]; simpl; intros l w sig l' w' H; [discriminate|].
  destruct (dt_gtb _ _); [|simplify_eq; apply appends_rows_refl].
  destruct (loop_body ev a l w) as [[s1 l1] w1] eqn:Hb.
  apply loop_body_appends in Hb.
  destruct s1; simplify_eq; auto; eapply appends_rows_trans; eauto.
Qed.

Lemma update_config_frame path tok w r w' :
  update_config_refresh_token path tok w = (r, w') → configs_frame path w w'.
Proof.
  intros H p Hp.
  destruct (update_config_cases path tok w) as [(f & c & _ & _ & _ & E)|(e & _ & E)];
    rewrite E in H; simplify_eq; simpl; [by apply lookup_insert_ne | done].
Qed.

Lemma renew_credentials_frame ev a l w r l' w' :
  renew_credentials ev a l w = (r, l', w') → configs_frame (config_path a) w w'.
Proof.
  unfold renew_credentials. intros H p Hp.
  destruct (refresh_token ev (ref_token l) w) as [[t|e] w1] eqn:Href.
  - destruct (update_config_refresh_token _ _ w1) as [r2 w2] eqn:Hup.
    pose proof (update_config_frame _ _ _ _ _ Hup p Hp) as Hfr.
    assert (w' = w2) as -> by (destruct r2; by simplify_eq).
    rewrite Hfr.
    destruct (refresh_token_world _ _ _ _ _ Href) as [-> | ->]; reflexivity.
  - simplify_eq.
    destruct (refresh_token_world _ _ _ _ _ Href) as [-> | ->]; reflexivity.
Qed.

Lemma loop_body_configs ev a l w sig l' w' :
  loop_body ev a l w = (sig, l', w') → configs_frame (config_path a) w w'.
Proof.
  unfold loop_body. fold (announced l w). intros H p Hp.
  assert (w_configs (announced l w) = w_configs w) as Hann.
  { unfold announced. by destruct (repeat_flag l). }
  destruct (load_data _ _ _ _ _ _ _) as [[items|e] w1] eqn:Hl;
    (assert (w_configs w1 = w_configs w) as Hw1;
     [destruct (load_data_world _ _ _ _ _ _ _ _ _ Hl) as [-> | ->]; simpl; exact Hann|]).
  - rewrite <- Hw1. f_equal.
    unfold process_page in H.
    destruct (py_last items) as [last_item|e]; [|by simplify_eq].
    destruct (dict_get last_item "id") as [lid|e]; [|by simplify_eq].
    destruct (last_id_is l lid); [by simplify_eq|].
    destruct (write_items ev a items (set_last_id lid l) w1) as [[s2 l2] w2] eqn:Hw.
    apply write_items_frame in Hw as (_ & _ & _ & Hc).
    destruct s2; simplify_eq; auto.
    destruct (bind_result _ _); by simplify_eq.
  - destruct (is_Exception e); [|simplify_eq; by rewrite Hw1].
    unfold on_fetch_error in H.
    destruct (_ =? _).
    + destruct (renew_credentials _ _ _ _) as [[r l2] w2] eqn:Hr.
      pose proof (renew_credentials_frame _ _ _ _ _ _ _ Hr p Hp) as Hfr. simpl in Hfr.
      destruct r as [u|e']; [|destruct (is_Exception e')]; simplify_eq; simpl;
        by rewrite Hfr, Hw1.
    + destruct (_ <=? _); simplify_eq; simpl; by rewrite Hw1.
Qed.

Lemma while_loop_configs ev a fuel : ∀ l w sig l' w',
  while_loop ev a fuel l w = Some (sig, l', w') → configs_frame (config_path a) w w'.
Proof.
  induction fuel as [|fuel IH]; simpl; intros l w sig l' w' H; [discriminate|].
  destruct (dt_gtb _ _); [|by simplify_eq].
  destruct (loop_body ev a l w) as [[s1 l1] w1] eqn:Hb.
  pose proof (loop_body_configs _ _ _ _ _ _ _ Hb) as Hc.
  destruct s1; simplify_eq; auto; intros p Hp;
    rewrite (IH _ _ _ _ _ H p Hp); by apply Hc.
Qed.

(** X19. However the loop runs and ends, the only thing it does to the
    file system is to append lines of four cells to the record file and
    to rewrite the configuration file at [config_path]: lines already in
    the record file are neither changed nor removed, a missing record
    file is not created, and every other file is left alone. *)
Theorem loop_only_appends_rows ev a fuel l w sig l' w' :
  while_loop ev a fuel l w = Some (sig, l', w') →
  appends_rows (file_name a) w w' ∧ configs_frame (config_path a) w w'.
Proof. eauto using while_loop_appends, while_loop_configs. Qed.

Lemma loop_only_appends_rows_witness :
  while_loop ex_env_pages ex_params 3 ex_locals ex_world_open
  = Some (ex_loop_run.1.1, ex_loop_run.1.2, ex_loop_run.2)
  ∧ appends_rows (file_name ex_params) ex_world_open ex_loop_run.2
  ∧ configs_frame (config_path ex_params) ex_world_open ex_loop_run.2.
Proof.
  split; [vm_compute; reflexivity|].
  apply (loop_only_appends_rows ex_env_pages ex_params 3 ex_locals ex_world_open
           ex_loop_run.1.1 ex_loop_run.1.2 ex_loop_run.2).
  vm_compute. reflexivity.
Defined.

Lemma scrape_from_store ev a fuel l w sig l' w' f :
  scrape_from ev a fuel l w = Some (sig, l', w') →
  w_files w !! file_name a = Some f →
  sig = SReturn
  ∧ ∃ added,
      w_files w' !! file_name a
      = Some (mkcsv (f_disk f ++ f_buf f ++ added) [] false (f_writable f))
      ∧ Forall (fun r => List.length r = 4%nat) added.
Proof.
  unfold scrape_from. intros H Hf.
  destruct (while_loop ev a fuel l w) as [[[s1 l1] w1]|] eqn:Hw; [|discriminate].
  apply while_loop_appends in Hw as (_ & _ & Happ).
  destruct (Happ f Hf) as (added & Hf1 & Hwidth).
  change (Some (with_finally (finally_block a) (except_interrupt (s1, l1, w1)))
          = Some (sig, l', w')) in H.
  assert (∃ w2 s2, except_interrupt (s1, l1, w1) = (s2, l1, w2)
                   ∧ w_files w2 = w_files w1) as (w2 & s2 & E & Hfiles).
  { destruct s1 as [| | | |[]]; simpl; eexists _, _; split; reflexivity. }
  rewrite E, with_finally_returns in H. simplify_eq. split; [reflexivity|].
  exists added. split; [|exact Hwidth].
  unfold close_file. simpl. rewrite Hfiles, Hf1. simpl.
  by rewrite lookup_insert_eq.
Qed.

(** X20. Whatever makes a run leave the loop (the boundary, the error
    cap, a failed refresh, an interrupt or any other exception), it
    returns with the record file closed and flushed: the disk holds what
    the file held before, then what was still buffered, then the lines of
    four cells appended by the run, and the buffer is empty. *)
Theorem every_exit_closes_store ev a fuel l w sig l' w' f :
  scrape_from ev a fuel l w = Some (sig, l', w') →
  w_files w !! file_name a = Some f →
  sig = SReturn
  ∧ ∃ f' added,
      w_files w' !! file_name a = Some f'
      ∧ f_open f' = false ∧ f_buf f' = []
      ∧ f_disk f' = f_disk f ++ f_buf f ++ added
      ∧ Forall (fun r => List.length r = 4%nat) added.
Proof.
  intros H Hf.
  destruct (scrape_from_store _ _ _ _ _ _ _ _ _ H Hf) as (-> & added & Hf' & Hw).
  split; [reflexivity|]. eexists _, added. split; [exact Hf'|]. auto.
Qed.

Lemma every_exit_closes_store_witness :
  scrape_from ex_env_interrupted ex_params 3 ex_locals ex_world_open
  = Some (ex_interrupted_run.1.1, ex_interrupted_run.1.2, ex_interrupted_run.2)
  ∧ w_files ex_world_open !! file_name ex_params = Some (mkcsv [] [field_names] true true)
  ∧ ex_interrupted_run.1.1 = SReturn
  ∧ ∃ f' added,
      w_files ex_interrupted_run.2 !! file_name ex_params = Some f'
      ∧ f_open f' = false ∧ f_buf f' = []
      ∧ f_disk f' = [] ++ [field_names] ++ added
      ∧ Forall (fun r => List.length r = 4%nat) added.
Proof.
  split; [vm_compute; reflexivity|]. split; [vm_compute; reflexivity|].
  apply (every_exit_closes_store ex_env_interrupted ex_params 3 ex_locals ex_world_open
           ex_interrupted_run.1.1 ex_interrupted_run.1.2 ex_interrupted_run.2
           (mkcsv [] [field_names] true true));
    vm_compute; reflexivity.
Defined.

(** [pd.read_csv] on a record file as this program leaves it. *)
Lemma read_csv_store path w f rows :
  w_files w !! path = Some f →
  f_disk f = field_names :: rows →
  Forall (fun r => List.length r = 4%nat) rows →
  read_csv path w = (Ok (field_names, rows), w).
Proof.
  intros Hf Hdisk Hrows. unfold read_csv. rewrite Hf, Hdisk.
  rewrite (filter_nonblank (field_names :: rows)) by (constructor; [reflexivity|done]).
  assert (table_width field_names rows = 4%nat) as ->.
  { destruct Hrows as [|r rest Hr _]; simpl; [reflexivity|by rewrite Hr]. }
  assert (forallb (fun r => (List.length r <=? 4)%nat) rows = true) as ->; [|reflexivity].
  apply forallb_forall. intros r Hr. apply Nat.leb_le.
  rewrite Forall_forall in Hrows. rewrite (Hrows r); [lia|]. by apply list_elem_of_In.
Qed.

(** X21. A run never leaves a record file the next run cannot parse: if
    the file was the header followed by lines of four cells when the loop
    started, then after any exit [read_csv] succeeds on it and yields the
    header and the old lines followed by the new ones. *)
Theorem store_stays_readable ev a fuel l w sig l' w' f :
  scrape_from ev a fuel l w = Some (sig, l', w') →
  w_files w !! file_name a = Some f →
  store_wf f →
  ∃ rows added,
    f_disk f ++ f_buf f = field_names :: rows
    ∧ read_csv (file_name a) w' = (Ok (field_names, rows ++ added), w').
Proof.
  intros H Hf (rows & Hrows & Hwidth).
  destruct (scrape_from_store _ _ _ _ _ _ _ _ _ H Hf) as (_ & added & Hf' & Hw).
  exists rows, added. split; [exact Hrows|].
  apply (read_csv_store _ _ _ _ Hf').
  - simpl. by rewrite app_assoc, Hrows.
  - by apply Forall_app.
Qed.

Lemma store_stays_readable_witness :
  scrape_from ex_env_interrupted ex_params 3 ex_locals ex_world_open
  = Some (ex_interrupted_run.1.1, ex_interrupted_run.1.2, ex_interrupted_run.2)
  ∧ w_files ex_world_open !! file_name ex_params = Some (mkcsv [] [field_names] true true)
  ∧ store_wf (mkcsv [] [field_names] true true)
  ∧ ∃ rows added,
      [] ++ [field_names] = field_names :: rows
      ∧ read_csv (file_name ex_params) ex_interrupted_run.2
        = (Ok (field_names, rows ++ added), ex_interrupted_run.2).
Proof.
  assert (store_wf (mkcsv [] [field_names] true true)) as Hwf.
  { exists []. split; [reflexivity | constructor]. }
  split; [vm_compute; reflexivity|]. split; [vm_compute; reflexivity|].
  split; [exact Hwf|].
  apply (store_stays_readable ex_env_interrupted ex_params 3 ex_locals ex_world_open
           ex_interrupted_run.1.1 ex_interrupted_run.1.2 ex_interrupted_run.2
           (mkcsv [] [field_names] true true)); [vm_compute; reflexivity.. | exact Hwf].
Defined.

(** ** Whole runs *)

Lemma renew_credentials_ok_locals ev a token w l1 w1 :
  renew_credentials ev a (initial_locals ev token) w = (Ok tt, l1, w1) →
  last_id l1 = "" ∧ date l1 = env_now ev ∧ page l1 = 0 ∧ error_count l1 = 0
  ∧ repeat_flag l1 = false.
Proof.
  unfold renew_credentials. intros H.
  destruct (refresh_token _ _ _) as [[tk|e] w']; [|by simplify_eq].
  destruct (update_config_refresh_token _ _ _) as [[|] ?]; by simplify_eq.
Qed.

(** The end of the [try] statement once the loop has ended normally. *)
Lemma scrape_from_done ev a fuel l w l' w' :
  while_loop ev a fuel l w = Some (SNormal, l', w') →
  scrape_from ev a fuel l w
  = Some (SReturn, l',
          add_log (InfoFileClosed (file_name a)) (close_file (file_name a) w')).
Proof. intros H. unfold scrape_from. by rewrite H. Qed.

(** X22. A first run, on a disk without record file, against an endpoint
    with new, well-formed pages of decreasing timestamps: the run creates
    the file, fetches the pages up to the first one that is not after the
    boundary, and returns with the file closed; the disk then holds the
    header once, followed by one line per record of the fetched pages in
    the order received (the id, the converted timestamp, the user name
    and the content of the record), and nothing else. *)
Theorem fresh_run_writes_header_then_pages ev a token w l1 w1 pg newest :
  renew_credentials ev a (initial_locals ev token) w = (Ok tt, l1, w1) →
  w_files w !! file_name a = None →
  w_can_create w = true →
  decreasing_endpoint ev a (w_nlist w) "" pg newest →
  dt_gtb (env_now ev) (start_date a) = true →
  ∃ n fuel l' w' added,
    scrape_sahamyab ev a fuel token w = Some (SReturn, l', w')
    ∧ (∀ j, (j < n)%nat → dt_gtb (row_time (newest j)) (start_date a) = true)
    ∧ dt_gtb (row_time (newest n)) (start_date a) = false
    ∧ w_files w' !! file_name a = Some (mkcsv (field_names :: added) [] false true)
    ∧ Forall2 line_of (items_from pg 0 (S n)) added
    ∧ w_nlist w' = (w_nlist w + S n)%nat.
Proof.
  intros Hrenew Hf Hcreate Hend Hnow.
  destruct (renew_credentials_world _ _ _ _ _ _ _ Hrenew) as (_ & _ & Hnl & Hnw & Hfiles).
  destruct (renew_credentials_ok_locals _ _ _ _ _ _ Hrenew) as (Hlid & Hdate & _).
  pose proof (renew_credentials_create _ _ _ _ _ _ _ Hrenew) as Hc.
  set (l2 := set_repeat false (set_o_mode "w" l1)).
  set (wh := count_write
               (set_files (<[file_name a := mkcsv [] [field_names] true true]>
                             (<[file_name a := mkcsv [] [] true true]> (w_files w1)))
                          (set_files (<[file_name a := mkcsv [] [] true true]> (w_files w1))
                                     w1))).
  destruct (endpoint_run_store ev a (w_nlist w) "" pg newest Hend
              (Z.to_nat (dt_ordinal (row_time (newest 0%nat)))) 0%nat l2 wh
              (mkcsv [] [field_names] true true))
    as (n & fuel & l' & w' & Hrun & Hbefore & Hstop & Hnl' & Hfile & _).
  - lia.
  - subst wh. simpl. rewrite Hnl. lia.
  - subst l2. simpl. rewrite Hlid. apply (de_first _ _ _ _ _ _ Hend).
  - subst wh. simpl. apply lookup_insert_eq.
  - reflexivity.
  - subst l2. simpl. by rewrite Hdate.
  - exists n, fuel, l', (add_log (InfoFileClosed (file_name a))
                                 (close_file (file_name a) w')),
           (cells_from pg 0 (S n)).
    split; [|split; [exact Hbefore|split; [exact Hstop|split; [|split]]]].
    + unfold scrape_sahamyab. rewrite Hrenew.
      unfold seed_cursor. rewrite Hfiles, Hf.
      unfold open_file. simpl. rewrite Hfiles, Hf, Hc, Hcreate.
      unfold try_statement. simpl.
      unfold writerow. simpl. rewrite Hnw, (de_quiet _ _ _ _ _ _ Hend), lookup_insert_eq.
      simpl. fold l2.
      replace (w_files w) with (w_files w1) by exact Hfiles.
      replace (w_nwrite w) with (w_nwrite w1) by exact Hnw.
      fold wh. by rewrite (scrape_from_done _ _ _ _ _ _ _ Hrun).
    + unfold close_file. simpl. rewrite Hfile. simpl. by rewrite lookup_insert_eq.
    + apply (cells_from_lines ev a (w_nlist w) "" pg newest Hend).
    + simpl. destruct (close_file_frame (file_name a) w') as (_ & _ & Hcl & _).
      rewrite Hcl, Hnl'. lia.
Qed.

Lemma fresh_run_writes_header_then_pages_witness :
  w_files ex_world !! file_name ex_params = None
  ∧ w_can_create ex_world = true
  ∧ decreasing_endpoint ex_env_pages ex_params (w_nlist ex_world) "" ex_pages ex_newest
  ∧ dt_gtb (env_now ex_env_pages) (start_date ex_params) = true
  ∧ ∃ fuel l' w',
      scrape_sahamyab ex_env_pages ex_params fuel "R0" ex_world = Some (SReturn, l', w')
      ∧ w_files w' !! "data.csv"
        = Some (mkcsv [["id"; "time"; "user"; "content"];
                       ["9"; "2021-01-01 00:00:00"; "u"; "c"];
                       ["8"; "2020-12-01 00:00:00"; "u"; "c"];
                       ["7"; "2020-09-01 00:00:00"; "u"; "c"];
                       ["6"; "2020-07-01 00:00:00"; "u"; "c"]] [] false true)
      ∧ w_nlist w' = 2%nat.
Proof.
  split; [reflexivity|]. split; [reflexivity|]. split; [exact ex_pages_decreasing|].
  split; [reflexivity|].
  destruct (fresh_run_writes_header_then_pages ex_env_pages ex_params "R0" ex_world
              (set_tokens ("Bearer", "A1", "R1") (initial_locals ex_env_pages "R0"))
              (update_config_refresh_token "config.json" "R1"
                 (add_log InfoNewToken (sent_auth (AuthRequest "R0") ex_world))).2
              ex_pages ex_newest)
    as (n & fuel & l' & w' & added & Hrun & Hbefore & Hstop & Hfile & Hlines & Hnl);
    [vm_compute; reflexivity | reflexivity | reflexivity | exact ex_pages_decreasing
    | reflexivity |].
  pose proof (ex_two_pages n Hbefore Hstop) as ->.
  rewrite (lines_of_items (items_from ex_pages 0 2)
             [mkrow "9" (mkdt 2021 1 1 0 0 0 0) "u" "c";
              mkrow "8" (mkdt 2020 12 1 0 0 0 0) "u" "c";
              mkrow "7" (mkdt 2020 9 1 0 0 0 0) "u" "c";
              mkrow "6" (mkdt 2020 7 1 0 0 0 0) "u" "c"] added) in Hfile;
    [|vm_compute; reflexivity|exact Hlines].
  exists fuel, l', w'. split; [exact Hrun|]. split; [|exact Hnl].
  etrans; [exact Hfile|]. vm_compute. reflexivity.
Defined.

(** X23. A resumed run never writes a second header and never rewrites
    what the file holds: starting from a file whose ids are integers,
    against such an endpoint, the run returns with the file closed and
    the disk holding the old content followed by one line per record of
    the fetched pages, in the order received. *)
Theorem resumed_run_appends_pages ev a token w l1 w1 f rows i t u c z pg newest :
  renew_credentials ev a (initial_locals ev token) w = (Ok tt, l1, w1) →
  w_files w !! file_name a = Some f →
  f_disk f = field_names :: rows ++ [[i; t; u; c]] →
  Forall (fun r => List.length r = 4%nat) rows →
  integer_ids rows →
  int64_field i = Some z →
  f_writable f = true →
  decreasing_endpoint ev a (w_nlist w) (str_int z) pg newest →
  dt_gtb (env_now ev) (start_date a) = true →
  ∃ n fuel l' w' added,
    scrape_sahamyab ev a fuel token w = Some (SReturn, l', w')
    ∧ (∀ j, (j < n)%nat → dt_gtb (row_time (newest j)) (start_date a) = true)
    ∧ dt_gtb (row_time (newest n)) (start_date a) = false
    ∧ w_files w' !! file_name a = Some (mkcsv (f_disk f ++ added) [] false true)
    ∧ Forall2 line_of (items_from pg 0 (S n)) added
    ∧ w_nlist w' = (w_nlist w + S n)%nat.
Proof.
  intros Hrenew Hf Hdisk Hrows Hids Hi Hwr Hend Hnow.
  destruct (renew_credentials_world _ _ _ _ _ _ _ Hrenew) as (_ & _ & Hnl & _ & Hfiles).
  destruct (renew_credentials_ok_locals _ _ _ _ _ _ Hrenew) as (_ & Hdate & _).
  assert (Hf1 : w_files w1 !! file_name a = Some f) by (by rewrite Hfiles).
  set (l2 := set_repeat false (resumed z l1)).
  set (w3 := reopened (file_name a) f w1).
  destruct (endpoint_run_store ev a (w_nlist w) (str_int z) pg newest Hend
              (Z.to_nat (dt_ordinal (row_time (newest 0%nat)))) 0%nat l2 w3
              (mkcsv (f_disk f) [] true true))
    as (n & fuel & l' & w' & Hrun & Hbefore & Hstop & Hnl' & Hfile & _).
  - lia.
  - subst w3. simpl. rewrite Hnl. lia.
  - subst l2. simpl. apply (de_first _ _ _ _ _ _ Hend).
  - subst w3. simpl. apply lookup_insert_eq.
  - reflexivity.
  - subst l2. simpl. by rewrite Hdate.
  - exists n, fuel, l', (add_log (InfoFileClosed (file_name a))
                                 (close_file (file_name a) w')),
           (cells_from pg 0 (S n)).
    split; [|split; [exact Hbefore|split; [exact Hstop|split; [|split]]]].
    + assert (open_file (file_name a) (o_mode (resumed z l1)) w1 = (Ok tt, w3)) as Hopen.
      { unfold open_file. simpl. rewrite Hf1, Hwr. reflexivity. }
      unfold scrape_sahamyab.
      rewrite Hrenew, (seed_cursor_resume a l1 w1 f rows i t u c z Hf1 Hdisk Hrows Hids Hi),
        Hopen.
      unfold try_statement. simpl. fold l2.
      by rewrite (scrape_from_done _ _ _ _ _ _ _ Hrun).
    + unfold close_file. simpl. rewrite Hfile. simpl. by rewrite lookup_insert_eq.
    + apply (cells_from_lines ev a (w_nlist w) (str_int z) pg newest Hend).
    + simpl. destruct (close_file_frame (file_name a) w') as (_ & _ & Hcl & _).
      rewrite Hcl, Hnl'. lia.
Qed.

Lemma ex_pages_decreasing_old :
  decreasing_endpoint ex_env_pages ex_params 0 "10" ex_pages ex_newest.
Proof.
  destruct ex_pages_decreasing as [H1 H2 _ H4 H5 H6].
  split; auto.
Qed.

Lemma resumed_run_appends_pages_witness :
  renew_credentials ex_env_pages ex_params (initial_locals ex_env_pages "R0") ex_world_old
  = (Ok tt, ex_renewed_old.1.2, ex_renewed_old.2)
  ∧ w_files ex_world_old !! file_name ex_params = Some ex_store_old
  ∧ integer_ids [["11"; "2021-03-01 00:00:00"; "u"; "c"]]
  ∧ int64_field "10" = Some 10
  ∧ decreasing_endpoint ex_env_pages ex_params (w_nlist ex_world_old) "10"
                        ex_pages ex_newest
  ∧ ∃ fuel l' w',
      scrape_sahamyab ex_env_pages ex_params fuel "R0" ex_world_old
      = Some (SReturn, l', w')
      ∧ w_files w' !! "data.csv"
        = Some (mkcsv [["id"; "time"; "user"; "content"];
                       ["11"; "2021-03-01 00:00:00"; "u"; "c"];
                       ["10"; "2021-02-01 00:00:00"; "u"; "c"];
                       ["9"; "2021-01-01 00:00:00"; "u"; "c"];
                       ["8"; "2020-12-01 00:00:00"; "u"; "c"];
                       ["7"; "2020-09-01 00:00:00"; "u"; "c"];
                       ["6"; "2020-07-01 00:00:00"; "u"; "c"]] [] false true)
      ∧ w_nlist w' = 2%nat.
Proof.
  assert (Hids : integer_ids [["11"; "2021-03-01 00:00:00"; "u"; "c"]]).
  { constructor; [|constructor]. exists 11. reflexivity. }
  split; [vm_compute; reflexivity|]. split; [vm_compute; reflexivity|].
  split; [exact Hids|]. split; [reflexivity|].
  split; [exact ex_pages_decreasing_old|].
  destruct (resumed_run_appends_pages ex_env_pages ex_params "R0" ex_world_old
              ex_renewed_old.1.2 ex_renewed_old.2 ex_store_old
              [["11"; "2021-03-01 00:00:00"; "u"; "c"]]
              "10" "2021-02-01 00:00:00" "u" "c" 10 ex_pages ex_newest)
    as (n & fuel & l' & w' & added & Hrun & Hbefore & Hstop & Hfile & Hlines & Hnl);
    [vm_compute; reflexivity | vm_compute; reflexivity | reflexivity
    | repeat constructor | exact Hids | reflexivity | reflexivity
    | exact ex_pages_decreasing_old | reflexivity |].
  pose proof (ex_two_pages n Hbefore Hstop) as ->.
  rewrite (lines_of_items (items_from ex_pages 0 2)
             [mkrow "9" (mkdt 2021 1 1 0 0 0 0) "u" "c";
              mkrow "8" (mkdt 2020 12 1 0 0 0 0) "u" "c";
              mkrow "7" (mkdt 2020 9 1 0 0 0 0) "u" "c";
              mkrow "6" (mkdt 2020 7 1 0 0 0 0) "u" "c"] added) in Hfile;
    [|vm_compute; reflexivity|exact Hlines].
  exists fuel, l', w'. split; [exact Hrun|]. split; [|exact Hnl].
  etrans; [exact Hfile|]. vm_compute. reflexivity.
Defined.
